(** * USAAF bombing data: dashboard loader and plotting script

    A shallow embedding of the table operations of [app.py] (the dashboard)
    and [visualize_usaaf_bombing.py] (the plotting script), with the
    properties their specification states about them.

    Conventions of the model.
    - A pandas cell that may be missing (NaN) is an [option]; [None] is NaN.
    - A float cell is the rational ([Q]) a finite float denotes
      ([Pandas.is_float]).  Comparisons against the integer bin edges and
      year bounds are exact on floats.  The year derivation is a float sum
      converted to int64 ([Pandas.int_of_float] rounds and wraps); the
      arithmetic of the other derived columns, sums and means is read as
      exact arithmetic.
    - A Python [str] is a [string] of 8-bit characters.  The functions of
      [PyStr] are Python's on ASCII strings ([PyStr.is_ascii]): case
      conversion acts on the ASCII letters and [strip] removes Python's
      ASCII whitespace.
    - A DataFrame is the list of its rows, in order, with the set of column
      names it carries.  A column of strings read from a file has the
      [.str] accessor when one of its cells is present ([str_accessor]).
    - An exception is a [Raise] of a [result]; a script that stops keeps
      the files it saved so far. *)

From Stdlib Require Import List String Ascii Bool Arith ZArith QArith Qabs Lia Lqa.
Import ListNotations.

Local Close Scope Q_scope.
Local Open Scope nat_scope.

(** ** Python string methods *)

Module PyStr.

(** [c.isspace()] on the ASCII range: tab, newline, vertical tab, form feed,
    carriage return, the four separators 0x1c-0x1f and the space. *)
Definition isspace (c : ascii) : bool :=
  let n := nat_of_ascii c in
  ((9 <=? n) && (n <=? 13)) || ((28 <=? n) && (n <=? 32)).

Definition islower (c : ascii) : bool :=
  let n := nat_of_ascii c in (97 <=? n) && (n <=? 122).

Definition isupper (c : ascii) : bool :=
  let n := nat_of_ascii c in (65 <=? n) && (n <=? 90).

Definition upper_char (c : ascii) : ascii :=
  if islower c then ascii_of_nat (nat_of_ascii c - 32) else c.

Definition lower_char (c : ascii) : ascii :=
  if isupper c then ascii_of_nat (nat_of_ascii c + 32) else c.

Fixpoint map_chars (f : ascii -> ascii) (s : string) : string :=
  match s with
  | EmptyString => EmptyString
  | String c s' => String (f c) (map_chars f s')
  end.

(** [s.upper()] and [s.lower()] *)
Definition upper : string -> string := map_chars upper_char.
Definition lower : string -> string := map_chars lower_char.

(** [s.lstrip()] *)
Fixpoint lstrip (s : string) : string :=
  match s with
  | EmptyString => EmptyString
  | String c s' => if isspace c then lstrip s' else s
  end.

(** [s.rstrip()]: a character is dropped when it is whitespace and nothing
    survives to its right. *)
Fixpoint rstrip (s : string) : string :=
  match s with
  | EmptyString => EmptyString
  | String c s' =>
      match rstrip s' with
      | EmptyString => if isspace c then EmptyString else String c EmptyString
      | r => String c r
      end
  end.

(** [s.strip()] *)
Definition strip (s : string) : string := rstrip (lstrip s).

(** [s.replace(" ", "_")] *)
Definition replace_space_underscore : string -> string :=
  map_chars (fun c => if Ascii.eqb c " "%char then "_"%char else c).

(** No leading and no trailing whitespace. *)
Fixpoint last_char (s : string) : option ascii :=
  match s with
  | EmptyString => None
  | String c EmptyString => Some c
  | String _ s' => last_char s'
  end.

Definition first_char (s : string) : option ascii :=
  match s with
  | EmptyString => None
  | String c _ => Some c
  end.

Definition not_space (o : option ascii) : bool :=
  match o with
  | None => true
  | Some c => negb (isspace c)
  end.

Definition is_trimmed (s : string) : bool :=
  not_space (first_char s) && not_space (last_char s).

(** No lowercase letter occurs. *)
Fixpoint is_uppercased (s : string) : bool :=
  match s with
  | EmptyString => true
  | String c s' => negb (islower c) && is_uppercased s'
  end.

(** Python's [str] methods work on Unicode.  On a string whose characters
    are all in the ASCII range they are the functions of this module; the
    statements about [upper] and [strip] are made for such strings. *)
Fixpoint is_ascii (s : string) : bool :=
  match s with
  | EmptyString => true
  | String c s' => (nat_of_ascii c <? 128) && is_ascii s'
  end.

End PyStr.

(** The location clean-up of both programs:
    [data['target_location'].str.strip().str.upper()], cell by cell; the
    [.str] accessor leaves a missing cell missing. *)
Definition normalize_location (s : string) : string :=
  PyStr.upper (PyStr.strip s).

Definition normalize_location_cell (c : option string) : option string :=
  option_map normalize_location c.

(** A cell that is missing or holds an ASCII string. *)
Definition ascii_cell (c : option string) : bool :=
  match c with
  | Some s => PyStr.is_ascii s
  | None => true
  end.

(** ** pandas: cells, columns and the operations the programs call *)

Module Pandas.

(** [series.fillna(d)] on one cell *)
Definition fillna {A : Type} (d : A) (c : option A) : A :=
  match c with
  | Some v => v
  | None => d
  end.

(** Element-wise arithmetic; NaN propagates. *)
Definition lift2 (f : Q -> Q -> Q) (a b : option Q) : option Q :=
  match a, b with
  | Some x, Some y => Some (f x y)
  | _, _ => None
  end.

Definition sub := lift2 Qminus.
Definition mul := lift2 Qmult.
Definition div := lift2 Qdiv.

(** Rounding of a real number to the nearest float (binary64, ties to
    even, subnormals included): [n/d] lies in [2^e, 2^(e+1)) for
    [e = floor_log2 n d], and is rounded to a multiple of [2^k] with
    [k = max (e - 52) (-1074)].  No finite float added to 1940 overflows,
    so the largest exponent is not looked at. *)
Definition at_least_pow2 (n d : positive) (e : Z) : bool :=
  if (0 <=? e)%Z then (Zpos d * 2 ^ e <=? Zpos n)%Z
  else (Zpos d <=? Zpos n * 2 ^ (- e))%Z.

Definition floor_log2 (n d : positive) : Z :=
  let e0 := (Z.log2 (Zpos n) - Z.log2 (Zpos d))%Z in
  if at_least_pow2 n d e0 then e0 else (e0 - 1)%Z.

Definition round_half_even (N D : Z) : Z :=
  let m := (N / D)%Z in
  let r := (N mod D)%Z in
  match (2 * r ?= D)%Z with
  | Lt => m
  | Gt => (m + 1)%Z
  | Eq => if Z.even m then m else (m + 1)%Z
  end.

Definition round_magnitude (n d : positive) : Q :=
  let k := Z.max (floor_log2 n d - 52) (-1074) in
  if (0 <=? k)%Z then
    inject_Z (round_half_even (Zpos n) (Zpos d * 2 ^ k) * 2 ^ k)
  else
    Qmake (round_half_even (Zpos n * 2 ^ (- k)) (Zpos d))
          (Z.to_pos (2 ^ (- k))).

Definition round_binary64 (q : Q) : Q :=
  match Qnum q with
  | Z0 => 0%Q
  | Zpos n => round_magnitude n (Qden q)
  | Zneg n => Qopp (round_magnitude n (Qden q))
  end.

(** The rationals that are floats: rounding leaves them as they are.  A
    float cell of a table holds such a value. *)
Definition is_float (q : Q) : bool := Qeq_bool (round_binary64 q) q.

Definition float_cell (c : option Q) : bool :=
  match c with
  | Some q => is_float q
  | None => true
  end.

(** [astype(int)] of the float an expression evaluates to: the exact
    value [q] of the expression is rounded to a float, and the float is
    truncated toward zero into an int64; a value outside the int64 range
    becomes the smallest int64, which is what the conversion gives on
    x86-64 (the C conversion is undefined there). *)
Definition int_of_float (q : Q) : Z :=
  let x := round_binary64 q in
  let t := Z.quot (Qnum x) (Zpos (Qden x)) in
  if ((- 2 ^ 63 <=? t) && (t <? 2 ^ 63))%Z then t else (- 2 ^ 63)%Z.

Definition Qlt_bool (a b : Q) : bool := negb (Qle_bool b a).

Definition Qsum (l : list Q) : Q := fold_right Qplus 0%Q l.

(** The defined (non-NaN) values of a column, in order. *)
Fixpoint dropna {A : Type} (col : list (option A)) : list A :=
  match col with
  | [] => []
  | Some v :: rest => v :: dropna rest
  | None :: rest => dropna rest
  end.

(** [series.mean()], with the default [skipna=True]: the mean of the
    defined values, NaN when there is none.  The sum and the quotient are
    exact; the rounding of the float sum is not modelled. *)
Definition mean (col : list (option Q)) : option Q :=
  match dropna col with
  | [] => None
  | v :: vs => Some (Qsum (v :: vs) / inject_Z (Z.of_nat (List.length (v :: vs))))%Q
  end.

(** [bins.searchsorted(x, side='left')] on increasing [bins]: the number
    of edges strictly below [x]. *)
Fixpoint searchsorted_left (bins : list Q) (x : Q) : nat :=
  match bins with
  | [] => 0
  | b :: rest => if Qlt_bool b x then S (searchsorted_left rest x) else 0
  end.

(** [pd.cut(x, bins, labels=labels)] on one cell, with the defaults
    [right=True] and [include_lowest=False]: the cell gets the label of
    index [ids - 1], and is NaN when [ids] is 0 or [len(bins)], or when
    the cell is NaN. *)
Definition cut {L : Type} (bins : list Q) (labels : list L)
    (x : option Q) : option L :=
  match x with
  | None => None
  | Some v =>
      let ids := searchsorted_left bins v in
      if (ids =? 0) || (ids =? List.length bins) then None
      else nth_error labels (ids - 1)
  end.

(** [pd.crosstab(index, columns)]: a pair with a NaN on either side is not
    counted.  [count] is the cell of the table, the columns are the
    categories that occur, in category order, and [row_sum] is
    [table.sum(axis=1)]. *)
Section Crosstab.
Context {K : Type} (eqb : K -> K -> bool).

Definition hit (k : K) (c : string) (p : option K * option string) : bool :=
  match p with
  | (Some k', Some c') => eqb k' k && String.eqb c' c
  | _ => false
  end.

Definition count (pairs : list (option K * option string))
    (k : K) (c : string) : nat :=
  List.length (filter (hit k c) pairs).

Definition observed (pairs : list (option K * option string))
    (c : string) : bool :=
  existsb (fun p => match p with
                    | (Some _, Some c') => String.eqb c' c
                    | _ => false
                    end) pairs.

Definition crosstab_columns (categories : list string)
    (pairs : list (option K * option string)) : list string :=
  filter (observed pairs) categories.

Definition row_sum (categories : list string)
    (pairs : list (option K * option string)) (k : K) : nat :=
  list_sum (map (count pairs k) (crosstab_columns categories pairs)).

(** [table.div(table.sum(axis=1), axis=0) * 100], one row of it. *)
Definition pct_row (categories : list string)
    (pairs : list (option K * option string)) (k : K) : list Q :=
  map (fun c =>
         (inject_Z (Z.of_nat (count pairs k c))
          / inject_Z (Z.of_nat (row_sum categories pairs k)) * 100)%Q)
      (crosstab_columns categories pairs).
End Crosstab.

End Pandas.

(** ** The raid table *)

(** One row of [usaaf_raids_full.csv] with the columns the two programs
    read, followed by the columns the plotting script adds. *)
Record Raid : Type := mkRaid {
  target_location : option string;
  CATEGORY : option string;
  YEAR : option Q;
  Year : option Z;
  AREA_BOMBING_SCORE_NORMALIZED : option Q;
  TOTAL_TONS : option Q;
  INCENDIARY_PERCENT : option Q;
  Location : option string;
  Score_Category : option string;
  HE_PERCENT : option Q;
  HE_TONS : option Q;
  INCENDIARY_TONS : option Q
}.

Definition set_target_location (v : option string) (r : Raid) : Raid :=
  mkRaid v (CATEGORY r) (YEAR r) (Year r) (AREA_BOMBING_SCORE_NORMALIZED r)
    (TOTAL_TONS r) (INCENDIARY_PERCENT r) (Location r) (Score_Category r)
    (HE_PERCENT r) (HE_TONS r) (INCENDIARY_TONS r).

Definition set_YEAR (v : option Q) (r : Raid) : Raid :=
  mkRaid (target_location r) (CATEGORY r) v (Year r)
    (AREA_BOMBING_SCORE_NORMALIZED r) (TOTAL_TONS r) (INCENDIARY_PERCENT r)
    (Location r) (Score_Category r) (HE_PERCENT r) (HE_TONS r)
    (INCENDIARY_TONS r).

Definition set_Year (v : option Z) (r : Raid) : Raid :=
  mkRaid (target_location r) (CATEGORY r) (YEAR r) v
    (AREA_BOMBING_SCORE_NORMALIZED r) (TOTAL_TONS r) (INCENDIARY_PERCENT r)
    (Location r) (Score_Category r) (HE_PERCENT r) (HE_TONS r)
    (INCENDIARY_TONS r).

Definition set_INCENDIARY_PERCENT (v : option Q) (r : Raid) : Raid :=
  mkRaid (target_location r) (CATEGORY r) (YEAR r) (Year r)
    (AREA_BOMBING_SCORE_NORMALIZED r) (TOTAL_TONS r) v
    (Location r) (Score_Category r) (HE_PERCENT r) (HE_TONS r)
    (INCENDIARY_TONS r).

Definition set_Location (v : option string) (r : Raid) : Raid :=
  mkRaid (target_location r) (CATEGORY r) (YEAR r) (Year r)
    (AREA_BOMBING_SCORE_NORMALIZED r) (TOTAL_TONS r) (INCENDIARY_PERCENT r)
    v (Score_Category r) (HE_PERCENT r) (HE_TONS r) (INCENDIARY_TONS r).

Definition set_Score_Category (v : option string) (r : Raid) : Raid :=
  mkRaid (target_location r) (CATEGORY r) (YEAR r) (Year r)
    (AREA_BOMBING_SCORE_NORMALIZED r) (TOTAL_TONS r) (INCENDIARY_PERCENT r)
    (Location r) v (HE_PERCENT r) (HE_TONS r) (INCENDIARY_TONS r).

Definition set_HE_PERCENT (v : option Q) (r : Raid) : Raid :=
  mkRaid (target_location r) (CATEGORY r) (YEAR r) (Year r)
    (AREA_BOMBING_SCORE_NORMALIZED r) (TOTAL_TONS r) (INCENDIARY_PERCENT r)
    (Location r) (Score_Category r) v (HE_TONS r) (INCENDIARY_TONS r).

Definition set_HE_TONS (v : option Q) (r : Raid) : Raid :=
  mkRaid (target_location r) (CATEGORY r) (YEAR r) (Year r)
    (AREA_BOMBING_SCORE_NORMALIZED r) (TOTAL_TONS r) (INCENDIARY_PERCENT r)
    (Location r) (Score_Category r) (HE_PERCENT r) v (INCENDIARY_TONS r).

Definition set_INCENDIARY_TONS (v : option Q) (r : Raid) : Raid :=
  mkRaid (target_location r) (CATEGORY r) (YEAR r) (Year r)
    (AREA_BOMBING_SCORE_NORMALIZED r) (TOTAL_TONS r) (INCENDIARY_PERCENT r)
    (Location r) (Score_Category r) (HE_PERCENT r) (HE_TONS r) v.

(** A DataFrame: its column names and its rows.  A field of a row whose
    column the frame does not carry is never read. *)
Record DataFrame : Type := mkDataFrame {
  columns : list string;
  rows : list Raid
}.

(** [pd.DataFrame()] *)
Definition empty_frame : DataFrame := mkDataFrame [] [].

(** [name in df.columns] *)
Definition has_column (df : DataFrame) (name : string) : bool :=
  existsb (String.eqb name) (columns df).

(** [df[name] = ...]: the column is appended when it is new. *)
Definition assign_column (name : string) (f : Raid -> Raid)
    (df : DataFrame) : DataFrame :=
  mkDataFrame
    (if has_column df name then columns df else columns df ++ [name])
    (map f (rows df)).

(** [df[mask]]: the rows the mask keeps, under the same columns. *)
Definition select (mask : Raid -> bool) (df : DataFrame) : DataFrame :=
  mkDataFrame (columns df) (filter mask (rows df)).

(** [df.loc[df['Year'] <cond>, 'Year'] = v] on one row; a comparison with a
    missing year is false. *)
Definition loc_Year (cond : Z -> bool) (v : Z) (r : Raid) : Raid :=
  match Year r with
  | Some y => if cond y then set_Year (Some v) r else r
  | None => r
  end.

Inductive exn : Type :=
| KeyError
| AttributeError
| IntCastingNaNError
| ValueError.

Inductive result (A : Type) : Type :=
| Ok (a : A)
| Raise (e : exn).
Arguments Ok {A} a.
Arguments Raise {A} e.

(** [series.str]: a column of a table with rows has the accessor when it
    was read as strings, that is when at least one of its cells is
    present; a column of missing cells only is a float column, and the
    accessor raises [AttributeError].  A column without rows is read as
    strings. *)
Definition str_accessor (col : list (option string)) : bool :=
  match col with
  | [] => true
  | _ => existsb (fun c => match c with Some _ => true | None => false end) col
  end.

(** ** app.py: the dashboard *)

Module App.

(** The values the filter widgets pass as [filter_value]. *)
Inductive PyVal : Type :=
| VStr (s : string)
| VInt (z : Z).

(** DataFrames are objects: a function gets and returns references into
    a store, and [df[mask]] allocates a new frame. *)
Definition Heap : Type := list DataFrame.

Definition deref (h : Heap) (ref : nat) : DataFrame := nth ref h empty_frame.

Definition alloc (h : Heap) (df : DataFrame) : nat * Heap :=
  (List.length h, h ++ [df]).

(** [series == value] on one cell: a missing cell and a value of another
    type compare unequal. *)
Definition str_cell_eq (c : option string) (v : PyVal) : bool :=
  match c, v with
  | Some s, VStr t => String.eqb s t
  | _, _ => false
  end.

Definition int_cell_eq (c : option Z) (v : PyVal) : bool :=
  match c, v with
  | Some y, VInt z => Z.eqb y z
  | _, _ => false
  end.

(** [filter_value.upper()] *)
Definition py_upper (v : PyVal) : result PyVal :=
  match v with
  | VStr s => Ok (VStr (PyStr.upper s))
  | VInt _ => Raise AttributeError
  end.

Definition get_filtered_df (h : Heap) (df : nat)
    (filter_type : string) (filter_value : PyVal) : result (nat * Heap) :=
  let d := deref h df in
  if String.eqb filter_type "city" then
    if has_column d "target_location" then
      match py_upper filter_value with
      | Ok v =>
          Ok (alloc h (select (fun r => str_cell_eq (target_location r) v) d))
      | Raise e => Raise e
      end
    else Raise KeyError
  else if String.eqb filter_type "category" then
    if has_column d "CATEGORY" then
      Ok (alloc h (select (fun r => str_cell_eq (CATEGORY r) filter_value) d))
    else Raise KeyError
  else if String.eqb filter_type "year" then
    if has_column d "Year" then
      Ok (alloc h (select (fun r => int_cell_eq (Year r) filter_value) d))
    else Raise KeyError
  else Ok (df, h).

(** The three averages of [display_data_table], for a frame that carries
    the score, tonnage and incendiary columns (the page raises [KeyError]
    without them); each is [series.mean()]. *)
Record Summary : Type := mkSummary {
  average_score : option Q;
  average_tonnage : option Q;
  average_incendiary : option Q
}.

Definition summary_statistics (filtered_df : DataFrame) : Summary :=
  mkSummary
    (Pandas.mean (map AREA_BOMBING_SCORE_NORMALIZED (rows filtered_df)))
    (Pandas.mean (map TOTAL_TONS (rows filtered_df)))
    (Pandas.mean (map INCENDIARY_PERCENT (rows filtered_df))).

(** The year of one row, as the three statements on the [Year] column
    compute it from the row's offset. *)
Definition derive_Year (offset : Q) : Z :=
  let y := Pandas.int_of_float (1940 + offset)%Q in
  let y := if (y <? 1939)%Z then 1940%Z else y in
  if (y >? 1946)%Z then 1945%Z else y.

(** [(1940 + data['YEAR'].astype(float)).astype(int)]: the conversion
    raises on a column with a missing value. *)
Fixpoint astype_int_Year (rs : list Raid) : result (list Raid) :=
  match rs with
  | [] => Ok []
  | r :: rest =>
      match YEAR r, astype_int_Year rest with
      | Some offset, Ok rest' =>
          Ok (set_Year (Some (Pandas.int_of_float (1940 + offset)%Q)) r
                :: rest')
      | None, _ => Raise IntCastingNaNError
      | _, Raise e => Raise e
      end
  end.

Definition add_Year (data : DataFrame) : result DataFrame :=
  if negb (has_column data "Year") && has_column data "YEAR" then
    match astype_int_Year (rows data) with
    | Ok rs =>
        let d1 := mkDataFrame (columns data ++ ["Year"%string]) rs in
        let d2 :=
          assign_column "Year" (loc_Year (fun y => (y <? 1939)%Z) 1940%Z) d1 in
        Ok (assign_column "Year" (loc_Year (fun y => (y >? 1946)%Z) 1945%Z) d2)
    | Raise e => Raise e
    end
  else Ok data.

(** [data['target_location'].str.strip().str.upper()]: [KeyError] without
    the column, [AttributeError] when the column holds no string. *)
Definition normalize_target_location (data : DataFrame) : result DataFrame :=
  if has_column data "target_location" then
    if str_accessor (map target_location (rows data)) then
      Ok (assign_column "target_location"
            (fun r =>
               set_target_location
                 (normalize_location_cell (target_location r)) r)
            data)
    else Raise AttributeError
  else Raise KeyError.

(** [load_data], applied to the frame [pd.read_csv] returned; an
    exception in the body yields the empty frame. *)
Definition load_data (csv : DataFrame) : DataFrame :=
  match add_Year csv with
  | Ok data =>
      match normalize_target_location data with
      | Ok data' => data'
      | Raise _ => empty_frame
      end
  | Raise _ => empty_frame
  end.

End App.

(** ** visualize_usaaf_bombing.py: the plotting script *)

Module Visualize.

(** The year of one row of the plotting script; a missing offset is
    filled with 0 first. *)
Definition derive_Year (offset : option Q) : Z :=
  let y := Pandas.int_of_float (1940 + Pandas.fillna 0%Q offset)%Q in
  let y := if (y <? 1941)%Z then 1941%Z else y in
  if (y >? 1946)%Z then 1945%Z else y.

Definition clean_year (df : DataFrame) : DataFrame :=
  if negb (has_column df "Year") && has_column df "YEAR" then
    let d1 :=
      assign_column "YEAR"
        (fun r => set_YEAR (Some (Pandas.fillna 0%Q (YEAR r))) r) df in
    let d2 :=
      assign_column "Year"
        (fun r =>
           set_Year
             (option_map (fun y => Pandas.int_of_float (1940 + y)%Q) (YEAR r))
             r)
        d1 in
    let d3 :=
      assign_column "Year" (loc_Year (fun y => (y <? 1941)%Z) 1941%Z) d2 in
    assign_column "Year" (loc_Year (fun y => (y >? 1946)%Z) 1945%Z) d3
  else df.

(** [df['Location'] = df['target_location'].str.strip().str.upper()] *)
Definition add_Location (df : DataFrame) : result DataFrame :=
  if has_column df "target_location" then
    if str_accessor (map target_location (rows df)) then
      Ok (assign_column "Location"
            (fun r =>
               set_Location (normalize_location_cell (target_location r)) r)
            df)
    else Raise AttributeError
  else Raise KeyError.

(** *** Score categories *)

Definition bins : list Q := [0; 2; 4; 6; 8; 10]%Q.

Definition labels : list string :=
  ["Very Precise (0-2)"; "Precise (2-4)"; "Mixed (4-6)"; "Area (6-8)";
   "Heavy Area (8-10)"]%string.

Definition score_category (score : option Q) : option string :=
  Pandas.cut bins labels score.

Definition add_score_category (df : DataFrame) : DataFrame :=
  assign_column "Score Category"
    (fun r =>
       set_Score_Category
         (score_category (AREA_BOMBING_SCORE_NORMALIZED r)) r)
    df.

(** *** generate_plots: the files it saves, in order

    [generate_plots] is the list of files of a call that runs to its end;
    [generate_plots_run] is the call itself, statement by statement: the
    files saved so far and the exception that stopped it, if any. *)

Definition file_stem (group_name : string) : string :=
  PyStr.lower (PyStr.replace_space_underscore group_name).

Definition plot_file (save_dir kind group_name : string) : string :=
  (save_dir ++ "/" ++ kind ++ "_" ++ file_stem group_name ++ ".png")%string.

Definition score_distribution_file (save_dir group_name : string) :=
  plot_file save_dir "score_distribution" group_name.
Definition tonnage_vs_incendiary_file (save_dir group_name : string) :=
  plot_file save_dir "tonnage_vs_incendiary" group_name.
Definition scores_by_target_type_file (save_dir group_name : string) :=
  plot_file save_dir "scores_by_target_type" group_name.
Definition category_pie_file (save_dir group_name : string) :=
  plot_file save_dir "category_pie" group_name.
Definition component_radar_file (save_dir group_name : string) :=
  plot_file save_dir "component_radar" group_name.

Definition generate_plots (data : DataFrame)
    (group_name save_dir : string) : list string :=
  [score_distribution_file save_dir group_name;
   tonnage_vs_incendiary_file save_dir group_name;
   scores_by_target_type_file save_dir group_name]
  ++ (if 20 <? List.length (rows data)
      then [category_pie_file save_dir group_name] else [])
  ++ (if 5 <=? List.length (rows data)
      then [component_radar_file save_dir group_name] else []).

(** Some row has a score category: [data['Score Category'].value_counts()]
    has a count that is not zero. *)
Definition categorized (data : DataFrame) : bool :=
  existsb (fun r => match Score_Category r with
                    | Some _ => true
                    | None => false
                    end) (rows data).

(** The columns the five steps read. *)
Definition plot_columns : list string :=
  ["AREA_BOMBING_SCORE_NORMALIZED"; "TOTAL_TONS"; "INCENDIARY_PERCENT";
   "TARGET_SCORE"; "Score Category"; "TONNAGE_SCORE"; "INCENDIARY_SCORE"]%string.

(** The pie step: [data['Score Category']] raises [KeyError] without the
    column, and [cat_counts.plot.pie] raises [ValueError] when every count
    is zero (the wedge sizes are 0/0). *)
Definition pie_step (data : DataFrame) (group_name save_dir : string)
    (saved : list string) : result (list string) :=
  if 20 <? List.length (rows data) then
    if has_column data "Score Category" then
      if categorized data
      then Ok (saved ++ [category_pie_file save_dir group_name])
      else Raise ValueError
    else Raise KeyError
  else Ok saved.

Definition radar_step (data : DataFrame) (group_name save_dir : string)
    (saved : list string) : result (list string) :=
  if 5 <=? List.length (rows data) then
    if has_column data "TARGET_SCORE" && has_column data "TONNAGE_SCORE"
       && has_column data "INCENDIARY_SCORE"
    then Ok (saved ++ [component_radar_file save_dir group_name])
    else Raise KeyError
  else Ok saved.

Definition generate_plots_run (data : DataFrame)
    (group_name save_dir : string) : list string * option exn :=
  if negb (has_column data "AREA_BOMBING_SCORE_NORMALIZED")
  then ([], Some KeyError) else
  let saved1 := [score_distribution_file save_dir group_name] in
  if negb (has_column data "TOTAL_TONS" && has_column data "INCENDIARY_PERCENT")
  then (saved1, Some KeyError) else
  let saved2 := saved1 ++ [tonnage_vs_incendiary_file save_dir group_name] in
  if negb (has_column data "TARGET_SCORE")
  then (saved2, Some KeyError) else
  let saved3 := saved2 ++ [scores_by_target_type_file save_dir group_name] in
  match pie_step data group_name save_dir saved3 with
  | Raise e => (saved3, Some e)
  | Ok saved4 =>
      match radar_step data group_name save_dir saved4 with
      | Raise e => (saved4, Some e)
      | Ok saved5 => (saved5, None)
      end
  end.

(** *** Grouped summaries *)

(** [df[df['Year'] == year]] *)
Definition year_data (df : DataFrame) (year : Z) : DataFrame :=
  select (fun r => match Year r with
                   | Some y => Z.eqb y year
                   | None => false
                   end) df.

(** One entry of [df.groupby('Year')[score].agg('mean')]. *)
Definition yearly_mean (df : DataFrame) (year : Z) : option Q :=
  Pandas.mean (map AREA_BOMBING_SCORE_NORMALIZED (rows (year_data df year))).

(** [pd.crosstab(df['Year'], df['Score Category'])] *)
Definition year_cat (df : DataFrame) : list (option Z * option string) :=
  map (fun r => (Year r, Score_Category r)) (rows df).

(** The row of [year_cat_pct] for one year; the table keeps the years
    1941 to 1945 that have a counted raid. *)
Definition year_cat_pct (df : DataFrame) (year : Z) : option (list Q) :=
  if (1941 <=? year)%Z && (year <=? 1945)%Z
     && (0 <? Pandas.row_sum Z.eqb labels (year_cat df) year)
  then Some (Pandas.pct_row Z.eqb labels (year_cat df) year)
  else None.

(** [pd.crosstab] of [Location] against [Score Category] over the rows
    whose location is one of [top_cities]. *)
Definition in_top_cities (top_cities : list string) (r : Raid) : bool :=
  match Location r with
  | Some c => existsb (String.eqb c) top_cities
  | None => false
  end.

Definition city_categories (top_cities : list string) (df : DataFrame)
    : list (option string * option string) :=
  map (fun r => (Location r, Score_Category r))
      (rows (select (in_top_cities top_cities) df)).

Definition city_categories_pct (top_cities : list string) (df : DataFrame)
    (city : string) : option (list Q) :=
  if 0 <? Pandas.row_sum String.eqb labels (city_categories top_cities df) city
  then Some (Pandas.pct_row String.eqb labels
               (city_categories top_cities df) city)
  else None.

(** *** High-explosive and incendiary tonnage *)

Definition add_he_columns (df : DataFrame) : DataFrame :=
  let d1 :=
    assign_column "INCENDIARY_PERCENT"
      (fun r =>
         set_INCENDIARY_PERCENT
           (Some (Pandas.fillna 0%Q (INCENDIARY_PERCENT r))) r) df in
  let d2 :=
    assign_column "HE_PERCENT"
      (fun r =>
         set_HE_PERCENT (Pandas.sub (Some 100%Q) (INCENDIARY_PERCENT r)) r)
      d1 in
  let d3 :=
    assign_column "HE_TONS"
      (fun r =>
         set_HE_TONS
           (Pandas.div (Pandas.mul (TOTAL_TONS r) (HE_PERCENT r))
              (Some 100%Q)) r)
      d2 in
  assign_column "INCENDIARY_TONS"
    (fun r =>
       set_INCENDIARY_TONS
         (Pandas.div (Pandas.mul (TOTAL_TONS r) (INCENDIARY_PERCENT r))
            (Some 100%Q)) r)
    d3.

(** The [Avg_Incendiary] entry of a group of the quarterly table, which
    is computed after [add_he_columns]. *)
Definition avg_incendiary (df : DataFrame) : option Q :=
  Pandas.mean (map INCENDIARY_PERCENT (rows (add_he_columns df))).

End Visualize.

(** ** The specification's binning, for comparison *)

(** The five bins as the specification words them: closed on the left and
    open on the right, the last one closed on both ends. *)
Definition spec_score_category (score : Q) : option string :=
  if Qle_bool 0 score && Pandas.Qlt_bool score 2 then Some "Very Precise (0-2)"%string
  else if Qle_bool 2 score && Pandas.Qlt_bool score 4 then Some "Precise (2-4)"%string
  else if Qle_bool 4 score && Pandas.Qlt_bool score 6 then Some "Mixed (4-6)"%string
  else if Qle_bool 6 score && Pandas.Qlt_bool score 8 then Some "Area (6-8)"%string
  else if Qle_bool 8 score && Qle_bool score 10 then Some "Heavy Area (8-10)"%string
  else None.

(** The average that counts a missing cell as 0, as the specification
    words it. *)
Definition spec_mean_missing_as_zero (col : list (option Q)) : option Q :=
  Pandas.mean (map (fun c => Some (Pandas.fillna 0%Q c)) col).

(** ** The score range *)

(** A score cell that is present and lies in [0,10]. *)
Definition in_range (c : option Q) : bool :=
  match c with
  | Some v => Qle_bool 0 v && Qle_bool v 10
  | None => false
  end.

Definition scores (df : DataFrame) : list (option Q) :=
  map AREA_BOMBING_SCORE_NORMALIZED (rows df).

Definition scores_in_range (df : DataFrame) : bool :=
  forallb in_range (scores df).

(** ** More of Python's strings *)

From Stdlib Require Import DecimalString.

Module PyStrExtra.

(** [s.split(' ')[0]]: the characters before the first space. *)
Fixpoint split_space_first (s : string) : string :=
  match s with
  | EmptyString => EmptyString
  | String c s' =>
      if Ascii.eqb c " "%char then EmptyString
      else String c (split_space_first s')
  end.

(** [' ' in s] *)
Fixpoint has_space (s : string) : bool :=
  match s with
  | EmptyString => false
  | String c s' => Ascii.eqb c " "%char || has_space s'
  end.

(** [str(n)] for an integer, as an f-string writes it. *)
Definition str_int (n : Z) : string := NilZero.string_of_int (Z.to_int n).

End PyStrExtra.

(** ** app.py: the pages *)

Module Dashboard.

Definition PLOT_PATH : string := "plots/usaaf".

(** The two marks of the city selector, as their UTF-8 bytes. *)
Definition check_mark : string :=
  String (ascii_of_nat 226) (String (ascii_of_nat 156)
    (String (ascii_of_nat 147) EmptyString)).

Definition circle_mark : string :=
  String (ascii_of_nat 226) (String (ascii_of_nat 151)
    (String (ascii_of_nat 139) EmptyString)).

(** [f"{PLOT_PATH}/cities/{kind}_city_{city.lower()}.png"] *)
Definition city_plot_path (kind city : string) : string :=
  (PLOT_PATH ++ "/cities/" ++ kind ++ "_city_" ++ PyStr.lower city ++ ".png")%string.

(** [f"{PLOT_PATH}/categories/{kind}_category_{category.lower()}.png"] *)
Definition category_plot_path (kind category : string) : string :=
  (PLOT_PATH ++ "/categories/" ++ kind ++ "_category_"
     ++ PyStr.lower category ++ ".png")%string.

(** The test of [get_cities_with_visualizations] for one city;
    [path_exists] is [os.path.exists]. *)
Definition city_has_visualizations (path_exists : string -> bool)
    (city : string) : bool :=
  path_exists (city_plot_path "score_distribution" city)
  || path_exists (city_plot_path "tonnage_vs_incendiary" city)
  || path_exists (city_plot_path "scores_by_target_type" city)
  || path_exists (city_plot_path "category_pie" city).

Definition get_cities_with_visualizations (path_exists : string -> bool)
    (cities : list string) : list (string * bool) :=
  map (fun city => (city, city_has_visualizations path_exists city)) cities.

(** One entry of [city_options] and the city read back from the selected
    entry. *)
Definition city_option (entry : string * bool) : string :=
  (fst entry ++ " " ++ (if snd entry then check_mark else circle_mark))%string.

Definition selected_city (selected_city_option : string) : string :=
  PyStrExtra.split_space_first selected_city_option.

(** [f"{PLOT_PATH}/years/{kind}_year_{selected_year}.png"] *)
Definition year_plot_path (kind : string) (selected_year : Z) : string :=
  (PLOT_PATH ++ "/years/" ++ kind ++ "_year_"
     ++ PyStrExtra.str_int selected_year ++ ".png")%string.

(** [sorted([y for y in range(1940, 1946)])] *)
Definition years : list Z :=
  map (fun i => (1940 + Z.of_nat i)%Z) (seq 0 6).

(** [rows.iloc[start:stop]] for [start] and [stop] within the length. *)
Definition iloc {A : Type} (l : list A) (start stop : nat) : list A :=
  firstn (stop - start) (skipn start l).

(** The largest value the "Starting row" input accepts. *)
Definition max_start (filtered_df : DataFrame) (num_rows : nat) : nat :=
  Nat.max 0 (List.length (rows filtered_df) - num_rows).

(** What [display_data_table] shows: the two counts of its heading, the
    rows of the table and the averages; nothing for an empty frame.
    [contains term r] is the cell of
    [df['target_name'].str.contains(term, case=False, na=False)] for the
    row [r], and [start_idx] the value of the "Starting row" input. *)
Record Display : Type := mkDisplay {
  shown : nat;
  total : nat;
  page : list Raid;
  statistics : App.Summary
}.

Definition display_data_table (contains : string -> Raid -> bool)
    (df : DataFrame) (search_term : string) (start_idx num_rows : nat)
    : option Display :=
  if 0 <? List.length (rows df) then
    let filtered_df :=
      match search_term with
      | EmptyString => df
      | _ => select (contains search_term) df
      end in
    let end_idx :=
      Nat.min (start_idx + num_rows) (List.length (rows filtered_df)) in
    Some (mkDisplay (Nat.min num_rows (List.length (rows df)))
            (List.length (rows df))
            (iloc (rows filtered_df) start_idx end_idx)
            (App.summary_statistics filtered_df))
  else None.

End Dashboard.

(** ** visualize_usaaf_bombing.py: more of the script *)

Module Plotting.

Definition Qmaximum (a b : Q) : Q := if Pandas.Qlt_bool a b then b else a.
Definition Qminimum (a b : Q) : Q := if Pandas.Qlt_bool b a then b else a.

(** [series.clip(lower, upper)] on one cell: the minimum with [upper] of
    the maximum with [lower]; a missing cell stays missing. *)
Definition clip (lower upper : Q) (c : option Q) : option Q :=
  option_map (fun v => Qminimum (Qmaximum v lower) upper) c.

(** [df['TOTAL_TONS'].clip(0, 500)] *)
Definition tonnage_data (df : DataFrame) : list (option Q) :=
  map (fun r => clip 0 500 (TOTAL_TONS r)) (rows df).

(** The sum of a group's column in [groupby(...).agg('sum')]: missing
    cells are left out. *)
Definition sum_skipna (col : list (option Q)) : Q :=
  Pandas.Qsum (Pandas.dropna col).

(** One row of [bombing_by_year]. *)
Record Tonnage : Type := mkTonnage {
  total_tons : Q;
  he_tons : Q;
  incendiary_tons : Q
}.

Definition bombing_by_year (df : DataFrame) (year : Z) : Tonnage :=
  let group :=
    rows (Visualize.year_data (Visualize.add_he_columns df) year) in
  mkTonnage (sum_skipna (map TOTAL_TONS group))
            (sum_skipna (map HE_TONS group))
            (sum_skipna (map INCENDIARY_TONS group)).

(** The percentage texts on one stacked bar: the loop over the columns of
    a row, which writes a segment of at least 5 at the middle of the
    segment and then adds the segment to [cumulative_sum].  A text is
    its height and its value. *)
Fixpoint bar_labels (cumulative_sum : Q) (row : list Q) : list (Q * Q) :=
  match row with
  | [] => []
  | v :: rest =>
      (if Qle_bool 5 v then [((cumulative_sum + v / 2)%Q, v)] else [])
      ++ bar_labels (cumulative_sum + v)%Q rest
  end.

(** [series.unique()] on the present values: each value once, in the
    order of first appearance. *)
Fixpoint unique (l : list string) : list string :=
  match l with
  | [] => []
  | x :: rest => x :: filter (fun y => negb (String.eqb x y)) (unique rest)
  end.

(** [df[df['CATEGORY'] == category]] *)
Definition category_data (df : DataFrame) (category : string) : DataFrame :=
  select (fun r => match CATEGORY r with
                   | Some c => String.eqb c category
                   | None => false
                   end) df.

(** The table the loops run on: the year clean-up, the location column
    and the score categories, in the order of the script. *)
Definition prepare (df : DataFrame) : result DataFrame :=
  match Visualize.add_Location (Visualize.clean_year df) with
  | Ok d => Ok (Visualize.add_score_category d)
  | Raise e => Raise e
  end.

(** A loop of [generate_plots] calls into one directory: the calls run
    one after the other, and the first one that raises ends the script.
    The result is the files saved, in order, and that exception. *)
Fixpoint run_calls (calls : list (DataFrame * string)) (save_dir : string)
    : list string * option exn :=
  match calls with
  | [] => ([], None)
  | (data, group_name) :: rest =>
      match Visualize.generate_plots_run data group_name save_dir with
      | (saved, Some e) => (saved, Some e)
      | (saved, None) =>
          let (more, err) := run_calls rest save_dir in (saved ++ more, err)
      end
  end.

(** The loop over [df['CATEGORY'].unique()], which skips the missing
    value. *)
Definition category_calls (df : DataFrame) : list (DataFrame * string) :=
  map (fun category =>
         (category_data df category, ("Category " ++ category)%string))
    (unique (Pandas.dropna (map CATEGORY (rows df)))).

Definition plots_by_category_run (df : DataFrame) : list string * option exn :=
  run_calls (category_calls df) "plots/usaaf/categories".

(** [sorted(...)] on integers. *)
Fixpoint insert_sorted (x : Z) (l : list Z) : list Z :=
  match l with
  | [] => [x]
  | y :: rest => if (x <=? y)%Z then x :: l else y :: insert_sorted x rest
  end.

Definition sorted (l : list Z) : list Z := fold_right insert_sorted [] l.

Fixpoint unique_years (l : list Z) : list Z :=
  match l with
  | [] => []
  | x :: rest => x :: filter (fun y => negb (Z.eqb x y)) (unique_years rest)
  end.

(** The loop over [sorted(df['Year'].unique())], for the [Year] column
    of integers the script derives (no year missing, so that
    [f"Year {year}"] prints an integer). *)
Definition year_calls (df : DataFrame) : list (DataFrame * string) :=
  flat_map
    (fun year =>
       if (1941 <=? year)%Z && (year <=? 1945)%Z then
         let year_data := Visualize.year_data df year in
         if 0 <? List.length (rows year_data) then
           [(year_data, ("Year " ++ PyStrExtra.str_int year)%string)]
         else []
       else [])
    (sorted (unique_years (Pandas.dropna (map Year (rows df))))).

Definition plots_by_year_run (df : DataFrame) : list string * option exn :=
  run_calls (year_calls df) "plots/usaaf/years".

End Plotting.

(** ** Strings: lemmas *)

Lemma isspace_upper_char (c : ascii) :
  PyStr.isspace (PyStr.upper_char c) = PyStr.isspace c.
Proof.
  destruct c as [[] [] [] [] [] [] [] []]; reflexivity.
Qed.

Lemma upper_char_idem (c : ascii) :
  PyStr.upper_char (PyStr.upper_char c) = PyStr.upper_char c.
Proof.
  destruct c as [[] [] [] [] [] [] [] []]; reflexivity.
Qed.

Lemma upper_char_fixed (c : ascii) :
  PyStr.islower c = false -> PyStr.upper_char c = c.
Proof.
  unfold PyStr.upper_char. intros ->. reflexivity.
Qed.

Lemma upper_idem (s : string) : PyStr.upper (PyStr.upper s) = PyStr.upper s.
Proof.
  unfold PyStr.upper.
  induction s as [|c s IH]; simpl; [reflexivity|].
  now rewrite upper_char_idem, IH.
Qed.

Lemma upper_fixed (s : string) :
  PyStr.is_uppercased s = true -> PyStr.upper s = s.
Proof.
  unfold PyStr.upper.
  induction s as [|c s IH]; simpl; [reflexivity|].
  intros H. apply andb_true_iff in H as [Hc Hs].
  apply negb_true_iff in Hc.
  rewrite (upper_char_fixed _ Hc), (IH Hs). reflexivity.
Qed.

Lemma lstrip_upper (s : string) :
  PyStr.lstrip (PyStr.upper s) = PyStr.upper (PyStr.lstrip s).
Proof.
  unfold PyStr.upper.
  induction s as [|c s IH]; simpl; [reflexivity|].
  rewrite isspace_upper_char. destruct (PyStr.isspace c); [exact IH | reflexivity].
Qed.

Lemma rstrip_upper (s : string) :
  PyStr.rstrip (PyStr.upper s) = PyStr.upper (PyStr.rstrip s).
Proof.
  unfold PyStr.upper.
  induction s as [|c s IH]; simpl; [reflexivity|].
  rewrite IH, isspace_upper_char.
  destruct (PyStr.rstrip s); simpl; [destruct (PyStr.isspace c)|]; reflexivity.
Qed.

Lemma strip_upper (s : string) :
  PyStr.strip (PyStr.upper s) = PyStr.upper (PyStr.strip s).
Proof.
  unfold PyStr.strip. now rewrite lstrip_upper, rstrip_upper.
Qed.

Lemma rstrip_idem (s : string) : PyStr.rstrip (PyStr.rstrip s) = PyStr.rstrip s.
Proof.
  induction s as [|c s IH]; simpl; [reflexivity|].
  destruct (PyStr.rstrip s) as [|d r] eqn:E.
  - destruct (PyStr.isspace c) eqn:Hc; simpl; [reflexivity | now rewrite Hc].
  - simpl in *. rewrite IH. reflexivity.
Qed.

(** A string that starts with a visible character keeps it under [rstrip]. *)
Lemma rstrip_head (c : ascii) (s : string) :
  PyStr.isspace c = false ->
  exists r, PyStr.rstrip (String c s) = String c r.
Proof.
  intros Hc. simpl. destruct (PyStr.rstrip s) as [|d r].
  - rewrite Hc. now exists EmptyString.
  - now exists (String d r).
Qed.

Lemma lstrip_head (s : string) :
  PyStr.lstrip s = EmptyString \/
  exists c r, PyStr.lstrip s = String c r /\ PyStr.isspace c = false.
Proof.
  induction s as [|c s IH]; simpl; [now left|].
  destruct (PyStr.isspace c) eqn:Hc; [exact IH|].
  right. now exists c, s.
Qed.

Lemma lstrip_strip (s : string) : PyStr.lstrip (PyStr.strip s) = PyStr.strip s.
Proof.
  unfold PyStr.strip.
  destruct (lstrip_head s) as [-> | (c & r & -> & Hc)]; [reflexivity|].
  destruct (rstrip_head c r Hc) as [r' ->]. simpl. now rewrite Hc.
Qed.

Lemma strip_idem (s : string) : PyStr.strip (PyStr.strip s) = PyStr.strip s.
Proof.
  unfold PyStr.strip at 1. rewrite lstrip_strip.
  unfold PyStr.strip. apply rstrip_idem.
Qed.

Lemma lstrip_fixed (s : string) :
  PyStr.not_space (PyStr.first_char s) = true -> PyStr.lstrip s = s.
Proof.
  destruct s as [|c s]; simpl; [reflexivity|].
  intros H. apply negb_true_iff in H. now rewrite H.
Qed.

Lemma rstrip_fixed (s : string) :
  PyStr.not_space (PyStr.last_char s) = true -> PyStr.rstrip s = s.
Proof.
  induction s as [|c s IH]; [reflexivity|].
  destruct s as [|d s].
  - simpl. intros H. apply negb_true_iff in H. now rewrite H.
  - intros H. change (PyStr.last_char (String c (String d s)))
      with (PyStr.last_char (String d s)) in H.
    specialize (IH H).
    change (PyStr.rstrip (String c (String d s)))
      with (match PyStr.rstrip (String d s) with
            | EmptyString =>
                if PyStr.isspace c then EmptyString else String c EmptyString
            | r => String c r
            end).
    rewrite IH. reflexivity.
Qed.

Lemma strip_fixed (s : string) :
  PyStr.is_trimmed s = true -> PyStr.strip s = s.
Proof.
  unfold PyStr.is_trimmed, PyStr.strip. intros H.
  apply andb_true_iff in H as [Hf Hl].
  now rewrite (lstrip_fixed _ Hf), (rstrip_fixed _ Hl).
Qed.

Lemma is_ascii_upper_char (c : ascii) :
  (nat_of_ascii (PyStr.upper_char c) <? 128) = (nat_of_ascii c <? 128).
Proof.
  destruct c as [[] [] [] [] [] [] [] []]; reflexivity.
Qed.

Lemma is_ascii_upper (s : string) :
  PyStr.is_ascii (PyStr.upper s) = PyStr.is_ascii s.
Proof.
  unfold PyStr.upper.
  induction s as [|c s IH]; simpl; [reflexivity|].
  now rewrite is_ascii_upper_char, IH.
Qed.

Lemma is_ascii_lstrip (s : string) :
  PyStr.is_ascii s = true -> PyStr.is_ascii (PyStr.lstrip s) = true.
Proof.
  induction s as [|c s IH]; simpl; [reflexivity|].
  intros H. destruct (PyStr.isspace c); [|exact H].
  apply andb_true_iff in H as [_ H]. now apply IH.
Qed.

Lemma is_ascii_rstrip (s : string) :
  PyStr.is_ascii s = true -> PyStr.is_ascii (PyStr.rstrip s) = true.
Proof.
  induction s as [|c s IH]; simpl; [reflexivity|].
  intros H. apply andb_true_iff in H as [Hc H]. specialize (IH H).
  destruct (PyStr.rstrip s) as [|c' r].
  - destruct (PyStr.isspace c); [reflexivity|].
    simpl. now rewrite Hc.
  - change (PyStr.is_ascii (String c (String c' r)) = true).
    simpl. simpl in IH. now rewrite Hc, IH.
Qed.

Lemma is_ascii_normalize_location (s : string) :
  PyStr.is_ascii s = true -> PyStr.is_ascii (normalize_location s) = true.
Proof.
  intros H. unfold normalize_location, PyStr.strip.
  rewrite is_ascii_upper. now apply is_ascii_rstrip, is_ascii_lstrip.
Qed.

(** C8. Location normalization (strip, then upper) is idempotent on ASCII
    strings: a string that is already trimmed and uppercased is returned
    as it is, and normalizing twice gives what normalizing once gives; the
    same holds cell by cell, a missing cell staying missing. *)
Theorem normalize_location_idempotent :
  (forall s : string,
      PyStr.is_ascii s = true ->
      PyStr.is_trimmed s = true -> PyStr.is_uppercased s = true ->
      normalize_location s = s) /\
  (forall s : string,
      PyStr.is_ascii s = true ->
      PyStr.is_ascii (normalize_location s) = true /\
      normalize_location (normalize_location s) = normalize_location s) /\
  (forall c : option string,
      ascii_cell c = true ->
      ascii_cell (normalize_location_cell c) = true /\
      normalize_location_cell (normalize_location_cell c)
      = normalize_location_cell c).
Proof.
  assert (Hidem : forall s,
             normalize_location (normalize_location s) = normalize_location s).
  { intros s. unfold normalize_location.
    now rewrite strip_upper, strip_idem, upper_idem. }
  split; [|split].
  - intros s _ Ht Hu. unfold normalize_location.
    now rewrite (strip_fixed _ Ht), (upper_fixed _ Hu).
  - intros s Ha. split; [now apply is_ascii_normalize_location | apply Hidem].
  - intros [s|] Ha; simpl.
    + split; [now apply is_ascii_normalize_location | now rewrite Hidem].
    + split; reflexivity.
Qed.

Lemma normalize_location_idempotent_witness :
  PyStr.is_ascii "BERLIN"%string = true /\
  PyStr.is_trimmed "BERLIN"%string = true /\
  PyStr.is_uppercased "BERLIN"%string = true /\
  normalize_location "BERLIN"%string = "BERLIN"%string /\
  normalize_location (normalize_location "  Berlin "%string)
  = normalize_location "  Berlin "%string /\
  normalize_location_cell (normalize_location_cell (Some " Kiel"%string))
  = normalize_location_cell (Some " Kiel"%string).
Proof.
  split; [reflexivity|]. split; [reflexivity|]. split; [reflexivity|].
  split; [|split].
  - apply (proj1 normalize_location_idempotent); reflexivity.
  - exact (proj2 (proj1 (proj2 normalize_location_idempotent)
                    "  Berlin "%string eq_refl)).
  - exact (proj2 (proj2 (proj2 normalize_location_idempotent)
                    (Some " Kiel"%string) eq_refl)).
Defined.

(** ** Comparisons on rationals *)

Lemma Qlt_bool_true (a b : Q) : (a < b)%Q -> Pandas.Qlt_bool a b = true.
Proof.
  intros H. unfold Pandas.Qlt_bool. apply negb_true_iff.
  destruct (Qle_bool b a) eqn:E; [|reflexivity].
  apply Qle_bool_iff in E. exfalso. exact (Qlt_not_le _ _ H E).
Qed.

Lemma Qlt_bool_false (a b : Q) : (b <= a)%Q -> Pandas.Qlt_bool a b = false.
Proof.
  intros H. unfold Pandas.Qlt_bool. apply negb_false_iff.
  now apply Qle_bool_iff.
Qed.

(** ** Score categories *)

Section ScoreCategory.
Local Open Scope Q_scope.

(** The index [searchsorted] returns inside each interval of the edges. *)
Lemma searchsorted_bins (v : Q) :
  (0 < v <= 2 -> Pandas.searchsorted_left Visualize.bins v = 1%nat) /\
  (2 < v <= 4 -> Pandas.searchsorted_left Visualize.bins v = 2%nat) /\
  (4 < v <= 6 -> Pandas.searchsorted_left Visualize.bins v = 3%nat) /\
  (6 < v <= 8 -> Pandas.searchsorted_left Visualize.bins v = 4%nat) /\
  (8 < v <= 10 -> Pandas.searchsorted_left Visualize.bins v = 5%nat).
Proof.
  unfold Visualize.bins; simpl.
  repeat split; intros [Hlo Hhi];
    repeat (first
      [ rewrite (Qlt_bool_true _ v) by (eapply Qle_lt_trans; [|exact Hlo]; discriminate)
      | rewrite (Qlt_bool_false _ v) by (eapply Qle_trans; [exact Hhi|]; discriminate) ]);
    reflexivity.
Qed.

(** C1 (as the code has it). For every score in (0,10] the category
    [pd.cut] assigns is the bin that holds the score under the edges
    2, 4, 6 and 8, each bin open on the left and closed on the right:
    (0,2], (2,4], (4,6], (6,8], (8,10]; a score of exactly 2 is
    "Very Precise". *)
Theorem score_category_right_closed_bins (v : Q) :
  (0 < v <= 2 ->
     Visualize.score_category (Some v) = Some "Very Precise (0-2)"%string) /\
  (2 < v <= 4 ->
     Visualize.score_category (Some v) = Some "Precise (2-4)"%string) /\
  (4 < v <= 6 ->
     Visualize.score_category (Some v) = Some "Mixed (4-6)"%string) /\
  (6 < v <= 8 ->
     Visualize.score_category (Some v) = Some "Area (6-8)"%string) /\
  (8 < v <= 10 ->
     Visualize.score_category (Some v) = Some "Heavy Area (8-10)"%string).
Proof.
  destruct (searchsorted_bins v) as (H1 & H2 & H3 & H4 & H5).
  unfold Visualize.score_category, Pandas.cut.
  repeat split; intros H;
    [ rewrite (H1 H) | rewrite (H2 H) | rewrite (H3 H)
    | rewrite (H4 H) | rewrite (H5 H) ]; reflexivity.
Qed.

Lemma score_category_right_closed_bins_witness :
  Visualize.score_category (Some 2) = Some "Very Precise (0-2)"%string /\
  Visualize.score_category (Some (5 # 2)) = Some "Precise (2-4)"%string /\
  Visualize.score_category (Some 10) = Some "Heavy Area (8-10)"%string.
Proof.
  split; [|split].
  - apply (proj1 (score_category_right_closed_bins 2)).
    split; [reflexivity | discriminate].
  - apply (proj1 (proj2 (score_category_right_closed_bins (5 # 2)))).
    split; [reflexivity | discriminate].
  - apply (proj2 (proj2 (proj2 (proj2 (score_category_right_closed_bins 10))))).
    split; [reflexivity | discriminate].
Defined.

(** Outside (0,10] a score gets no category; 0 itself is outside. *)
Lemma score_category_out_of_range (v : Q) :
  v <= 0 \/ 10 < v -> Visualize.score_category (Some v) = None.
Proof.
  unfold Visualize.score_category, Pandas.cut, Visualize.bins. simpl.
  intros [H | H].
  - now rewrite (Qlt_bool_false 0 v H).
  - repeat rewrite (Qlt_bool_true _ v)
      by (eapply Qle_lt_trans; [|exact H]; discriminate).
    reflexivity.
Qed.

(** A score gets a category exactly when it is present and in (0,10]. *)
Lemma score_category_defined_iff (c : option Q) :
  Visualize.score_category c <> None
  <-> exists v, c = Some v /\ 0 < v <= 10.
Proof.
  split.
  - destruct c as [v|]; [|intros H; now contradiction H].
    intros H. exists v. split; [reflexivity|].
    destruct (Qlt_le_dec 0 v) as [H0 | H0].
    + destruct (Qlt_le_dec 10 v) as [H10 | H10]; [|now split].
      contradiction H. apply score_category_out_of_range. now right.
    + contradiction H. apply score_category_out_of_range. now left.
  - intros (v & -> & H0 & H10).
    destruct (searchsorted_bins v) as (H1 & H2 & H3 & H4 & H5).
    unfold Visualize.score_category, Pandas.cut.
    destruct (Qlt_le_dec 2 v) as [G2 | G2];
      [|rewrite (H1 (conj H0 G2)); discriminate].
    destruct (Qlt_le_dec 4 v) as [G4 | G4];
      [|rewrite (H2 (conj G2 G4)); discriminate].
    destruct (Qlt_le_dec 6 v) as [G6 | G6];
      [|rewrite (H3 (conj G4 G6)); discriminate].
    destruct (Qlt_le_dec 8 v) as [G8 | G8];
      [|rewrite (H4 (conj G6 G8)); discriminate].
    rewrite (H5 (conj G8 H10)). discriminate.
Qed.

(** C1 as stated fails: the bins of the code are not closed on the left.
    A score of exactly 2 is "Very Precise", not "Precise", and a score of
    exactly 0 gets no category at all. *)
Lemma score_category_not_left_closed :
  Visualize.score_category (Some 2) = Some "Very Precise (0-2)"%string /\
  spec_score_category 2 = Some "Precise (2-4)"%string /\
  Visualize.score_category (Some 0) = None /\
  spec_score_category 0 = Some "Very Precise (0-2)"%string /\
  ~ (forall v : Q, 0 <= v <= 10 ->
       Visualize.score_category (Some v) = spec_score_category v).
Proof.
  repeat split.
  intros H. specialize (H 2). 
  assert (Hr : 0 <= 2 <= 10) by (split; discriminate).
  specialize (H Hr). vm_compute in H. discriminate H.
Qed.

End ScoreCategory.

(** ** Year derivation *)

Lemma rows_assign_column (name : string) (f : Raid -> Raid) (df : DataFrame) :
  rows (assign_column name f df) = map f (rows df).
Proof. reflexivity. Qed.

Lemma Year_loc_Year (cond : Z -> bool) (v : Z) (r : Raid) :
  Year (loc_Year cond v r)
  = option_map (fun y => if cond y then v else y) (Year r).
Proof.
  unfold loc_Year. destruct (Year r) as [y|] eqn:E; simpl; [|exact E].
  destruct (cond y); simpl; [reflexivity | exact E].
Qed.

Lemma YEAR_loc_Year (cond : Z -> bool) (v : Z) (r : Raid) :
  YEAR (loc_Year cond v r) = YEAR r.
Proof.
  unfold loc_Year. destruct (Year r) as [y|]; [|reflexivity].
  destruct (cond y); reflexivity.
Qed.

(** On a column without missing offsets the conversion succeeds and sets
    every row's year to the truncated sum. *)
Lemma astype_int_Year_defined (rs : list Raid) :
  Forall (fun r => YEAR r <> None) rs ->
  App.astype_int_Year rs
  = Ok (map (fun r =>
               set_Year
                 (option_map
                    (fun offset => Pandas.int_of_float (1940 + offset)%Q)
                    (YEAR r)) r) rs).
Proof.
  induction 1 as [|r rs Hr _ IH]; simpl; [reflexivity|].
  rewrite IH. destruct (YEAR r) as [offset|]; [reflexivity | contradiction].
Qed.

(** One missing offset makes the conversion raise. *)
Lemma astype_int_Year_missing (rs : list Raid) :
  Exists (fun r => YEAR r = None) rs ->
  App.astype_int_Year rs = Raise IntCastingNaNError.
Proof.
  induction rs as [|r rs IH]; intros H; inversion H as [? ? Hr | ? ? Hrs]; subst; simpl.
  - now rewrite Hr.
  - rewrite (IH Hrs). now destruct (YEAR r).
Qed.

Lemma target_location_loc_Year (cond : Z -> bool) (v : Z) (r : Raid) :
  target_location (loc_Year cond v r) = target_location r.
Proof.
  unfold loc_Year. destruct (Year r) as [y|]; [|reflexivity].
  destruct (cond y); reflexivity.
Qed.

Lemma target_location_column_kept (f : Raid -> Raid) (l : list Raid) :
  (forall r, target_location (f r) = target_location r) ->
  map target_location (map f l) = map target_location l.
Proof.
  intros H. rewrite map_map. apply map_ext. exact H.
Qed.

(** The [Year] column [load_data] builds is [App.derive_Year], row by row. *)
Lemma load_data_Year_column (csv : DataFrame) :
  has_column csv "Year" = false ->
  has_column csv "YEAR" = true ->
  has_column csv "target_location" = true ->
  str_accessor (map target_location (rows csv)) = true ->
  Forall (fun r => YEAR r <> None) (rows csv) ->
  map Year (rows (App.load_data csv))
  = map (fun r => option_map App.derive_Year (YEAR r)) (rows csv).
Proof.
  intros HY Hoff Hloc Hstr Hdef.
  unfold App.load_data, App.add_Year. rewrite HY, Hoff. simpl negb. simpl andb.
  rewrite (astype_int_Year_defined _ Hdef).
  unfold App.normalize_target_location.
  assert (Hc : forall name f d,
             has_column (assign_column name f d) "target_location"
             = has_column d "target_location" || String.eqb "target_location" name
               && negb (has_column d name)).
  { intros name f d. unfold assign_column, has_column at 1. simpl.
    destruct (has_column d name) eqn:E.
    - now rewrite andb_false_r, orb_false_r.
    - rewrite existsb_app. simpl. now rewrite orb_false_r, andb_true_r. }
  rewrite !Hc. unfold has_column at 1. simpl columns.
  rewrite existsb_app. fold (has_column csv "target_location"). rewrite Hloc.
  cbn [orb]. rewrite !rows_assign_column. cbn [rows].
  rewrite !(target_location_column_kept (loc_Year _ _))
    by (intros; apply target_location_loc_Year).
  rewrite (target_location_column_kept _ (rows csv)) by reflexivity.
  rewrite Hstr.
  simpl. rewrite !map_map. apply map_ext_in. intros r _.
  unfold set_target_location at 1. cbn [Year].
  rewrite !Year_loc_Year. unfold set_Year. cbn [Year].
  unfold App.derive_Year. destruct (YEAR r) as [offset|]; reflexivity.
Qed.

(** The [Year] column of the plotting script is [Visualize.derive_Year]. *)
Lemma clean_year_Year_column (df : DataFrame) :
  has_column df "Year" = false ->
  has_column df "YEAR" = true ->
  map Year (rows (Visualize.clean_year df))
  = map (fun r => Some (Visualize.derive_Year (YEAR r))) (rows df).
Proof.
  intros HY Hoff. unfold Visualize.clean_year. rewrite HY, Hoff. simpl.
  rewrite !map_map. apply map_ext_in. intros r _.
  rewrite !Year_loc_Year. reflexivity.
Qed.

(** C2. The two year derivations disagree: both take 1940 + offset, the
    dashboard then sends a year below 1939 to 1940 and the plotting script
    a year below 1941 to 1941 (both send a year above 1946 to 1945), so at
    offset 0 the dashboard has 1940 and the plotting script 1941, and the
    two programs put different [Year] columns on the same table. *)
Theorem year_derivations_disagree :
  App.derive_Year 0 = 1940%Z /\
  Visualize.derive_Year (Some 0%Q) = 1941%Z /\
  (exists offset : Q,
      App.derive_Year offset <> Visualize.derive_Year (Some offset)) /\
  App.derive_Year <> (fun offset => Visualize.derive_Year (Some offset)) /\
  (forall offset : Q,
      let y := Pandas.int_of_float (1940 + offset)%Q in
      App.derive_Year offset
      = (if (y <? 1939)%Z then 1940 else if (y >? 1946)%Z then 1945 else y)%Z /\
      Visualize.derive_Year (Some offset)
      = (if (y <? 1941)%Z then 1941 else if (y >? 1946)%Z then 1945 else y)%Z) /\
  (exists csv : DataFrame,
      map Year (rows (App.load_data csv))
      <> map Year (rows (Visualize.clean_year csv))).
Proof.
  split; [reflexivity|]. split; [reflexivity|]. split; [|split; [|split]].
  - exists 0%Q. discriminate.
  - intros H. apply (f_equal (fun f => f 0%Q)) in H. discriminate H.
  - intros offset y. unfold App.derive_Year, Visualize.derive_Year. simpl Pandas.fillna.
    fold y. split.
    + destruct (y <? 1939)%Z; reflexivity.
    + destruct (y <? 1941)%Z; reflexivity.
  - exists (mkDataFrame ["YEAR"; "target_location"]%string
              [mkRaid (Some "BERLIN"%string) None (Some 0%Q) None None None
                 None None None None None None]).
    discriminate.
Qed.

(** C3. Without a [Year] column the dashboard loader sets each row's year
    to int(1940 + offset), then replaces a year below 1939 by 1940 and a
    year above 1946 by 1945, leaving the others: offset 0 gives 1940 and
    offset -5 (1935) gives 1940.  The sum is a float sum and the
    conversion truncates toward zero: 1943.5 gives 1943, 1939.5 gives
    1939, -0.5 gives 0, and a negative offset too small to change the
    float 1940 gives 1940; a sum beyond the int64 range becomes the
    smallest int64 (on x86-64), which the clamp sends to 1940.  The table
    statement is for a table that loads: its location
    column holds a string (or it has no rows), and every offset is
    present, a float, and within the range in which the conversion to
    int64 is defined. *)
Theorem load_data_derives_and_clamps_Year :
  (forall csv : DataFrame,
      has_column csv "Year" = false ->
      has_column csv "YEAR" = true ->
      has_column csv "target_location" = true ->
      str_accessor (map target_location (rows csv)) = true ->
      Forall (fun r => exists offset,
                  YEAR r = Some offset
                  /\ Pandas.is_float offset = true
                  /\ (- inject_Z (2 ^ 62) <= offset <= inject_Z (2 ^ 62))%Q)
             (rows csv) ->
      map Year (rows (App.load_data csv))
      = map (fun r => option_map App.derive_Year (YEAR r)) (rows csv)) /\
  (forall offset : Q,
      Pandas.is_float offset = true ->
      let y := Pandas.int_of_float (1940 + offset)%Q in
      ((y < 1939)%Z -> App.derive_Year offset = 1940%Z) /\
      ((y > 1946)%Z -> App.derive_Year offset = 1945%Z) /\
      ((1939 <= y <= 1946)%Z -> App.derive_Year offset = y)) /\
  App.derive_Year 0 = 1940%Z /\
  Pandas.int_of_float (1940 + (-5))%Q = 1935%Z /\
  App.derive_Year (-5) = 1940%Z /\
  Pandas.int_of_float (1940 + (7 # 2))%Q = 1943%Z /\
  Pandas.int_of_float (1940 + (-1 # 2))%Q = 1939%Z /\
  Pandas.is_float (-1 # 1152921504606846976) = true /\
  Pandas.int_of_float (1940 + (-1 # 1152921504606846976))%Q = 1940%Z /\
  App.derive_Year (7 # 2) = 1943%Z /\
  App.derive_Year (-1 # 2) = 1939%Z /\
  Pandas.int_of_float (1940 + (-3881 # 2))%Q = 0%Z /\
  Pandas.int_of_float (1940 + inject_Z (2 ^ 63))%Q = (- 2 ^ 63)%Z /\
  App.derive_Year (inject_Z (2 ^ 63)) = 1940%Z.
Proof.
  split.
  { intros csv HY Hoff Hloc Hstr Hdef.
    apply load_data_Year_column; try assumption.
    apply Forall_forall. intros r Hr.
    rewrite Forall_forall in Hdef.
    destruct (Hdef r Hr) as (offset & -> & _). discriminate. }
  split; [|repeat split].
  intros offset _ y. unfold App.derive_Year. fold y.
  repeat split; intros H.
  - assert (E : (y <? 1939)%Z = true) by (apply Z.ltb_lt; lia).
    rewrite E. reflexivity.
  - assert (E : (y <? 1939)%Z = false) by (apply Z.ltb_ge; lia).
    rewrite E.
    assert (E' : (y >? 1946)%Z = true) by (apply Z.gtb_lt; lia).
    rewrite E'. reflexivity.
  - assert (E : (y <? 1939)%Z = false) by (apply Z.ltb_ge; lia).
    rewrite E.
    assert (E' : (y >? 1946)%Z = false).
    { rewrite Z.gtb_ltb. apply Z.ltb_ge. lia. }
    rewrite E'. reflexivity.
Qed.

Lemma load_data_derives_and_clamps_Year_witness :
  let csv :=
    mkDataFrame ["YEAR"; "target_location"]%string
      [mkRaid (Some " Berlin"%string) None (Some (-5)%Q) None None None
         None None None None None None;
       mkRaid None None (Some 9%Q) None None None
         None None None None None None] in
  map Year (rows (App.load_data csv)) = [Some 1940%Z; Some 1945%Z] /\
  App.derive_Year (-5) = 1940%Z /\
  App.derive_Year 9 = 1945%Z /\
  App.derive_Year 3 = 1943%Z.
Proof.
  intros csv. split; [|split; [|split]].
  - rewrite (proj1 load_data_derives_and_clamps_Year csv).
    + reflexivity.
    + reflexivity.
    + reflexivity.
    + reflexivity.
    + reflexivity.
    + repeat constructor; eexists; (split; [reflexivity|]);
        (split; [reflexivity|]); split; discriminate.
  - apply (proj1 (proj1 (proj2 load_data_derives_and_clamps_Year) (-5)%Q
                    eq_refl)).
    vm_compute. reflexivity.
  - apply (proj1 (proj2 (proj1 (proj2 load_data_derives_and_clamps_Year) 9%Q
                           eq_refl))).
    vm_compute. reflexivity.
  - apply (proj2 (proj2 (proj1 (proj2 load_data_derives_and_clamps_Year) 3%Q
                           eq_refl))).
    vm_compute. split; discriminate.
Defined.

(** ** The score range is kept *)

Lemma scores_assign_column (name : string) (f : Raid -> Raid) (df : DataFrame) :
  (forall r, AREA_BOMBING_SCORE_NORMALIZED (f r) = AREA_BOMBING_SCORE_NORMALIZED r) ->
  scores (assign_column name f df) = scores df.
Proof.
  intros Hf. unfold scores. rewrite rows_assign_column, map_map.
  apply map_ext. exact Hf.
Qed.

Lemma score_loc_Year (cond : Z -> bool) (v : Z) (r : Raid) :
  AREA_BOMBING_SCORE_NORMALIZED (loc_Year cond v r)
  = AREA_BOMBING_SCORE_NORMALIZED r.
Proof.
  unfold loc_Year. destruct (Year r) as [y|]; [|reflexivity].
  destruct (cond y); reflexivity.
Qed.

Lemma scores_astype_int_Year (rs rs' : list Raid) :
  App.astype_int_Year rs = Ok rs' ->
  map AREA_BOMBING_SCORE_NORMALIZED rs' = map AREA_BOMBING_SCORE_NORMALIZED rs.
Proof.
  revert rs'. induction rs as [|r rs IH]; simpl; intros rs' H.
  - now inversion H.
  - destruct (YEAR r) as [offset|]; [|discriminate].
    destruct (App.astype_int_Year rs) as [rest|e]; [|discriminate].
    inversion H; subst. simpl. now rewrite (IH rest eq_refl).
Qed.

(** [load_data] either returns the empty frame or keeps the score column. *)
Lemma scores_load_data (csv : DataFrame) :
  App.load_data csv = empty_frame \/ scores (App.load_data csv) = scores csv.
Proof.
  unfold App.load_data.
  assert (Hn : forall d,
             match App.normalize_target_location d with
             | Ok d' => d'
             | Raise _ => empty_frame
             end = empty_frame \/
             scores match App.normalize_target_location d with
                    | Ok d' => d'
                    | Raise _ => empty_frame
                    end = scores d).
  { intros d. unfold App.normalize_target_location.
    destruct (has_column d "target_location"); [|now left].
    destruct (str_accessor (map target_location (rows d))); [right | now left].
    now apply scores_assign_column. }
  unfold App.add_Year.
  destruct (negb (has_column csv "Year") && has_column csv "YEAR"); [|apply Hn].
  destruct (App.astype_int_Year (rows csv)) as [rs|e] eqn:E; [|now left].
  match goal with |- context [App.normalize_target_location ?d] =>
    destruct (Hn d) as [H|H]; [now left | right; rewrite H] end.
  rewrite !scores_assign_column by (intros; apply score_loc_Year).
  unfold scores. simpl. exact (scores_astype_int_Year _ _ E).
Qed.

Lemma scores_clean_year (df : DataFrame) :
  scores (Visualize.clean_year df) = scores df.
Proof.
  unfold Visualize.clean_year.
  destruct (negb (has_column df "Year") && has_column df "YEAR"); [|reflexivity].
  rewrite !scores_assign_column; try reflexivity; intros; apply score_loc_Year.
Qed.

Lemma scores_add_Location (df d : DataFrame) :
  Visualize.add_Location df = Ok d -> scores d = scores df.
Proof.
  unfold Visualize.add_Location.
  destruct (has_column df "target_location"); [|discriminate].
  destruct (str_accessor (map target_location (rows df))); [|discriminate].
  intros [= <-]. now apply scores_assign_column.
Qed.

Lemma scores_select (mask : Raid -> bool) (df : DataFrame) :
  incl (scores (select mask df)) (scores df).
Proof.
  unfold scores, select. simpl. apply incl_map, incl_filter.
Qed.

Lemma scores_add_score_category (df : DataFrame) :
  scores (Visualize.add_score_category df) = scores df.
Proof. now apply scores_assign_column. Qed.

Lemma scores_add_he_columns (df : DataFrame) :
  scores (Visualize.add_he_columns df) = scores df.
Proof.
  unfold Visualize.add_he_columns. now rewrite !scores_assign_column.
Qed.

Lemma nth_app_new {A : Type} (l : list A) (a d : A) :
  nth (List.length l) (l ++ [a]) d = a.
Proof.
  rewrite app_nth2 by lia. now rewrite Nat.sub_diag.
Qed.

(** What [get_filtered_df] returns is the frame it was given or a
    selection of its rows in a fresh cell; the store is only extended. *)
Lemma get_filtered_df_shape (h : App.Heap) (df : nat) (filter_type : string)
    (filter_value : App.PyVal) (df' : nat) (h' : App.Heap) :
  App.get_filtered_df h df filter_type filter_value = Ok (df', h') ->
  (df' = df /\ h' = h) \/
  (exists mask,
      df' = List.length h /\ h' = h ++ [select mask (App.deref h df)]).
Proof.
  unfold App.get_filtered_df, App.alloc. intros H.
  repeat match type of H with
         | (if ?c then _ else _) = _ => destruct c
         | match ?c with Ok _ => _ | Raise _ => _ end = _ => destruct c
         end;
    inversion H; subst; eauto.
Qed.

Lemma forallb_incl {A : Type} (p : A -> bool) (l l' : list A) :
  incl l l' -> forallb p l' = true -> forallb p l = true.
Proof.
  intros Hi H. rewrite forallb_forall in *. intros x Hx. apply H, Hi, Hx.
Qed.

(** C4 (as the code has it). No operation of the two programs writes the
    score: the loader (when it returns the table), the year and location
    clean-up, the binning and the tonnage columns leave the score column
    as it is, and the filters and the per-year subsets keep a part of its
    cells.  So a table whose scores all lie in [0,10] gives tables whose
    scores all lie in [0,10]; the range itself is not established by any
    of these operations.  The one place the range shows is the binning: a
    raid gets a category exactly when its score is present and in
    (0,10]. *)
Theorem score_range_preserved (csv : DataFrame) :
  (App.load_data csv = empty_frame
   \/ scores (App.load_data csv) = scores csv) /\
  scores (Visualize.clean_year csv) = scores csv /\
  (forall d, Visualize.add_Location csv = Ok d -> scores d = scores csv) /\
  scores (Visualize.add_score_category csv) = scores csv /\
  scores (Visualize.add_he_columns csv) = scores csv /\
  (forall (h : App.Heap) (df : nat) (filter_type : string)
          (filter_value : App.PyVal) (df' : nat) (h' : App.Heap),
      App.deref h df = csv ->
      App.get_filtered_df h df filter_type filter_value = Ok (df', h') ->
      incl (scores (App.deref h' df')) (scores csv)) /\
  (forall year : Z, incl (scores (Visualize.year_data csv year)) (scores csv)) /\
  (forall r : Raid,
      In r (rows (Visualize.add_score_category csv)) ->
      Score_Category r <> None
      <-> exists v, AREA_BOMBING_SCORE_NORMALIZED r = Some v
                    /\ (0 < v <= 10)%Q) /\
  (scores_in_range csv = true ->
   scores_in_range (App.load_data csv) = true /\
   scores_in_range (Visualize.clean_year csv) = true /\
   scores_in_range (Visualize.add_score_category csv) = true /\
   scores_in_range (Visualize.add_he_columns csv) = true /\
   (forall year : Z,
       scores_in_range (Visualize.year_data csv year) = true) /\
   (forall (h : App.Heap) (df : nat) (filter_type : string)
           (filter_value : App.PyVal) (df' : nat) (h' : App.Heap),
       App.deref h df = csv ->
       App.get_filtered_df h df filter_type filter_value = Ok (df', h') ->
       scores_in_range (App.deref h' df') = true)).
Proof.
  assert (Hfilter : forall h df ft fv df' h',
             App.deref h df = csv ->
             App.get_filtered_df h df ft fv = Ok (df', h') ->
             incl (scores (App.deref h' df')) (scores csv)).
  { intros h df ft fv df' h' Hd Hg.
    destruct (get_filtered_df_shape _ _ _ _ _ _ Hg)
      as [[-> ->] | (mask & -> & ->)].
    - rewrite Hd. apply incl_refl.
    - unfold App.deref at 1. rewrite nth_app_new, Hd. apply scores_select. }
  split; [apply scores_load_data|].
  split; [apply scores_clean_year|].
  split; [intros d; apply scores_add_Location|].
  split; [apply scores_add_score_category|].
  split; [apply scores_add_he_columns|].
  split; [exact Hfilter|].
  split; [intros year; apply scores_select|].
  split.
  { intros r Hin. unfold Visualize.add_score_category in Hin.
    rewrite rows_assign_column in Hin.
    apply in_map_iff in Hin as (r0 & <- & _).
    destruct r0. cbn [set_Score_Category Score_Category
                        AREA_BOMBING_SCORE_NORMALIZED].
    apply score_category_defined_iff. }
  intros Hr. unfold scores_in_range in *.
  rewrite scores_clean_year, scores_add_score_category, scores_add_he_columns.
  split.
  { destruct (scores_load_data csv) as [-> | ->]; [reflexivity | exact Hr]. }
  repeat (split; [exact Hr|]).
  split.
  - intros year. exact (forallb_incl _ _ _ (scores_select _ csv) Hr).
  - intros h df ft fv df' h' Hd Hg.
    exact (forallb_incl _ _ _ (Hfilter _ _ _ _ _ _ Hd Hg) Hr).
Qed.

Lemma score_range_preserved_witness :
  let csv :=
    mkDataFrame ["target_location"; "Year"; "AREA_BOMBING_SCORE_NORMALIZED"]%string
      [mkRaid (Some "Berlin"%string) None None (Some 1943%Z) (Some (13 # 5)%Q)
         None None None None None None None;
       mkRaid (Some "Kiel"%string) None None (Some 1943%Z) (Some 10%Q)
         None None None None None None None] in
  scores_in_range csv = true /\
  scores_in_range (App.load_data csv) = true /\
  scores_in_range (Visualize.year_data csv 1943) = true.
Proof.
  intros csv.
  assert (H : scores_in_range csv = true) by reflexivity.
  pose proof (proj2 (proj2 (proj2 (proj2 (proj2 (proj2 (proj2 (proj2
                (score_range_preserved csv)))))))) H)
    as (H1 & _ & _ & _ & H5 & _).
  split; [exact H|]. split; [exact H1 | exact (H5 1943%Z)].
Defined.

(** C4 as stated fails: nothing makes the scores of the table lie in
    [0,10].  A row with the score 12 is loaded with the score 12, gets no
    category, and keeps the score 12. *)
Lemma score_range_not_enforced :
  let csv :=
    mkDataFrame ["target_location"; "AREA_BOMBING_SCORE_NORMALIZED"]%string
      [mkRaid (Some "KIEL"%string) None None None (Some 12%Q) None None None
         None None None None] in
  scores (App.load_data csv) = [Some 12%Q] /\
  scores_in_range (App.load_data csv) = false /\
  map Score_Category (rows (Visualize.add_score_category (App.load_data csv)))
  = [None] /\
  scores (Visualize.add_score_category (App.load_data csv)) = [Some 12%Q] /\
  ~ (forall (table : DataFrame) (r : Raid),
        In r (rows (App.load_data table)) ->
        in_range (AREA_BOMBING_SCORE_NORMALIZED r) = true).
Proof.
  intros csv. repeat split.
  intros H.
  specialize (H csv (mkRaid (Some "KIEL"%string) None None None (Some 12%Q)
                       None None None None None None None)
                (or_introl eq_refl)).
  discriminate H.
Qed.

(** ** Percentage breakdowns *)

Lemma list_sum_member {A : Type} (f : A -> nat) (a : A) (l : list A) :
  In a l -> f a <= list_sum (map f l).
Proof.
  induction l as [|b l IH]; simpl; [contradiction|].
  intros [-> | H]; [lia | specialize (IH H); lia].
Qed.

Lemma score_category_in_labels (score : option Q) (c : string) :
  Visualize.score_category score = Some c -> In c Visualize.labels.
Proof.
  unfold Visualize.score_category, Pandas.cut.
  destruct score as [v|]; [|discriminate].
  destruct (_ || _); [discriminate|].
  apply nth_error_In.
Qed.

Section Percentages.
Context {K : Type} (eqb : K -> K -> bool).
Local Open Scope Q_scope.

Lemma Qsum_scaled (f : string -> nat) (T : Q) (cols : list string) :
  Pandas.Qsum (map (fun c => inject_Z (Z.of_nat (f c)) / T * 100) cols)
  == inject_Z (Z.of_nat (list_sum (map f cols))) / T * 100.
Proof.
  induction cols as [|c cols IH]; simpl.
  - unfold Qdiv. ring.
  - rewrite IH, Nat2Z.inj_add, inject_Z_plus. unfold Qdiv. ring.
Qed.

(** A row of the percentage table with a counted raid sums to 100. *)
Lemma pct_row_sum (categories : list string)
    (pairs : list (option K * option string)) (k : K) :
  (0 < Pandas.row_sum eqb categories pairs k)%nat ->
  Pandas.Qsum (Pandas.pct_row eqb categories pairs k) == 100.
Proof.
  intros Hpos. unfold Pandas.pct_row. rewrite Qsum_scaled.
  fold (Pandas.row_sum eqb categories pairs k).
  set (T := inject_Z (Z.of_nat (Pandas.row_sum eqb categories pairs k))).
  assert (HT : ~ T == 0).
  { unfold T. intros H. apply (Qlt_irrefl 0). rewrite <- H at 2.
    replace 0 with (inject_Z 0) by reflexivity. rewrite <- Zlt_Qlt. lia. }
  field. exact HT.
Qed.

(** A pair with this key and one of the categories makes the row count. *)
Lemma row_sum_positive (categories : list string)
    (pairs : list (option K * option string)) (k k' : K) (c : string) :
  In (Some k', Some c) pairs -> eqb k' k = true -> In c categories ->
  (0 < Pandas.row_sum eqb categories pairs k)%nat.
Proof.
  intros Hin Hk Hc. unfold Pandas.row_sum.
  assert (Hcol : In c (Pandas.crosstab_columns categories pairs)).
  { unfold Pandas.crosstab_columns. apply filter_In. split; [exact Hc|].
    unfold Pandas.observed. apply existsb_exists.
    exists (Some k', Some c). split; [exact Hin | apply String.eqb_refl]. }
  apply Nat.lt_le_trans with (m := Pandas.count eqb pairs k c).
  - unfold Pandas.count.
    assert (Hf : In (Some k', Some c) (filter (Pandas.hit eqb k c) pairs)).
    { apply filter_In. split; [exact Hin|]. simpl.
      now rewrite Hk, String.eqb_refl. }
    destruct (filter (Pandas.hit eqb k c) pairs); [contradiction | simpl; lia].
  - exact (list_sum_member (Pandas.count eqb pairs k) c _ Hcol).
Qed.

Lemma within_tolerance (x : Q) : x == 100 -> Qabs (x - 100) <= 1 # 100.
Proof.
  intros H. assert (E : x - 100 == 0) by (rewrite H; ring).
  rewrite E. discriminate.
Qed.

End Percentages.

Section Rounding.
Context {K : Type} (eqb : K -> K -> bool).
Local Open Scope Q_scope.

Lemma Qsum_perturbed (a delta : string -> Q) (eps : Q) (cols : list string) :
  (forall c, 0 <= a c) ->
  (forall c, - eps <= delta c <= eps) ->
  Pandas.Qsum (map a cols) * (1 - eps)
  <= Pandas.Qsum (map (fun c => a c * (1 + delta c)) cols)
  /\ Pandas.Qsum (map (fun c => a c * (1 + delta c)) cols)
     <= Pandas.Qsum (map a cols) * (1 + eps).
Proof.
  intros Ha Hd. induction cols as [|c cols [IHl IHu]]; simpl.
  - split; lra.
  - specialize (Ha c). destruct (Hd c) as [Hl Hu].
    fold (Pandas.Qsum (map a cols)).
    fold (Pandas.Qsum (map (fun c => a c * (1 + delta c)) cols)).
    split; nra.
Qed.

(** The row stays within 0.01 of 100 when each entry carries a relative
    rounding error of at most 1/10000, which the error of a double
    precision division and multiplication is far below. *)
Lemma pct_row_sum_rounding_robust (categories : list string)
    (pairs : list (option K * option string)) (k : K) (delta : string -> Q) :
  (0 < Pandas.row_sum eqb categories pairs k)%nat ->
  (forall c, Qabs (delta c) <= 1 # 10000) ->
  Qabs
    (Pandas.Qsum
       (map (fun c =>
               inject_Z (Z.of_nat (Pandas.count eqb pairs k c))
               / inject_Z (Z.of_nat (Pandas.row_sum eqb categories pairs k))
               * 100 * (1 + delta c))
            (Pandas.crosstab_columns categories pairs))
     - 100)
  <= 1 # 100.
Proof.
  intros Hpos Hd.
  pose proof (pct_row_sum eqb categories pairs k Hpos) as Hs.
  unfold Pandas.pct_row in Hs.
  set (T := inject_Z (Z.of_nat (Pandas.row_sum eqb categories pairs k))) in *.
  set (a := fun c => inject_Z (Z.of_nat (Pandas.count eqb pairs k c)) / T * 100)
    in *.
  assert (HT : 0 < T).
  { unfold T. replace 0 with (inject_Z 0) by reflexivity.
    rewrite <- Zlt_Qlt. lia. }
  assert (Ha : forall c, 0 <= a c).
  { intros c. unfold a. apply Qmult_le_0_compat; [|discriminate].
    apply Qle_shift_div_l; [exact HT|]. rewrite Qmult_0_l.
    replace 0 with (inject_Z 0) by reflexivity. rewrite <- Zle_Qle. lia. }
  assert (Hd' : forall c, - (1 # 10000) <= delta c <= 1 # 10000).
  { intros c. apply Qabs_Qle_condition. apply Hd. }
  destruct (Qsum_perturbed a delta (1 # 10000)
              (Pandas.crosstab_columns categories pairs) Ha Hd') as [Hl Hu].
  rewrite Hs in Hl, Hu.
  change (Qabs
            (Pandas.Qsum
               (map (fun c => a c * (1 + delta c))
                    (Pandas.crosstab_columns categories pairs)) - 100)
          <= 1 # 100).
  apply Qabs_Qle_condition. split; lra.
Qed.

End Rounding.

Lemma add_score_category_row (df : DataFrame) (r : Raid) :
  In r (rows (Visualize.add_score_category df)) ->
  Score_Category r = Visualize.score_category (AREA_BOMBING_SCORE_NORMALIZED r).
Proof.
  unfold Visualize.add_score_category. rewrite rows_assign_column.
  intros H. apply in_map_iff in H as (r0 & <- & _). reflexivity.
Qed.

(** C5. After the scores are binned, every row of the year table and of
    the city table of category percentages (count / row total * 100) sums
    to 100, hence to 100 within 0.01; and there is such a row for every
    year from 1941 to 1945, and for every city of the list, that has at
    least one raid with a category. *)
Theorem category_percentages_sum_to_100
    (table : DataFrame) (top_cities : list string) :
  let df := Visualize.add_score_category table in
  (forall (year : Z) (row : list Q),
      Visualize.year_cat_pct df year = Some row ->
      (Pandas.Qsum row == 100)%Q /\
      (Qabs (Pandas.Qsum row - 100) <= 1 # 100)%Q) /\
  (forall (year : Z) (r : Raid),
      (1941 <= year <= 1945)%Z ->
      In r (rows df) -> Year r = Some year -> Score_Category r <> None ->
      exists row, Visualize.year_cat_pct df year = Some row) /\
  (forall (city : string) (row : list Q),
      Visualize.city_categories_pct top_cities df city = Some row ->
      (Pandas.Qsum row == 100)%Q /\
      (Qabs (Pandas.Qsum row - 100) <= 1 # 100)%Q) /\
  (forall (city : string) (r : Raid),
      In city top_cities ->
      In r (rows df) -> Location r = Some city -> Score_Category r <> None ->
      exists row, Visualize.city_categories_pct top_cities df city = Some row).
Proof.
  intros df. split; [|split; [|split]].
  - intros year row H. unfold Visualize.year_cat_pct in H.
    destruct (_ && (0 <? _)) eqn:E; [|discriminate].
    inversion H; subst row; clear H.
    apply andb_true_iff in E as [_ E]. apply Nat.ltb_lt in E.
    pose proof (pct_row_sum Z.eqb _ _ _ E) as Hs.
    split; [exact Hs | exact (within_tolerance _ Hs)].
  - intros year r Hy Hin HY Hc. unfold Visualize.year_cat_pct.
    destruct (Score_Category r) as [c|] eqn:Ec; [|contradiction].
    assert (Hl : In c Visualize.labels).
    { apply (score_category_in_labels (AREA_BOMBING_SCORE_NORMALIZED r)).
      now rewrite <- (add_score_category_row table r Hin). }
    assert (Hp : (0 < Pandas.row_sum Z.eqb Visualize.labels
                         (Visualize.year_cat df) year)%nat).
    { apply (row_sum_positive Z.eqb _ _ year year c);
        [|apply Z.eqb_refl | exact Hl].
      unfold Visualize.year_cat. apply in_map_iff.
      exists r. split; [now rewrite HY, Ec | exact Hin]. }
    apply Nat.ltb_lt in Hp. rewrite Hp.
    assert (E1 : (1941 <=? year)%Z = true) by (apply Z.leb_le; lia).
    assert (E2 : (year <=? 1945)%Z = true) by (apply Z.leb_le; lia).
    rewrite E1, E2. simpl. eauto.
  - intros city row H. unfold Visualize.city_categories_pct in H.
    destruct (0 <? _) eqn:E; [|discriminate].
    inversion H; subst row; clear H. apply Nat.ltb_lt in E.
    pose proof (pct_row_sum String.eqb _ _ _ E) as Hs.
    split; [exact Hs | exact (within_tolerance _ Hs)].
  - intros city r Htop Hin HL Hc. unfold Visualize.city_categories_pct.
    destruct (Score_Category r) as [c|] eqn:Ec; [|contradiction].
    assert (Hl : In c Visualize.labels).
    { apply (score_category_in_labels (AREA_BOMBING_SCORE_NORMALIZED r)).
      now rewrite <- (add_score_category_row table r Hin). }
    assert (Hp : (0 < Pandas.row_sum String.eqb Visualize.labels
                         (Visualize.city_categories top_cities df) city)%nat).
    { apply (row_sum_positive String.eqb _ _ city city c);
        [|apply String.eqb_refl | exact Hl].
      unfold Visualize.city_categories. apply in_map_iff.
      exists r. split; [now rewrite HL, Ec|].
      unfold select. simpl. apply filter_In. split; [exact Hin|].
      unfold Visualize.in_top_cities. rewrite HL.
      apply existsb_exists. exists city. split; [exact Htop|].
      apply String.eqb_refl. }
    apply Nat.ltb_lt in Hp. rewrite Hp. eauto.
Qed.

Lemma category_percentages_sum_to_100_witness :
  let table :=
    mkDataFrame ["Year"; "AREA_BOMBING_SCORE_NORMALIZED"; "Location"]%string
      [mkRaid None None None (Some 1943%Z) (Some 1%Q) None None
         (Some "KIEL"%string) None None None None;
       mkRaid None None None (Some 1943%Z) (Some 3%Q) None None
         (Some "KIEL"%string) None None None None;
       mkRaid None None None (Some 1943%Z) (Some 0%Q) None None
         (Some "BERLIN"%string) None None None None;
       mkRaid None None None (Some 1944%Z) (Some 9%Q) None None
         (Some "KIEL"%string) None None None None] in
  let df := Visualize.add_score_category table in
  (exists row, Visualize.year_cat_pct df 1943 = Some row /\
               (Pandas.Qsum row == 100)%Q) /\
  (exists row, Visualize.city_categories_pct ["KIEL"%string] df "KIEL" = Some row /\
               (Pandas.Qsum row == 100)%Q).
Proof.
  intros table df. split.
  - eexists. split; [reflexivity|].
    apply (proj1 (category_percentages_sum_to_100 table []) 1943%Z).
    reflexivity.
  - eexists. split; [reflexivity|].
    apply (proj1 (proj2 (proj2
             (category_percentages_sum_to_100 table ["KIEL"%string])))
             "KIEL"%string).
    reflexivity.
Defined.

(** ** Missing incendiary percentages and the tonnage split *)

(** The columns [add_he_columns] puts on a row, from the row's own cells. *)
Lemma add_he_columns_row (df : DataFrame) (i : nat) (r : Raid) :
  nth_error (rows df) i = Some r ->
  exists r',
    nth_error (rows (Visualize.add_he_columns df)) i = Some r' /\
    TOTAL_TONS r' = TOTAL_TONS r /\
    INCENDIARY_PERCENT r' = Some (Pandas.fillna 0%Q (INCENDIARY_PERCENT r)) /\
    HE_PERCENT r' = Some (100 - Pandas.fillna 0%Q (INCENDIARY_PERCENT r))%Q /\
    HE_TONS r'
    = Pandas.div
        (Pandas.mul (TOTAL_TONS r)
           (Some (100 - Pandas.fillna 0%Q (INCENDIARY_PERCENT r))%Q))
        (Some 100%Q) /\
    INCENDIARY_TONS r'
    = Pandas.div
        (Pandas.mul (TOTAL_TONS r)
           (Some (Pandas.fillna 0%Q (INCENDIARY_PERCENT r))))
        (Some 100%Q).
Proof.
  intros H. unfold Visualize.add_he_columns.
  rewrite !rows_assign_column, !map_map, nth_error_map, H. simpl.
  eexists. split; [reflexivity|]. repeat split.
Qed.

(** In the plotting script a row with a missing incendiary percentage gets
    100 % high explosive, no incendiary tons and all its tons as high
    explosive. *)
Lemma missing_incendiary_filled_in_plots (df : DataFrame) (i : nat) (r : Raid)
    (t : Q) :
  nth_error (rows df) i = Some r ->
  INCENDIARY_PERCENT r = None -> TOTAL_TONS r = Some t ->
  exists r' he inc,
    nth_error (rows (Visualize.add_he_columns df)) i = Some r' /\
    INCENDIARY_PERCENT r' = Some 0%Q /\
    HE_PERCENT r' = Some (100 - 0)%Q /\
    HE_TONS r' = Some he /\ (he == t)%Q /\
    INCENDIARY_TONS r' = Some inc /\ (inc == 0)%Q.
Proof.
  intros Hi Hinc Ht.
  destruct (add_he_columns_row df i r Hi) as (r' & Hr' & _ & Hp & Hhe & Hh & Hit).
  rewrite Hinc, Ht in *. simpl in *.
  exists r'. do 2 eexists.
  repeat (split; [eassumption|]).
  split; [field|]. split; [eassumption | field].
Qed.

(** C6, where the code departs from it.  [series.mean()] leaves missing
    cells out, so the dashboard's average incendiary percentage of a table
    with the cells NaN and 50 is 50; counting the missing cell as 0 gives
    25, which is also what the plotting script's average gives after its
    [fillna(0)]. *)
Theorem dashboard_average_drops_missing_incendiary :
  let csv :=
    mkDataFrame ["target_location"; "TOTAL_TONS"; "INCENDIARY_PERCENT"]%string
      [mkRaid (Some "KIEL"%string) None None None None (Some 40%Q) None
         None None None None None;
       mkRaid (Some "KIEL"%string) None None None None (Some 60%Q) (Some 50%Q)
         None None None None None] in
  (exists m, App.average_incendiary (App.summary_statistics (App.load_data csv))
             = Some m /\ (m == 50)%Q) /\
  (exists z, spec_mean_missing_as_zero (map INCENDIARY_PERCENT (rows csv))
             = Some z /\ (z == 25)%Q) /\
  (exists z, Visualize.avg_incendiary csv = Some z /\ (z == 25)%Q) /\
  (forall col : list (option Q), Pandas.mean (None :: col) = Pandas.mean col).
Proof.
  intros csv. split; [|split; [|split]].
  - eexists. split; reflexivity.
  - eexists. split; reflexivity.
  - eexists. split; reflexivity.
  - reflexivity.
Qed.

(** C9. For a row with an incendiary percentage and a tonnage, the
    plotting script sets HE_PERCENT = 100 - INCENDIARY_PERCENT,
    HE_TONS = TOTAL_TONS * HE_PERCENT / 100 and
    INCENDIARY_TONS = TOTAL_TONS * INCENDIARY_PERCENT / 100, and the two
    tonnages add up to TOTAL_TONS. *)
Theorem he_and_incendiary_tons_add_up (df : DataFrame) (i : nat) (r : Raid)
    (p t : Q) :
  nth_error (rows df) i = Some r ->
  INCENDIARY_PERCENT r = Some p -> TOTAL_TONS r = Some t ->
  exists r' he inc,
    nth_error (rows (Visualize.add_he_columns df)) i = Some r' /\
    TOTAL_TONS r' = Some t /\
    INCENDIARY_PERCENT r' = Some p /\
    HE_PERCENT r' = Some (100 - p)%Q /\
    HE_TONS r' = Some he /\ (he == t * (100 - p) / 100)%Q /\
    INCENDIARY_TONS r' = Some inc /\ (inc == t * p / 100)%Q /\
    (he + inc == t)%Q.
Proof.
  intros Hi Hinc Ht.
  destruct (add_he_columns_row df i r Hi) as (r' & Hr' & Htt & Hp & Hhe & Hh & Hit).
  rewrite Hinc, Ht in *. simpl in *.
  exists r'. do 2 eexists.
  repeat (split; [eassumption|]).
  split; [reflexivity|]. split; [eassumption|]. split; [reflexivity|].
  field.
Qed.

Lemma he_and_incendiary_tons_add_up_witness :
  let r := mkRaid None None None None None (Some 60%Q) (Some 25%Q)
             None None None None None in
  exists r' he inc,
    nth_error (rows (Visualize.add_he_columns (mkDataFrame [] [r]))) 0 = Some r' /\
    HE_TONS r' = Some he /\ INCENDIARY_TONS r' = Some inc /\
    (he + inc == 60)%Q.
Proof.
  intros r.
  destruct (he_and_incendiary_tons_add_up (mkDataFrame [] [r]) 0 r 25%Q 60%Q
              eq_refl eq_refl eq_refl)
    as (r' & he & inc & H1 & _ & _ & _ & H2 & _ & H3 & _ & H4).
  exists r', he, inc. repeat split; assumption.
Defined.

(** ** The plots [generate_plots] saves *)

Lemma append_cancel_l (p a b : string) :
  (p ++ a)%string = (p ++ b)%string -> a = b.
Proof.
  induction p as [|c p IH]; simpl; intros H; [exact H|].
  injection H as H. exact (IH H).
Qed.

Ltac kinds_differ :=
  let H := fresh in
  intros H; unfold Visualize.component_radar_file, Visualize.category_pie_file,
    Visualize.score_distribution_file, Visualize.tonnage_vs_incendiary_file,
    Visualize.scores_by_target_type_file, Visualize.plot_file in H;
  apply append_cancel_l in H; simpl in H; discriminate H.

Lemma radar_file_fresh (d g : string) :
  Visualize.score_distribution_file d g <> Visualize.component_radar_file d g /\
  Visualize.tonnage_vs_incendiary_file d g <> Visualize.component_radar_file d g /\
  Visualize.scores_by_target_type_file d g <> Visualize.component_radar_file d g /\
  Visualize.category_pie_file d g <> Visualize.component_radar_file d g.
Proof. repeat split; kinds_differ. Qed.

Lemma pie_file_fresh (d g : string) :
  Visualize.score_distribution_file d g <> Visualize.category_pie_file d g /\
  Visualize.tonnage_vs_incendiary_file d g <> Visualize.category_pie_file d g /\
  Visualize.scores_by_target_type_file d g <> Visualize.category_pie_file d g /\
  Visualize.component_radar_file d g <> Visualize.category_pie_file d g.
Proof. repeat split; kinds_differ. Qed.

Lemma has_plot_columns (data : DataFrame) :
  forallb (has_column data) Visualize.plot_columns = true ->
  has_column data "AREA_BOMBING_SCORE_NORMALIZED" = true /\
  has_column data "TOTAL_TONS" = true /\
  has_column data "INCENDIARY_PERCENT" = true /\
  has_column data "TARGET_SCORE" = true /\
  has_column data "Score Category" = true /\
  has_column data "TONNAGE_SCORE" = true /\
  has_column data "INCENDIARY_SCORE" = true.
Proof.
  unfold Visualize.plot_columns. cbn [forallb]. intros H.
  repeat (apply andb_true_iff in H as [? H]). repeat split; assumption.
Qed.

(** What a call saves and how it ends, on a table with the plot columns. *)
Lemma generate_plots_run_cases (data : DataFrame) (g d : string) :
  forallb (has_column data) Visualize.plot_columns = true ->
  Visualize.generate_plots_run data g d
  = if (20 <? List.length (rows data)) && negb (Visualize.categorized data)
    then ([Visualize.score_distribution_file d g;
           Visualize.tonnage_vs_incendiary_file d g;
           Visualize.scores_by_target_type_file d g], Some ValueError)
    else (Visualize.generate_plots data g d, None).
Proof.
  intros H. destruct (has_plot_columns data H) as (H1 & H2 & H3 & H4 & H5 & H6 & H7).
  unfold Visualize.generate_plots_run, Visualize.pie_step, Visualize.radar_step,
    Visualize.generate_plots.
  rewrite H1, H2, H3, H4, H5, H6, H7. cbn [negb andb app].
  destruct (20 <? List.length (rows data));
    destruct (Visualize.categorized data);
    destruct (5 <=? List.length (rows data)); reflexivity.
Qed.

(** C7. [generate_plots], on a non-empty subset with the plot columns:
    the score distribution, the scatter plot and the box plot are always
    saved; the
    pie chart is saved exactly when the subset has more than 20 rows and a
    categorized raid.  With more than 20 rows and no categorized raid the
    pie chart raises [ValueError] and the call stops there, so the radar
    chart is saved exactly when the subset has at least 5 rows and the
    call got past the pie chart: on 21 raids of score 0 it is not saved. *)
Theorem generate_plots_gates :
  (forall (data : DataFrame) (group_name save_dir : string),
      forallb (has_column data) Visualize.plot_columns = true ->
      rows data <> [] ->
      let n := List.length (rows data) in
      let run := Visualize.generate_plots_run data group_name save_dir in
      In (Visualize.score_distribution_file save_dir group_name) (fst run) /\
      In (Visualize.tonnage_vs_incendiary_file save_dir group_name) (fst run) /\
      In (Visualize.scores_by_target_type_file save_dir group_name) (fst run) /\
      (snd run = Some ValueError
       <-> 20 < n /\ Visualize.categorized data = false) /\
      (snd run = None
       <-> ~ (20 < n /\ Visualize.categorized data = false)) /\
      (In (Visualize.category_pie_file save_dir group_name) (fst run)
       <-> 20 < n /\ Visualize.categorized data = true) /\
      (In (Visualize.component_radar_file save_dir group_name) (fst run)
       <-> 5 <= n /\ ~ (20 < n /\ Visualize.categorized data = false)) /\
      (snd run = None ->
       fst run = Visualize.generate_plots data group_name save_dir)) /\
  (let r := mkRaid (Some "KIEL"%string) None None (Some 1943%Z) (Some 0%Q)
              None None None None None None None in
   let data :=
     Visualize.add_score_category
       (mkDataFrame
          ["AREA_BOMBING_SCORE_NORMALIZED"; "TOTAL_TONS"; "INCENDIARY_PERCENT";
           "TARGET_SCORE"; "TONNAGE_SCORE"; "INCENDIARY_SCORE"]%string
          (repeat r 21)) in
   5 <= List.length (rows data) /\
   Visualize.generate_plots_run data "Year 1943"%string "plots/usaaf/years"%string
   = (["plots/usaaf/years/score_distribution_year_1943.png";
       "plots/usaaf/years/tonnage_vs_incendiary_year_1943.png";
       "plots/usaaf/years/scores_by_target_type_year_1943.png"]%string,
      Some ValueError) /\
   ~ In (Visualize.component_radar_file "plots/usaaf/years"%string "Year 1943"%string)
        (fst (Visualize.generate_plots_run data "Year 1943"%string
                "plots/usaaf/years"%string))).
Proof.
  split.
  - intros data g d H _ n run. subst run.
    rewrite (generate_plots_run_cases data g d H). fold n.
    destruct (radar_file_fresh d g) as (R1 & R2 & R3 & R4).
    destruct (pie_file_fresh d g) as (P1 & P2 & P3 & P4).
    unfold Visualize.generate_plots. fold n.
    destruct (Nat.ltb_spec 20 n) as [Hn | Hn];
      destruct (Visualize.categorized data) eqn:Hc;
      destruct (Nat.leb_spec 5 n) as [Hm | Hm];
      cbn [andb negb fst snd app In];
      repeat split; intros;
      repeat match goal with
             | [ K : _ /\ _ |- _ ] => destruct K
             end;
      try discriminate; try lia; try congruence;
      try (unfold not in *; tauto); auto 10.
  - cbv zeta. split; [simpl; lia|]. split; [reflexivity|].
    intros Hin. vm_compute in Hin.
    repeat (destruct Hin as [Hin | Hin]; [discriminate Hin|]). exact Hin.
Qed.

Lemma generate_plots_gates_witness :
  let r := mkRaid None None None (Some 1943%Z) (Some 3%Q) None None None None
             None None None in
  let data :=
    Visualize.add_score_category
      (mkDataFrame
         ["AREA_BOMBING_SCORE_NORMALIZED"; "TOTAL_TONS"; "INCENDIARY_PERCENT";
          "TARGET_SCORE"; "TONNAGE_SCORE"; "INCENDIARY_SCORE"]%string
         [r; r; r; r; r]) in
  forallb (has_column data) Visualize.plot_columns = true /\
  snd (Visualize.generate_plots_run data "Year 1943"%string "plots/usaaf/years"%string)
  = None /\
  In (Visualize.component_radar_file "plots/usaaf/years"%string "Year 1943"%string)
     (fst (Visualize.generate_plots_run data "Year 1943"%string
             "plots/usaaf/years"%string)).
Proof.
  intros r data.
  assert (H : forallb (has_column data) Visualize.plot_columns = true)
    by reflexivity.
  assert (Hne : rows data <> []) by discriminate.
  pose proof (proj1 generate_plots_gates data "Year 1943"%string
                "plots/usaaf/years"%string H Hne)
    as (_ & _ & _ & _ & Hnone & _ & Hradar & _).
  split; [exact H|]. split.
  - apply (proj2 Hnone). intros [Hn _]. vm_compute in Hn. lia.
  - apply (proj2 Hradar). split.
    + vm_compute. lia.
    + intros [Hn _]. vm_compute in Hn. lia.
Defined.

(** ** Filtering *)

Lemma deref_alloc_old (h : App.Heap) (d : DataFrame) (ref : nat) :
  ref < List.length h -> App.deref (h ++ [d]) ref = App.deref h ref.
Proof.
  intros H. unfold App.deref. now apply app_nth1.
Qed.

Lemma deref_alloc_new (h : App.Heap) (d : DataFrame) :
  App.deref (h ++ [d]) (List.length h) = d.
Proof.
  unfold App.deref. apply nth_app_new.
Qed.

(** A cell equals a value when it is present and holds that value. *)
Lemma str_cell_eq_iff (c : option string) (v : App.PyVal) :
  App.str_cell_eq c v = true <-> option_map App.VStr c = Some v.
Proof.
  destruct c as [t|], v as [s|z]; simpl; try (split; discriminate).
  rewrite String.eqb_eq. split; [now intros -> | now intros [= ->]].
Qed.

Lemma int_cell_eq_iff (c : option Z) (v : App.PyVal) :
  App.int_cell_eq c v = true <-> option_map App.VInt c = Some v.
Proof.
  destruct c as [y|], v as [s|z]; simpl; try (split; discriminate).
  rewrite Z.eqb_eq. split; [now intros -> | now intros [= ->]].
Qed.

(** C10. [get_filtered_df] returns, in a fresh frame, exactly the rows of
    the input whose [target_location] is the uppercased filter value (type
    "city", so the case of the filter value does not matter), whose
    [CATEGORY] is the filter value (type "category") or whose [Year] is the
    filter value (type "year"), in the order of the input; for any other
    type it returns the input frame itself.  It never changes a frame of
    the store, the input included, and every row it returns is a row of
    the input. *)
Theorem get_filtered_df_spec (h : App.Heap) (df : nat) :
  let d := App.deref h df in
  (forall v : string,
      has_column d "target_location" = true ->
      exists h' mask,
        App.get_filtered_df h df "city" (App.VStr v) = Ok (List.length h, h') /\
        rows (App.deref h' (List.length h)) = filter mask (rows d) /\
        (forall r, mask r = true <-> target_location r = Some (PyStr.upper v))) /\
  (forall v v' : string,
      PyStr.upper v = PyStr.upper v' ->
      App.get_filtered_df h df "city" (App.VStr v)
      = App.get_filtered_df h df "city" (App.VStr v')) /\
  (forall filter_value : App.PyVal,
      has_column d "CATEGORY" = true ->
      exists h' mask,
        App.get_filtered_df h df "category" filter_value
        = Ok (List.length h, h') /\
        rows (App.deref h' (List.length h)) = filter mask (rows d) /\
        (forall r, mask r = true
                   <-> option_map App.VStr (CATEGORY r) = Some filter_value)) /\
  (forall filter_value : App.PyVal,
      has_column d "Year" = true ->
      exists h' mask,
        App.get_filtered_df h df "year" filter_value = Ok (List.length h, h') /\
        rows (App.deref h' (List.length h)) = filter mask (rows d) /\
        (forall r, mask r = true
                   <-> option_map App.VInt (Year r) = Some filter_value)) /\
  (forall (filter_type : string) (filter_value : App.PyVal),
      filter_type <> "city"%string -> filter_type <> "category"%string ->
      filter_type <> "year"%string ->
      App.get_filtered_df h df filter_type filter_value = Ok (df, h)) /\
  (forall (filter_type : string) (filter_value : App.PyVal)
          (df' : nat) (h' : App.Heap),
      App.get_filtered_df h df filter_type filter_value = Ok (df', h') ->
      (forall ref, ref < List.length h -> App.deref h' ref = App.deref h ref) /\
      incl (rows (App.deref h' df')) (rows d)).
Proof.
  intros d. split; [|split; [|split; [|split; [|split]]]].
  - intros v Hc. unfold App.get_filtered_df. fold d. rewrite Hc. simpl.
    do 2 eexists. split; [reflexivity|]. split.
    + rewrite deref_alloc_new. reflexivity.
    + intros r. rewrite str_cell_eq_iff.
      destruct (target_location r); simpl; split; congruence.
  - intros v v' Hv. unfold App.get_filtered_df. simpl. now rewrite Hv.
  - intros fv Hc. unfold App.get_filtered_df. fold d. rewrite Hc. simpl.
    do 2 eexists. split; [reflexivity|]. split.
    + rewrite deref_alloc_new. reflexivity.
    + intros r. apply str_cell_eq_iff.
  - intros fv Hc. unfold App.get_filtered_df. fold d. rewrite Hc. simpl.
    do 2 eexists. split; [reflexivity|]. split.
    + rewrite deref_alloc_new. reflexivity.
    + intros r. apply int_cell_eq_iff.
  - intros ft fv H1 H2 H3. unfold App.get_filtered_df.
    apply String.eqb_neq in H1, H2, H3. now rewrite H1, H2, H3.
  - intros ft fv df' h' H.
    destruct (get_filtered_df_shape _ _ _ _ _ _ H)
      as [[-> ->] | (mask & -> & ->)].
    + split; [reflexivity | apply incl_refl].
    + split; [intros ref Hr; now apply deref_alloc_old|].
      rewrite deref_alloc_new. unfold select. simpl. fold d.
      intros r Hin. apply filter_In in Hin. tauto.
Qed.

(** What Python raises instead: a missing column is a [KeyError], and a
    city filter value that is not a string has no [upper]. *)
Lemma get_filtered_df_raises (h : App.Heap) (df : nat) :
  let d := App.deref h df in
  (forall v, has_column d "target_location" = false ->
             App.get_filtered_df h df "city" v = Raise KeyError) /\
  (forall z, has_column d "target_location" = true ->
             App.get_filtered_df h df "city" (App.VInt z) = Raise AttributeError) /\
  (forall v, has_column d "CATEGORY" = false ->
             App.get_filtered_df h df "category" v = Raise KeyError) /\
  (forall v, has_column d "Year" = false ->
             App.get_filtered_df h df "year" v = Raise KeyError).
Proof.
  intros d. unfold App.get_filtered_df. fold d.
  repeat split; intros v H; simpl; now rewrite H.
Qed.

Lemma get_filtered_df_spec_witness :
  let berlin := mkRaid (Some "BERLIN"%string) (Some "OIL"%string) None
                  (Some 1944%Z) None None None None None None None None in
  let kiel := mkRaid (Some "KIEL"%string) (Some "OIL"%string) None
                (Some 1943%Z) None None None None None None None None in
  let d := mkDataFrame ["target_location"; "CATEGORY"; "Year"]%string
             [berlin; kiel; berlin] in
  exists h',
    App.get_filtered_df [d] 0 "city" (App.VStr "Berlin") = Ok (1, h') /\
    rows (App.deref h' 1) = [berlin; berlin] /\
    App.deref h' 0 = d.
Proof.
  intros berlin kiel d.
  destruct (proj1 (get_filtered_df_spec [d] 0) "Berlin"%string eq_refl)
    as (h' & mask & Hg & Hrows & Hmask).
  change (List.length [d]) with 1 in Hg, Hrows.
  exists h'. split; [exact Hg|]. split.
  - rewrite Hrows. simpl.
    assert (Hb : mask berlin = true) by (apply Hmask; reflexivity).
    assert (Hk : mask kiel = false).
    { destruct (mask kiel) eqn:E; [|reflexivity].
      apply Hmask in E. discriminate E. }
    now rewrite Hb, Hk.
  - apply (proj1 (proj2 (proj2 (proj2 (proj2 (proj2
                      (get_filtered_df_spec [d] 0)))))
                    "city"%string (App.VStr "Berlin") 1 h' Hg) 0).
    simpl. lia.
Defined.

(** ** The loader, case by case *)

Lemma has_column_assign_column (name : string) (f : Raid -> Raid)
    (d : DataFrame) (c : string) :
  has_column (assign_column name f d) c
  = has_column d c || (String.eqb c name && negb (has_column d name)).
Proof.
  unfold assign_column, has_column at 1. simpl.
  destruct (has_column d name) eqn:E.
  - now rewrite andb_false_r, orb_false_r.
  - rewrite existsb_app. simpl. now rewrite orb_false_r, andb_true_r.
Qed.

Lemma columns_assign_column_present (name : string) (f : Raid -> Raid)
    (d : DataFrame) :
  has_column d name = true -> columns (assign_column name f d) = columns d.
Proof.
  intros H. unfold assign_column. simpl. now rewrite H.
Qed.

Lemma has_column_app_new (cols : list string) (name c : string) :
  existsb (String.eqb c) (cols ++ [name])
  = existsb (String.eqb c) cols || String.eqb c name.
Proof.
  rewrite existsb_app. simpl. now rewrite orb_false_r.
Qed.

Lemma normalize_location_cell_idem (c : option string) :
  normalize_location_cell (normalize_location_cell c)
  = normalize_location_cell c.
Proof.
  destruct c as [s|]; [|reflexivity]. simpl. f_equal.
  unfold normalize_location. now rewrite strip_upper, strip_idem, upper_idem.
Qed.

Lemma assign_column_present (name : string) (f : Raid -> Raid)
    (d : DataFrame) :
  has_column d name = true ->
  assign_column name f d = mkDataFrame (columns d) (map f (rows d)).
Proof.
  intros H. unfold assign_column. now rewrite H.
Qed.

Lemma has_column_new_frame (cols : list string) (rs : list Raid)
    (name c : string) :
  has_column (mkDataFrame (cols ++ [name]) rs) c
  = existsb (String.eqb c) cols || String.eqb c name.
Proof.
  unfold has_column. simpl. apply has_column_app_new.
Qed.

(** The row [load_data] makes of a row: with the year derived, and
    without. *)
Lemma load_data_rows (csv : DataFrame) :
  has_column csv "target_location" = true ->
  str_accessor (map target_location (rows csv)) = true ->
  (negb (has_column csv "Year") && has_column csv "YEAR" = true ->
   Forall (fun r => YEAR r <> None) (rows csv)) ->
  exists g : Raid -> Raid,
    App.load_data csv
    = mkDataFrame
        (if negb (has_column csv "Year") && has_column csv "YEAR"
         then columns csv ++ ["Year"%string] else columns csv)
        (map g (rows csv)) /\
    (forall r,
        target_location (g r) = normalize_location_cell (target_location r) /\
        CATEGORY (g r) = CATEGORY r /\
        YEAR (g r) = YEAR r /\
        AREA_BOMBING_SCORE_NORMALIZED (g r) = AREA_BOMBING_SCORE_NORMALIZED r /\
        TOTAL_TONS (g r) = TOTAL_TONS r /\
        INCENDIARY_PERCENT (g r) = INCENDIARY_PERCENT r /\
        Year (g r)
        = (if negb (has_column csv "Year") && has_column csv "YEAR"
           then option_map App.derive_Year (YEAR r) else Year r)).
Proof.
  intros Hloc Hstr Hdef. unfold App.load_data, App.add_Year.
  destruct (negb (has_column csv "Year") && has_column csv "YEAR") eqn:Hc.
  - rewrite (astype_int_Year_defined _ (Hdef eq_refl)).
    unfold App.normalize_target_location.
    rewrite (assign_column_present "Year" _ (mkDataFrame _ _))
      by (rewrite has_column_new_frame, String.eqb_refl; apply orb_true_r).
    simpl columns. simpl rows.
    rewrite (assign_column_present "Year" _ (mkDataFrame _ _))
      by (rewrite has_column_new_frame, String.eqb_refl; apply orb_true_r).
    simpl columns. simpl rows.
    assert (Ht : has_column
                   (mkDataFrame (columns csv ++ ["Year"%string])
                      (map (loc_Year (fun y => (y >? 1946)%Z) 1945%Z)
                         (map (loc_Year (fun y => (y <? 1939)%Z) 1940%Z)
                            (map (fun r =>
                                    set_Year
                                      (option_map
                                         (fun offset =>
                                            Pandas.int_of_float (1940 + offset)%Q)
                                         (YEAR r)) r)
                               (rows csv)))))
                   "target_location" = true).
    { rewrite has_column_new_frame. fold (has_column csv "target_location").
      now rewrite Hloc. }
    rewrite Ht. cbn [rows].
    rewrite !(target_location_column_kept (loc_Year _ _))
      by (intros; apply target_location_loc_Year).
    rewrite (target_location_column_kept _ (rows csv)) by reflexivity.
    rewrite Hstr, (assign_column_present _ _ _ Ht). simpl columns. simpl rows.
    eexists. split.
    + rewrite !map_map. reflexivity.
    + intros r. cbv beta.
      unfold set_target_location, loc_Year, set_Year, App.derive_Year.
      cbv zeta.
      destruct (YEAR r) as [offset|]; simpl; [|repeat split].
      destruct (Pandas.int_of_float (1940 + offset) <? 1939)%Z; simpl;
        [repeat split|].
      destruct (Pandas.int_of_float (1940 + offset) >? 1946)%Z; simpl;
        repeat split.
  - unfold App.normalize_target_location. rewrite Hloc, Hstr.
    eexists. split.
    + unfold assign_column. rewrite Hloc. reflexivity.
    + intros r. simpl. repeat split.
Qed.

(** A [target_location] column without a string: [.str] raises, and the
    loader returns the empty frame. *)
Lemma load_data_not_strings (csv : DataFrame) :
  str_accessor (map target_location (rows csv)) = false ->
  App.load_data csv = empty_frame.
Proof.
  intros Hstr. unfold App.load_data, App.add_Year.
  destruct (negb (has_column csv "Year") && has_column csv "YEAR").
  - destruct (App.astype_int_Year (rows csv)) as [rs|e] eqn:E; [|reflexivity].
    assert (Hrs : map target_location rs = map target_location (rows csv)).
    { clear -E. revert rs E.
      induction (rows csv) as [|r l IH]; intros rs E; simpl in E.
      - now injection E as <-.
      - destruct (YEAR r) as [offset|]; [|discriminate].
        destruct (App.astype_int_Year l) as [rest|e]; [|discriminate].
        injection E as <-. simpl. now rewrite (IH rest eq_refl). }
    unfold App.normalize_target_location.
    destruct (has_column _ "target_location"); [|reflexivity].
    rewrite !rows_assign_column. cbn [rows].
    rewrite !(target_location_column_kept (loc_Year _ _))
      by (intros; apply target_location_loc_Year).
    now rewrite Hrs, Hstr.
  - unfold App.normalize_target_location.
    destruct (has_column csv "target_location"); [|reflexivity].
    now rewrite Hstr.
Qed.

Lemma str_accessor_normalized (col : list (option string)) :
  str_accessor (map normalize_location_cell col) = str_accessor col.
Proof.
  destruct col as [|c col]; [reflexivity|].
  unfold str_accessor. cbn [map].
  change (existsb (fun c0 => match c0 with Some _ => true | None => false end)
            (map normalize_location_cell (c :: col))
          = existsb (fun c0 => match c0 with Some _ => true | None => false end)
              (c :: col)).
  induction (c :: col) as [|x l IH]; [reflexivity|].
  simpl. rewrite IH. now destruct x.
Qed.

Lemma load_data_without_location (csv : DataFrame) :
  has_column csv "target_location" = false ->
  App.load_data csv = empty_frame.
Proof.
  intros Hloc. unfold App.load_data, App.add_Year.
  destruct (negb (has_column csv "Year") && has_column csv "YEAR").
  - destruct (App.astype_int_Year (rows csv)) as [rs|e]; [|reflexivity].
    unfold App.normalize_target_location.
    rewrite !has_column_assign_column, has_column_new_frame.
    fold (has_column csv "target_location"). rewrite Hloc. reflexivity.
  - unfold App.normalize_target_location. now rewrite Hloc.
Qed.

(** X1. [load_data] loses the whole table on one bad input: without a
    [target_location] column, or with a [YEAR] column (and no [Year]) in
    which a single offset is missing, the exception is caught and the
    empty frame is returned. *)
Theorem load_data_fails_to_empty (csv : DataFrame) :
  (has_column csv "target_location" = false ->
   App.load_data csv = empty_frame) /\
  (has_column csv "Year" = false -> has_column csv "YEAR" = true ->
   Exists (fun r => YEAR r = None) (rows csv) ->
   App.load_data csv = empty_frame).
Proof.
  split; [apply load_data_without_location|].
  intros HY Hoff Hmiss. unfold App.load_data, App.add_Year.
  rewrite HY, Hoff. simpl.
  now rewrite (astype_int_Year_missing _ Hmiss).
Qed.

Lemma load_data_fails_to_empty_witness :
  let r := mkRaid (Some "KIEL"%string) None (Some 3%Q) None None None None
             None None None None None in
  let gap := mkRaid (Some "BERLIN"%string) None None None None None None
               None None None None None in
  App.load_data (mkDataFrame ["YEAR"%string] [r]) = empty_frame /\
  App.load_data (mkDataFrame ["YEAR"; "target_location"]%string [r; gap; r])
  = empty_frame.
Proof.
  intros r gap. split.
  - apply (proj1 (load_data_fails_to_empty (mkDataFrame ["YEAR"%string] [r]))).
    reflexivity.
  - apply (proj2 (load_data_fails_to_empty
                    (mkDataFrame ["YEAR"; "target_location"]%string
                       [r; gap; r]))).
    + reflexivity.
    + reflexivity.
    + apply Exists_cons_tl. apply Exists_cons_hd. reflexivity.
Defined.

(** X2. When [load_data] succeeds it keeps the rows: on a table with a
    [target_location] column that holds a string, ASCII locations and no
    missing offset where the year is derived, it returns as many rows, in
    the same order, with the category, offset, score, tonnage and
    incendiary columns as they were and every location normalized. *)
Theorem load_data_keeps_rows (csv : DataFrame) :
  has_column csv "target_location" = true ->
  str_accessor (map target_location (rows csv)) = true ->
  forallb (fun r => ascii_cell (target_location r)) (rows csv) = true ->
  (has_column csv "Year" = false -> has_column csv "YEAR" = true ->
   Forall (fun r => YEAR r <> None) (rows csv)) ->
  let data := App.load_data csv in
  List.length (rows data) = List.length (rows csv) /\
  map target_location (rows data)
  = map (fun r => normalize_location_cell (target_location r)) (rows csv) /\
  map CATEGORY (rows data) = map CATEGORY (rows csv) /\
  map YEAR (rows data) = map YEAR (rows csv) /\
  scores data = scores csv /\
  map TOTAL_TONS (rows data) = map TOTAL_TONS (rows csv) /\
  map INCENDIARY_PERCENT (rows data) = map INCENDIARY_PERCENT (rows csv).
Proof.
  intros Hloc Hstr _ Hdef data.
  destruct (load_data_rows csv Hloc Hstr) as (g & Hg & Hf).
  { intros Hc. apply andb_true_iff in Hc as [HY Hoff].
    apply negb_true_iff in HY. now apply Hdef. }
  subst data. rewrite Hg. unfold scores. simpl rows.
  rewrite length_map, !map_map.
  split; [reflexivity|].
  repeat split; apply map_ext; intros r; apply (Hf r).
Qed.

Lemma load_data_keeps_rows_witness :
  let csv :=
    mkDataFrame ["YEAR"; "target_location"; "CATEGORY"]%string
      [mkRaid (Some " Kiel "%string) (Some "Oil"%string) (Some 3%Q) None
         None None None None None None None None;
       mkRaid None None (Some 4%Q) None None None None None None None None
         None] in
  List.length (rows (App.load_data csv)) = 2 /\
  map target_location (rows (App.load_data csv)) = [Some "KIEL"%string; None].
Proof.
  intros csv.
  assert (H : Forall (fun r => YEAR r <> None) (rows csv))
    by (repeat constructor; discriminate).
  pose proof (load_data_keeps_rows csv eq_refl eq_refl eq_refl (fun _ _ => H))
    as (Hn & Hl & _).
  split; [exact Hn | exact Hl].
Defined.

(** X3. The year is only derived, and only clamped, when the table has no
    [Year] column: on a table whose [target_location] column holds a
    string, an existing [Year] column is kept as it is, whatever its
    values, and a table with neither [Year] nor [YEAR] is loaded without a
    year, so that filtering it by year raises [KeyError]. *)
Theorem load_data_keeps_existing_Year (csv : DataFrame) :
  has_column csv "target_location" = true ->
  str_accessor (map target_location (rows csv)) = true ->
  (has_column csv "Year" = true ->
   map Year (rows (App.load_data csv)) = map Year (rows csv) /\
   columns (App.load_data csv) = columns csv) /\
  (has_column csv "Year" = false -> has_column csv "YEAR" = false ->
   columns (App.load_data csv) = columns csv /\
   forall (h : App.Heap) (df : nat) (v : App.PyVal),
     App.deref h df = App.load_data csv ->
     App.get_filtered_df h df "year" v = Raise KeyError).
Proof.
  intros Hloc Hstr. split.
  - intros HY.
    destruct (load_data_rows csv Hloc Hstr) as (g & Hg & Hf).
    { rewrite HY. discriminate. }
    rewrite Hg. rewrite HY in *. simpl. split; [|reflexivity].
    rewrite map_map. apply map_ext. intros r. apply (Hf r).
  - intros HY Hoff.
    destruct (load_data_rows csv Hloc Hstr) as (g & Hg & Hf).
    { rewrite HY, Hoff. discriminate. }
    rewrite Hg. rewrite HY, Hoff in *. simpl. split; [reflexivity|].
    intros h df v Hd.
    apply (proj2 (proj2 (proj2 (get_filtered_df_raises h df)))).
    rewrite Hd. unfold has_column. simpl. exact HY.
Qed.

Lemma load_data_keeps_existing_Year_witness :
  let csv :=
    mkDataFrame ["Year"; "YEAR"; "target_location"]%string
      [mkRaid (Some "KIEL"%string) None (Some 3%Q) (Some 1066%Z) None None
         None None None None None None] in
  let bare :=
    mkDataFrame ["target_location"]%string
      [mkRaid (Some "KIEL"%string) None None None None None None None None
         None None None] in
  map Year (rows (App.load_data csv)) = [Some 1066%Z] /\
  App.get_filtered_df [App.load_data bare] 0 "year" (App.VInt 1943)
  = Raise KeyError.
Proof.
  intros csv bare. split.
  - exact (proj1 (proj1 (load_data_keeps_existing_Year csv eq_refl eq_refl)
                    eq_refl)).
  - exact (proj2 (proj2 (load_data_keeps_existing_Year bare eq_refl eq_refl)
                    eq_refl eq_refl)
             [App.load_data bare] 0 (App.VInt 1943) eq_refl).
Defined.

(** A frame that has its locations normalized and needs no year is
    returned as it is. *)
Lemma load_data_fixed (d : DataFrame) :
  has_column d "target_location" = true ->
  str_accessor (map target_location (rows d)) = true ->
  negb (has_column d "Year") && has_column d "YEAR" = false ->
  (forall r, In r (rows d) ->
             set_target_location (normalize_location_cell (target_location r)) r
             = r) ->
  App.load_data d = d.
Proof.
  intros Hloc Hstr Hc Hn. unfold App.load_data, App.add_Year. rewrite Hc.
  unfold App.normalize_target_location. rewrite Hloc, Hstr.
  rewrite (assign_column_present _ _ _ Hloc).
  destruct d as [cols rs]. simpl in *. f_equal.
  rewrite <- (map_id rs) at 2. apply map_ext_in. exact Hn.
Qed.

(** X4. Loading is idempotent: [load_data] applied to what it returned
    returns the same frame, the empty frame included. *)
Theorem load_data_idempotent (csv : DataFrame) :
  App.load_data (App.load_data csv) = App.load_data csv.
Proof.
  destruct (has_column csv "target_location") eqn:Hloc.
  2:{ rewrite (load_data_without_location csv Hloc). reflexivity. }
  destruct (str_accessor (map target_location (rows csv))) eqn:Hstr.
  2:{ rewrite (load_data_not_strings csv Hstr). reflexivity. }
  assert (Hfix : forall g : Raid -> Raid,
             (forall r, target_location (g r)
                        = normalize_location_cell (target_location r)) ->
             str_accessor (map target_location (map g (rows csv))) = true /\
             forall r', In r' (map g (rows csv)) ->
               set_target_location
                 (normalize_location_cell (target_location r')) r' = r').
  { intros g Hf. split.
    - rewrite map_map.
      rewrite (map_ext _ (fun r => normalize_location_cell (target_location r)))
        by exact Hf.
      rewrite <- (map_map target_location normalize_location_cell).
      now rewrite str_accessor_normalized.
    - intros r' Hin. apply in_map_iff in Hin as (r & <- & _).
      rewrite (Hf r), normalize_location_cell_idem.
      rewrite <- (Hf r). now destruct (g r). }
  destruct (negb (has_column csv "Year") && has_column csv "YEAR") eqn:Hc.
  - destruct (App.astype_int_Year (rows csv)) as [rs|e] eqn:E.
    2:{ assert (Hf : App.load_data csv = empty_frame).
        { unfold App.load_data, App.add_Year. now rewrite Hc, E. }
        rewrite Hf. reflexivity. }
    assert (Hdef : Forall (fun r => YEAR r <> None) (rows csv)).
    { clear -E. revert rs E. induction (rows csv) as [|r l IH]; intros rs E.
      - constructor.
      - simpl in E. destruct (YEAR r) as [offset|] eqn:Er; [|discriminate].
        destruct (App.astype_int_Year l) as [rest|e]; [|discriminate].
        constructor; [congruence | exact (IH rest eq_refl)]. }
    destruct (load_data_rows csv Hloc Hstr (fun _ => Hdef)) as (g & Hg & Hf).
    destruct (Hfix g (fun r => proj1 (Hf r))) as [Hs Hn].
    rewrite Hc in Hg. rewrite Hg. apply load_data_fixed.
    + rewrite has_column_new_frame. fold (has_column csv "target_location").
      now rewrite Hloc.
    + exact Hs.
    + rewrite has_column_new_frame, String.eqb_refl, orb_true_r. reflexivity.
    + exact Hn.
  - destruct (load_data_rows csv Hloc Hstr) as (g & Hg & Hf).
    { rewrite Hc. discriminate. }
    destruct (Hfix g (fun r => proj1 (Hf r))) as [Hs Hn].
    rewrite Hc in Hg. rewrite Hg. apply load_data_fixed.
    + exact Hloc.
    + exact Hs.
    + exact Hc.
    + exact Hn.
Qed.

(** ** The years a table can hold, and the year pages *)

Lemma astype_int_Year_ok_defined (rs rs' : list Raid) :
  App.astype_int_Year rs = Ok rs' -> Forall (fun r => YEAR r <> None) rs.
Proof.
  revert rs'. induction rs as [|r l IH]; intros rs' E; [constructor|].
  simpl in E. destruct (YEAR r) as [offset|] eqn:Er; [|discriminate].
  destruct (App.astype_int_Year l) as [rest|e]; [|discriminate].
  constructor; [congruence | exact (IH rest eq_refl)].
Qed.

Lemma App_derive_Year_range (offset : Q) :
  (1939 <= App.derive_Year offset <= 1946)%Z.
Proof.
  unfold App.derive_Year. cbv zeta.
  destruct (Z.ltb_spec (Pandas.int_of_float (1940 + offset)) 1939).
  - simpl. lia.
  - rewrite Z.gtb_ltb.
    destruct (Z.ltb_spec 1946 (Pandas.int_of_float (1940 + offset))); lia.
Qed.

Lemma Visualize_derive_Year_range (offset : option Q) :
  (1941 <= Visualize.derive_Year offset <= 1946)%Z.
Proof.
  unfold Visualize.derive_Year. cbv zeta.
  set (y := Pandas.int_of_float (1940 + Pandas.fillna 0%Q offset)).
  destruct (Z.ltb_spec y 1941).
  - simpl. lia.
  - rewrite Z.gtb_ltb. destruct (Z.ltb_spec 1946 y); lia.
Qed.

(** X5. A derived year is never outside 1939..1946 in the dashboard and
    never outside 1941..1946 in the plotting script, whatever the offset;
    so every row of a table whose [Year] column was derived has a year,
    and it lies in that range. *)
Theorem derived_years_in_range :
  (forall offset : Q, (1939 <= App.derive_Year offset <= 1946)%Z) /\
  (forall offset : option Q,
      (1941 <= Visualize.derive_Year offset <= 1946)%Z) /\
  (forall (csv : DataFrame) (r : Raid),
      has_column csv "Year" = false -> has_column csv "YEAR" = true ->
      In r (rows (App.load_data csv)) ->
      exists y, Year r = Some y /\ (1939 <= y <= 1946)%Z) /\
  (forall (df : DataFrame) (r : Raid),
      has_column df "Year" = false -> has_column df "YEAR" = true ->
      In r (rows (Visualize.clean_year df)) ->
      exists y, Year r = Some y /\ (1941 <= y <= 1946)%Z).
Proof.
  split; [exact App_derive_Year_range|].
  split; [exact Visualize_derive_Year_range|].
  split.
  - intros csv r HY Hoff Hin.
    destruct (has_column csv "target_location") eqn:Hloc.
    2:{ rewrite (load_data_without_location csv Hloc) in Hin. destruct Hin. }
    destruct (App.astype_int_Year (rows csv)) as [rs|e] eqn:E.
    2:{ unfold App.load_data, App.add_Year in Hin.
        rewrite HY, Hoff, E in Hin. destruct Hin. }
    pose proof (astype_int_Year_ok_defined _ _ E) as Hdef.
    destruct (str_accessor (map target_location (rows csv))) eqn:Hstr.
    2:{ rewrite (load_data_not_strings csv Hstr) in Hin. destruct Hin. }
    destruct (load_data_rows csv Hloc Hstr (fun _ => Hdef)) as (g & Hg & Hf).
    rewrite Hg in Hin. simpl in Hin.
    apply in_map_iff in Hin as (r0 & <- & Hin0).
    destruct (Hf r0) as (_ & _ & _ & _ & _ & _ & Hy).
    rewrite HY, Hoff in Hy. simpl in Hy.
    rewrite Forall_forall in Hdef. specialize (Hdef r0 Hin0).
    destruct (YEAR r0) as [offset|]; [|contradiction].
    exists (App.derive_Year offset). split; [exact Hy|].
    apply App_derive_Year_range.
  - intros df r HY Hoff Hin.
    pose proof (clean_year_Year_column df HY Hoff) as Hcol.
    apply (in_map Year) in Hin. rewrite Hcol in Hin.
    apply in_map_iff in Hin as (r0 & Hy & _).
    exists (Visualize.derive_Year (YEAR r0)). split; [now symmetry|].
    apply Visualize_derive_Year_range.
Qed.

Lemma derived_years_in_range_witness :
  let csv :=
    mkDataFrame ["YEAR"; "target_location"]%string
      [mkRaid (Some "KIEL"%string) None (Some (-40)%Q) None None None None
         None None None None None;
       mkRaid (Some "KIEL"%string) None None None None None None
         None None None None None] in
  Forall (fun r => exists y, Year r = Some y /\ (1941 <= y <= 1946)%Z)
         (rows (Visualize.clean_year csv)).
Proof.
  intros csv. apply Forall_forall. intros r Hin.
  exact (proj2 (proj2 (proj2 derived_years_in_range)) csv r eq_refl eq_refl Hin).
Defined.

Lemma years_range (y : Z) : In y Dashboard.years <-> (1940 <= y <= 1945)%Z.
Proof.
  unfold Dashboard.years. simpl. split.
  - intros H. repeat (destruct H as [<- | H]; [lia|]). destruct H.
  - intros H.
    assert (E : (y = 1940 \/ y = 1941 \/ y = 1942 \/ y = 1943 \/ y = 1944
                 \/ y = 1945)%Z) by lia.
    repeat (destruct E as [-> | E]; [tauto|]). subst. tauto.
Qed.

(** X6. The Year Analysis page offers the years 1940 to 1945, so a row of
    the loaded table is listed on some year page exactly when its year is
    one of these; the years 1939 and 1946, which the derivation can
    produce (offsets -1 and 6), are on no page. *)
Theorem year_pages_cover_1940_to_1945 (h : App.Heap) (df : nat) (r : Raid) :
  let d := App.deref h df in
  has_column d "Year" = true -> In r (rows d) ->
  ((exists (y : Z) (df' : nat) (h' : App.Heap),
       In y Dashboard.years /\
       App.get_filtered_df h df "year" (App.VInt y) = Ok (df', h') /\
       In r (rows (App.deref h' df')))
   <-> (exists y, Year r = Some y /\ (1940 <= y <= 1945)%Z)) /\
  App.derive_Year (-1) = 1939%Z /\ App.derive_Year 6 = 1946%Z.
Proof.
  intros d Hc Hin. split; [|split; reflexivity].
  assert (Hg : forall y,
             App.get_filtered_df h df "year" (App.VInt y)
             = Ok (List.length h,
                   h ++ [select (fun r => App.int_cell_eq (Year r) (App.VInt y)) d])).
  { intros y. unfold App.get_filtered_df. fold d. now rewrite Hc. }
  split.
  - intros (y & df' & h' & Hy & Hf & Hr).
    rewrite Hg in Hf. inversion Hf; subst df' h'; clear Hf.
    rewrite deref_alloc_new in Hr. unfold select in Hr. simpl in Hr.
    apply filter_In in Hr as [_ Hm]. apply int_cell_eq_iff in Hm.
    exists y. split; [|now apply years_range].
    destruct (Year r); simpl in Hm; congruence.
  - intros (y & Hy & Hrange).
    exists y, (List.length h), (h ++ [select (fun r => App.int_cell_eq (Year r) (App.VInt y)) d]).
    split; [now apply years_range|]. split; [apply Hg|].
    rewrite deref_alloc_new. unfold select. simpl.
    apply filter_In. split; [exact Hin|].
    apply int_cell_eq_iff. now rewrite Hy.
Qed.

Lemma year_pages_cover_1940_to_1945_witness :
  let late := mkRaid None None None (Some 1946%Z) None None None None None
                None None None in
  let d := mkDataFrame ["Year"%string] [late] in
  ~ (exists (y : Z) (df' : nat) (h' : App.Heap),
        In y Dashboard.years /\
        App.get_filtered_df [d] 0 "year" (App.VInt y) = Ok (df', h') /\
        In late (rows (App.deref h' df'))).
Proof.
  intros late d H.
  apply (proj1 (year_pages_cover_1940_to_1945 [d] 0 late eq_refl
                  (or_introl eq_refl))) in H.
  destruct H as (y & Hy & Hr). simpl in Hy. inversion Hy; subst. lia.
Defined.

(** ** Filters, composed *)

Lemma filter_comm {A : Type} (p q : A -> bool) (l : list A) :
  filter p (filter q l) = filter q (filter p l).
Proof.
  induction l as [|a l IH]; simpl; [reflexivity|].
  destruct (q a) eqn:Eq, (p a) eqn:Ep; simpl; rewrite ?Eq, ?Ep, IH; reflexivity.
Qed.

Lemma filter_idem {A : Type} (p : A -> bool) (l : list A) :
  filter p (filter p l) = filter p l.
Proof.
  apply forallb_filter_id, forallb_filter.
Qed.

Lemma has_column_select (mask : Raid -> bool) (d : DataFrame) (c : string) :
  has_column (select mask d) c = has_column d c.
Proof. reflexivity. Qed.

(** X7. Filters compose on the result of a filter: a city filter followed
    by a category filter gives the same rows as the category filter
    followed by the city filter, namely the rows of the input with that
    location and that category, and repeating the city filter on its own
    result changes nothing. *)
Theorem filters_compose (h : App.Heap) (df : nat) (v c : string) :
  let d := App.deref h df in
  has_column d "target_location" = true -> has_column d "CATEGORY" = true ->
  exists (r1 r2 q1 q2 r3 : nat) (h1 h2 k1 k2 h3 : App.Heap),
    App.get_filtered_df h df "city" (App.VStr v) = Ok (r1, h1) /\
    App.get_filtered_df h1 r1 "category" (App.VStr c) = Ok (r2, h2) /\
    App.get_filtered_df h df "category" (App.VStr c) = Ok (q1, k1) /\
    App.get_filtered_df k1 q1 "city" (App.VStr v) = Ok (q2, k2) /\
    App.get_filtered_df h1 r1 "city" (App.VStr v) = Ok (r3, h3) /\
    rows (App.deref h2 r2) = rows (App.deref k2 q2) /\
    rows (App.deref h3 r3) = rows (App.deref h1 r1) /\
    (forall r, In r (rows (App.deref h2 r2))
               <-> In r (rows d)
                   /\ target_location r = Some (PyStr.upper v)
                   /\ CATEGORY r = Some c).
Proof.
  intros d Hloc Hcat.
  set (mcity := fun r => App.str_cell_eq (target_location r)
                           (App.VStr (PyStr.upper v))).
  set (mcat := fun r => App.str_cell_eq (CATEGORY r) (App.VStr c)).
  assert (Hcity : forall (g : App.Heap) (ref : nat),
             has_column (App.deref g ref) "target_location" = true ->
             App.get_filtered_df g ref "city" (App.VStr v)
             = Ok (List.length g, g ++ [select mcity (App.deref g ref)])).
  { intros g ref H. unfold App.get_filtered_df. now rewrite H. }
  assert (Hcategory : forall (g : App.Heap) (ref : nat),
             has_column (App.deref g ref) "CATEGORY" = true ->
             App.get_filtered_df g ref "category" (App.VStr c)
             = Ok (List.length g, g ++ [select mcat (App.deref g ref)])).
  { intros g ref H. unfold App.get_filtered_df. now rewrite H. }
  do 10 eexists.
  split; [apply Hcity; exact Hloc|].
  split; [apply Hcategory; rewrite deref_alloc_new; exact Hcat|].
  split; [apply Hcategory; exact Hcat|].
  split; [apply Hcity; rewrite deref_alloc_new; exact Hloc|].
  split; [apply Hcity; rewrite deref_alloc_new; exact Hloc|].
  rewrite !deref_alloc_new. unfold select. simpl. fold d.
  split; [apply filter_comm|]. split; [apply filter_idem|].
  intros r. rewrite !filter_In. unfold mcity, mcat.
  rewrite !str_cell_eq_iff.
  destruct (target_location r), (CATEGORY r); simpl;
    intuition congruence.
Qed.

Lemma filters_compose_witness :
  let a := mkRaid (Some "KIEL"%string) (Some "OIL"%string) None None None
             None None None None None None None in
  let b := mkRaid (Some "KIEL"%string) (Some "RAIL"%string) None None None
             None None None None None None None in
  let d := mkDataFrame ["target_location"; "CATEGORY"]%string [a; b; a] in
  exists (r1 r2 : nat) (h1 h2 : App.Heap),
    App.get_filtered_df [d] 0 "city" (App.VStr "kiel") = Ok (r1, h1) /\
    App.get_filtered_df h1 r1 "category" (App.VStr "OIL") = Ok (r2, h2) /\
    forall r, In r (rows (App.deref h2 r2)) -> CATEGORY r = Some "OIL"%string.
Proof.
  intros a b d.
  destruct (filters_compose [d] 0 "kiel" "OIL" eq_refl eq_refl)
    as (r1 & r2 & _ & _ & _ & h1 & h2 & _ & _ & _ & H1 & H2 & _ & _ & _ & _ & _ & H).
  exists r1, r2, h1, h2. split; [exact H1|]. split; [exact H2|].
  intros r Hr. apply H in Hr. tauto.
Defined.

(** ** The raid table of a page *)

Lemma In_firstn {A : Type} (n : nat) (l : list A) (x : A) :
  In x (firstn n l) -> In x l.
Proof.
  intros H. rewrite <- (firstn_skipn n l). apply in_or_app. now left.
Qed.

Lemma In_skipn {A : Type} (n : nat) (l : list A) (x : A) :
  In x (skipn n l) -> In x l.
Proof.
  intros H. rewrite <- (firstn_skipn n l). apply in_or_app. now right.
Qed.

Lemma iloc_length {A : Type} (l : list A) (start stop : nat) :
  List.length (Dashboard.iloc l start stop)
  = Nat.min (stop - start) (List.length l - start).
Proof.
  unfold Dashboard.iloc. now rewrite length_firstn, length_skipn.
Qed.

Lemma iloc_nth_error {A : Type} (l : list A) (start stop j : nat) :
  j < stop - start ->
  nth_error (Dashboard.iloc l start stop) j = nth_error l (start + j).
Proof.
  intros H. unfold Dashboard.iloc.
  rewrite nth_error_firstn, nth_error_skipn.
  apply Nat.ltb_lt in H. now rewrite H.
Qed.

(** X8. The table [display_data_table] shows is a window of the searched
    rows: it never has more than [num_rows] rows nor more than the heading
    announces, and all of them are rows of the frame.  For a starting row
    the input accepts (at most [max(0, len - num_rows)]) the window is full
    (it has [min(num_rows, len)] rows) and its row [j] is row
    [start_idx + j]; every row is in the window of some accepted starting
    row.  Nothing is shown for an empty frame. *)
Theorem display_data_table_window (contains : string -> Raid -> bool)
    (df : DataFrame) (search_term : string) (num_rows : nat) :
  let filtered_df :=
    match search_term with
    | EmptyString => df
    | _ => select (contains search_term) df
    end in
  (rows df = [] ->
   forall start_idx,
     Dashboard.display_data_table contains df search_term start_idx num_rows
     = None) /\
  (forall start_idx v,
      Dashboard.display_data_table contains df search_term start_idx num_rows
      = Some v ->
      List.length (Dashboard.page v) <= num_rows /\
      List.length (Dashboard.page v) <= Dashboard.shown v /\
      incl (Dashboard.page v) (rows df) /\
      (start_idx <= Dashboard.max_start filtered_df num_rows ->
       List.length (Dashboard.page v)
       = Nat.min num_rows (List.length (rows filtered_df)) /\
       forall j, j < List.length (Dashboard.page v) ->
                 nth_error (Dashboard.page v) j
                 = nth_error (rows filtered_df) (start_idx + j))) /\
  (rows df <> [] -> 0 < num_rows ->
   forall i, i < List.length (rows filtered_df) ->
     exists start_idx v j,
       start_idx <= Dashboard.max_start filtered_df num_rows /\
       Dashboard.display_data_table contains df search_term start_idx num_rows
       = Some v /\
       nth_error (Dashboard.page v) j = nth_error (rows filtered_df) i /\
       j < List.length (Dashboard.page v)).
Proof.
  intros filtered_df.
  assert (Hsub : incl (rows filtered_df) (rows df)).
  { subst filtered_df. destruct search_term; [apply incl_refl|].
    unfold select. simpl. apply incl_filter. }
  assert (Hlen : List.length (rows filtered_df) <= List.length (rows df)).
  { subst filtered_df. destruct search_term; [lia|].
    unfold select. simpl. apply filter_length_le. }
  split; [|split].
  - intros He start_idx. unfold Dashboard.display_data_table. now rewrite He.
  - intros start_idx v Hv. unfold Dashboard.display_data_table in Hv.
    destruct (0 <? List.length (rows df)); [|discriminate].
    fold filtered_df in Hv. inversion Hv; subst v; clear Hv. simpl.
    rewrite iloc_length.
    split; [lia|]. split; [lia|]. split.
    { intros r Hr. apply Hsub. unfold Dashboard.iloc in Hr.
      apply In_firstn in Hr. now apply In_skipn in Hr. }
    unfold Dashboard.max_start. intros Hs. split; [lia|].
    intros j Hj. apply iloc_nth_error. lia.
  - intros Hne Hn i Hi.
    set (len := List.length (rows filtered_df)) in *.
    exists (Nat.min i (len - num_rows)).
    eexists. exists (i - Nat.min i (len - num_rows)).
    unfold Dashboard.display_data_table.
    assert (Hpos : (0 <? List.length (rows df)) = true).
    { apply Nat.ltb_lt. destruct (rows df); [contradiction | simpl; lia]. }
    rewrite Hpos. fold filtered_df. fold len.
    split; [unfold Dashboard.max_start; fold len; lia|].
    split; [reflexivity|]. simpl.
    rewrite iloc_length. fold len. split; [|lia].
    rewrite iloc_nth_error by lia. f_equal. lia.
Qed.

Lemma display_data_table_window_witness :
  let r := fun y => mkRaid None None None (Some y) None None None None None
                      None None None in
  let df := mkDataFrame ["Year"%string]
              [r 1%Z; r 2%Z; r 3%Z; r 4%Z; r 5%Z] in
  match Dashboard.display_data_table (fun _ _ => true) df "" 3 2 with
  | Some v => Dashboard.page v = [r 4%Z; r 5%Z]
  | None => False
  end.
Proof.
  intros r df.
  destruct (Dashboard.display_data_table (fun _ _ => true) df "" 3 2)
    as [v|] eqn:Hv; [|discriminate Hv].
  destruct (proj1 (proj2 (display_data_table_window (fun _ _ => true) df "" 2))
              3 v Hv) as (_ & _ & _ & Hfull).
  assert (Hs : 3 <= Dashboard.max_start df 2) by (vm_compute; lia).
  destruct (Hfull Hs) as [Hn Hj].
  change (List.length (Dashboard.page v) = 2) in Hn.
  destruct (Dashboard.page v) as [|a [|b [|c l]]]; try discriminate Hn.
  pose proof (Hj 0 (Nat.lt_0_succ 1)) as H0.
  pose proof (Hj 1 (Nat.lt_succ_diag_r 1)) as H1.
  simpl in H0, H1. congruence.
Defined.

(** ** File names: what the script saves and what the dashboard looks up *)

Lemma has_space_append (a b : string) :
  PyStrExtra.has_space (a ++ b)
  = PyStrExtra.has_space a || PyStrExtra.has_space b.
Proof.
  induction a as [|c a IH]; simpl; [reflexivity|].
  now rewrite IH, orb_assoc.
Qed.

Lemma lower_char_space (c : ascii) :
  Ascii.eqb (PyStr.lower_char c) " " = Ascii.eqb c " ".
Proof.
  destruct c as [[] [] [] [] [] [] [] []]; reflexivity.
Qed.

Lemma has_space_lower (s : string) :
  PyStrExtra.has_space (PyStr.lower s) = PyStrExtra.has_space s.
Proof.
  unfold PyStr.lower.
  induction s as [|c s IH]; simpl; [reflexivity|].
  now rewrite lower_char_space, IH.
Qed.

Lemma has_space_replace (s : string) :
  PyStrExtra.has_space (PyStr.replace_space_underscore s) = false.
Proof.
  unfold PyStr.replace_space_underscore.
  induction s as [|c s IH]; simpl; [reflexivity|].
  rewrite IH, orb_false_r.
  destruct (Ascii.eqb c " ") eqn:E; [reflexivity | exact E].
Qed.

Lemma replace_without_space (s : string) :
  PyStrExtra.has_space s = false -> PyStr.replace_space_underscore s = s.
Proof.
  unfold PyStr.replace_space_underscore.
  induction s as [|c s IH]; simpl; [reflexivity|].
  intros H. apply orb_false_iff in H as [Hc Hs].
  now rewrite Hc, (IH Hs).
Qed.

Lemma has_space_file_stem (group_name : string) :
  PyStrExtra.has_space (Visualize.file_stem group_name) = false.
Proof.
  unfold Visualize.file_stem. rewrite has_space_lower. apply has_space_replace.
Qed.

Lemma has_space_plot_file (save_dir kind group_name : string) :
  PyStrExtra.has_space (Visualize.plot_file save_dir kind group_name)
  = PyStrExtra.has_space save_dir || PyStrExtra.has_space kind.
Proof.
  unfold Visualize.plot_file.
  rewrite !has_space_append, has_space_file_stem. simpl.
  now rewrite !orb_false_r.
Qed.

(** The files of one call are among its five file names. *)
Lemma generate_plots_files (data : DataFrame) (g d f : string) :
  In f (Visualize.generate_plots data g d) ->
  exists kind,
    In kind ["score_distribution"; "tonnage_vs_incendiary";
             "scores_by_target_type"; "category_pie";
             "component_radar"]%string /\
    f = Visualize.plot_file d kind g.
Proof.
  unfold Visualize.generate_plots. intros H.
  apply in_app_or in H as [H | H].
  - destruct H as [<- | [<- | [<- | []]]]; eexists; (split; [|reflexivity]);
      simpl; tauto.
  - apply in_app_or in H as [H | H].
    + destruct (20 <? _); [|contradiction]. destruct H as [<- | []].
      eexists; (split; [|reflexivity]); simpl; tauto.
    + destruct (5 <=? _); [|contradiction]. destruct H as [<- | []].
      eexists; (split; [|reflexivity]); simpl; tauto.
Qed.

(** What a call saves for certain, by the size of the subset. *)
Lemma generate_plots_contains (data : DataFrame) (g d : string) :
  let saved := Visualize.generate_plots data g d in
  In (Visualize.plot_file d "score_distribution" g) saved /\
  In (Visualize.plot_file d "tonnage_vs_incendiary" g) saved /\
  In (Visualize.plot_file d "scores_by_target_type" g) saved /\
  (20 < List.length (rows data) ->
   In (Visualize.plot_file d "category_pie" g) saved) /\
  (5 <= List.length (rows data) ->
   In (Visualize.plot_file d "component_radar" g) saved).
Proof.
  intros saved. subst saved. unfold Visualize.generate_plots.
  split; [apply in_or_app; left; now left|].
  split; [apply in_or_app; left; right; now left|].
  split; [apply in_or_app; left; right; right; now left|].
  split; intros H.
  - apply Nat.ltb_lt in H. rewrite H.
    apply in_or_app. right. apply in_or_app. left. now left.
  - apply Nat.leb_le in H. rewrite H.
    apply in_or_app. right. apply in_or_app. right. now left.
Qed.

Lemma city_path_matches (kind city : string) :
  PyStrExtra.has_space city = false ->
  Dashboard.city_plot_path kind city
  = Visualize.plot_file "plots/usaaf/cities" kind ("City " ++ city).
Proof.
  intros H.
  unfold Dashboard.city_plot_path, Visualize.plot_file, Visualize.file_stem,
    Dashboard.PLOT_PATH, PyStr.lower, PyStr.replace_space_underscore.
  simpl. do 19 f_equal.
  fold PyStr.replace_space_underscore.
  rewrite (replace_without_space city H).
  induction kind as [|c kind IH]; simpl; [reflexivity | now rewrite IH].
Qed.

Lemma category_path_matches (kind category : string) :
  PyStrExtra.has_space category = false ->
  Dashboard.category_plot_path kind category
  = Visualize.plot_file "plots/usaaf/categories" kind ("Category " ++ category).
Proof.
  intros H.
  unfold Dashboard.category_plot_path, Visualize.plot_file, Visualize.file_stem,
    Dashboard.PLOT_PATH, PyStr.lower, PyStr.replace_space_underscore.
  simpl. do 23 f_equal.
  fold PyStr.replace_space_underscore.
  rewrite (replace_without_space category H).
  induction kind as [|c kind IH]; simpl; [reflexivity | now rewrite IH].
Qed.

(** X10. For a city or category name without a space, each plot path the
    dashboard looks up is the path under which the plotting script saves
    that plot for the group "City <name>" or "Category <name>". *)
Theorem dashboard_paths_match_saved_files (kind name : string) :
  PyStrExtra.has_space name = false ->
  Dashboard.city_plot_path kind name
  = Visualize.plot_file "plots/usaaf/cities" kind ("City " ++ name) /\
  Dashboard.category_plot_path kind name
  = Visualize.plot_file "plots/usaaf/categories" kind ("Category " ++ name).
Proof.
  intros H. split; [now apply city_path_matches | now apply category_path_matches].
Qed.

Lemma dashboard_paths_match_saved_files_witness :
  Dashboard.city_plot_path "score_distribution" "BERLIN"
  = "plots/usaaf/cities/score_distribution_city_berlin.png"%string /\
  In (Dashboard.city_plot_path "score_distribution" "BERLIN")
     (Visualize.generate_plots empty_frame "City BERLIN" "plots/usaaf/cities").
Proof.
  split; [reflexivity|].
  rewrite (proj1 (dashboard_paths_match_saved_files "score_distribution"
                    "BERLIN" eq_refl)).
  now left.
Defined.

Lemma has_space_city_path (kind city : string) :
  PyStrExtra.has_space city = true ->
  PyStrExtra.has_space (Dashboard.city_plot_path kind city) = true /\
  PyStrExtra.has_space (Dashboard.category_plot_path kind city) = true.
Proof.
  intros H.
  unfold Dashboard.city_plot_path, Dashboard.category_plot_path.
  rewrite !has_space_append, !has_space_lower, H.
  now rewrite !orb_true_r.
Qed.

(** X11. The script never saves a file with a space in its name into the
    city or category directory, while for a name with a space the
    dashboard looks up a path with that space: no plot of a multi-word
    city or category is ever found, and with only the script's files on
    disk such a city is reported as having no visualizations. *)
Theorem multi_word_names_never_found (kind name : string) :
  PyStrExtra.has_space name = true ->
  (forall (data : DataFrame) (group_name : string),
      ~ In (Dashboard.city_plot_path kind name)
           (Visualize.generate_plots data group_name "plots/usaaf/cities")) /\
  (forall (data : DataFrame) (group_name : string),
      ~ In (Dashboard.category_plot_path kind name)
           (Visualize.generate_plots data group_name "plots/usaaf/categories")) /\
  (forall path_exists : string -> bool,
      (forall p, path_exists p = true ->
                 exists data group_name,
                   In p (Visualize.generate_plots data group_name
                           "plots/usaaf/cities")) ->
      Dashboard.city_has_visualizations path_exists name = false).
Proof.
  intros H.
  assert (Hnone : forall d data g p,
             PyStrExtra.has_space d = false ->
             PyStrExtra.has_space p = true ->
             ~ In p (Visualize.generate_plots data g d)).
  { intros d data g p Hd Hp Hin.
    apply generate_plots_files in Hin as (k & Hk & ->).
    rewrite has_space_plot_file, Hd in Hp. simpl in Hp.
    repeat (destruct Hk as [<- | Hk]; [discriminate Hp|]). destruct Hk. }
  split; [|split].
  - intros data g. apply Hnone; [reflexivity|].
    apply (has_space_city_path kind name H).
  - intros data g. apply Hnone; [reflexivity|].
    apply (has_space_city_path kind name H).
  - intros path_exists Hfs. unfold Dashboard.city_has_visualizations.
    assert (Hno : forall k, path_exists (Dashboard.city_plot_path k name) = false).
    { intros k. destruct (path_exists _) eqn:E; [|reflexivity].
      destruct (Hfs _ E) as (data & g & Hin). exfalso.
      revert Hin. apply Hnone; [reflexivity|].
      apply (has_space_city_path k name H). }
    now rewrite !Hno.
Qed.

Lemma multi_word_names_never_found_witness :
  ~ In (Dashboard.city_plot_path "score_distribution" "BAD KREUZNACH")
       (Visualize.generate_plots empty_frame "City BAD KREUZNACH"
          "plots/usaaf/cities").
Proof.
  exact (proj1 (multi_word_names_never_found "score_distribution"
                  "BAD KREUZNACH" eq_refl) empty_frame "City BAD KREUZNACH"%string).
Defined.

(** ** The city read back from the selector *)

Lemma split_space_first_append (a b : string) :
  PyStrExtra.has_space a = false ->
  PyStrExtra.split_space_first (a ++ String " " b) = a.
Proof.
  induction a as [|c a IH]; simpl; [reflexivity|].
  intros H. apply orb_false_iff in H as [Hc Ha]. now rewrite Hc, (IH Ha).
Qed.

Lemma split_space_first_prefix (a : string) :
  PyStrExtra.has_space a = true ->
  PyStrExtra.has_space (PyStrExtra.split_space_first a) = false /\
  exists rest, a = (PyStrExtra.split_space_first a ++ String " " rest)%string.
Proof.
  induction a as [|c a IH]; simpl; [discriminate|].
  destruct (Ascii.eqb_spec c " ") as [-> | Hc]; simpl.
  - intros _. split; [reflexivity|]. now exists a.
  - intros H. destruct (IH H) as (Hs & rest & Hr).
    apply Ascii.eqb_neq in Hc. rewrite Hc. split; [exact Hs|].
    exists rest. now rewrite <- Hr.
Qed.

Lemma split_space_first_append_spaced (a b : string) :
  PyStrExtra.has_space a = true ->
  PyStrExtra.split_space_first (a ++ b) = PyStrExtra.split_space_first a.
Proof.
  induction a as [|c a IH]; simpl; [discriminate|].
  destruct (Ascii.eqb c " "); simpl; [reflexivity|].
  intros H. now rewrite (IH H).
Qed.

(** X12. The city page reads the city back as the text before the first
    space of the selected entry: a city without a space is read back as
    it is, and of a city with a space only the first word is read back,
    which is not that city. *)
Theorem selected_city_first_word (city : string) (has_viz : bool) :
  (PyStrExtra.has_space city = false ->
   Dashboard.selected_city (Dashboard.city_option (city, has_viz)) = city) /\
  (PyStrExtra.has_space city = true ->
   Dashboard.selected_city (Dashboard.city_option (city, has_viz)) <> city /\
   PyStrExtra.has_space
     (Dashboard.selected_city (Dashboard.city_option (city, has_viz))) = false /\
   exists rest,
     city = (Dashboard.selected_city (Dashboard.city_option (city, has_viz))
             ++ String " " rest)%string).
Proof.
  unfold Dashboard.selected_city, Dashboard.city_option. simpl fst. simpl snd.
  split; intros H.
  - change (" " ++ (if has_viz then Dashboard.check_mark else Dashboard.circle_mark))%string
      with (String " " (if has_viz then Dashboard.check_mark else Dashboard.circle_mark)).
    now apply split_space_first_append.
  - rewrite (split_space_first_append_spaced _ _ H).
    destruct (split_space_first_prefix city H) as (Hs & rest & Hr).
    split; [|split; [exact Hs | now exists rest]].
    intros E. rewrite E in Hs. congruence.
Qed.

Lemma selected_city_first_word_witness :
  Dashboard.selected_city (Dashboard.city_option ("BERLIN"%string, true))
  = "BERLIN"%string /\
  Dashboard.selected_city (Dashboard.city_option ("BAD KREUZNACH"%string, false))
  <> "BAD KREUZNACH"%string.
Proof.
  split.
  - exact (proj1 (selected_city_first_word "BERLIN" true) eq_refl).
  - exact (proj1 (proj2 (selected_city_first_word "BAD KREUZNACH" false) eq_refl)).
Defined.

(** ** Tonnage by year, clipping and bar labels *)

Section Tonnage.
Local Open Scope Q_scope.

Lemma Qlt_bool_iff (a b : Q) : Pandas.Qlt_bool a b = true <-> a < b.
Proof.
  split; [|apply Qlt_bool_true].
  unfold Pandas.Qlt_bool. intros H. apply negb_true_iff in H.
  apply Qnot_le_lt. intros Hle. apply Qle_bool_iff in Hle. congruence.
Qed.

Lemma Qlt_bool_cases (a b : Q) :
  (Pandas.Qlt_bool a b = true /\ a < b) \/ (Pandas.Qlt_bool a b = false /\ b <= a).
Proof.
  destruct (Pandas.Qlt_bool a b) eqn:E.
  - left. split; [reflexivity | now apply Qlt_bool_iff].
  - right. split; [reflexivity|]. apply Qnot_lt_le. intros H.
    apply Qlt_bool_iff in H. congruence.
Qed.

(** The three tonnage cells of a row after [add_he_columns]: all missing,
    or all present and adding up. *)
Lemma add_he_columns_balanced (df : DataFrame) (r' : Raid) :
  In r' (rows (Visualize.add_he_columns df)) ->
  (TOTAL_TONS r' = None /\ HE_TONS r' = None /\ INCENDIARY_TONS r' = None) \/
  (exists t he inc,
      TOTAL_TONS r' = Some t /\ HE_TONS r' = Some he /\
      INCENDIARY_TONS r' = Some inc /\ he + inc == t).
Proof.
  unfold Visualize.add_he_columns.
  rewrite !rows_assign_column, !map_map. intros H.
  apply in_map_iff in H as (r & <- & _). simpl.
  destruct (TOTAL_TONS r) as [t|]; simpl; [right | left; auto].
  do 3 eexists. repeat (split; [reflexivity|]). field.
Qed.

Lemma sums_balanced (l : list Raid) :
  Forall (fun r =>
            (TOTAL_TONS r = None /\ HE_TONS r = None /\ INCENDIARY_TONS r = None)
            \/ (exists t he inc,
                   TOTAL_TONS r = Some t /\ HE_TONS r = Some he /\
                   INCENDIARY_TONS r = Some inc /\ he + inc == t)) l ->
  Plotting.sum_skipna (map HE_TONS l)
  + Plotting.sum_skipna (map INCENDIARY_TONS l)
  == Plotting.sum_skipna (map TOTAL_TONS l).
Proof.
  unfold Plotting.sum_skipna.
  induction 1 as [|r l Hr _ IH]; simpl; [reflexivity|].
  destruct Hr as [(-> & -> & ->) | (t & he & inc & -> & -> & -> & E)];
    simpl; [exact IH|].
  fold (Pandas.Qsum (Pandas.dropna (map HE_TONS l))).
  fold (Pandas.Qsum (Pandas.dropna (map INCENDIARY_TONS l))).
  fold (Pandas.Qsum (Pandas.dropna (map TOTAL_TONS l))).
  lra.
Qed.

(** X13. In every year of [bombing_by_year] the high-explosive and the
    incendiary tons add up to the total tons, also when cells are missing:
    the stacked bar ends where the total is written. *)
Theorem bombing_by_year_adds_up (df : DataFrame) (year : Z) :
  Plotting.he_tons (Plotting.bombing_by_year df year)
  + Plotting.incendiary_tons (Plotting.bombing_by_year df year)
  == Plotting.total_tons (Plotting.bombing_by_year df year).
Proof.
  unfold Plotting.bombing_by_year. simpl.
  apply sums_balanced. apply Forall_forall. intros r Hr.
  unfold Visualize.year_data, select in Hr. cbn [rows] in Hr.
  apply filter_In in Hr as [Hr _].
  exact (add_he_columns_balanced df r Hr).
Qed.

(** X14. [clip(lower, upper)] with [lower <= upper] keeps a missing cell
    missing and puts a present one inside the bounds: a value within the
    bounds is unchanged, a smaller one becomes [lower], a larger one
    [upper]; clipping twice is clipping once, and the order of values is
    kept.  The clipped tonnage lies in [0,500]. *)
Theorem clip_within_bounds (lower upper : Q) :
  lower <= upper ->
  Plotting.clip lower upper None = None /\
  (forall v, exists w,
      Plotting.clip lower upper (Some v) = Some w /\
      lower <= w <= upper /\
      (lower <= v <= upper -> w = v) /\
      (v < lower -> w = lower) /\
      (upper < v -> w = upper)) /\
  (forall c,
      Plotting.clip lower upper (Plotting.clip lower upper c)
      = Plotting.clip lower upper c) /\
  (forall v v' w w',
      v <= v' ->
      Plotting.clip lower upper (Some v) = Some w ->
      Plotting.clip lower upper (Some v') = Some w' -> w <= w') /\
  (forall (df : DataFrame) (c : option Q),
      In c (Plotting.tonnage_data df) ->
      match c with
      | Some w => 0 <= w <= 500
      | None => True
      end).
Proof.
  intros Hb.
  assert (Hclip : forall lo hi v, lo <= hi ->
             lo <= Plotting.Qminimum (Plotting.Qmaximum v lo) hi <= hi /\
             (lo <= v <= hi -> Plotting.Qminimum (Plotting.Qmaximum v lo) hi = v) /\
             (v < lo -> Plotting.Qminimum (Plotting.Qmaximum v lo) hi = lo) /\
             (hi < v -> Plotting.Qminimum (Plotting.Qmaximum v lo) hi = hi)).
  { intros lo hi v Hlh. unfold Plotting.Qminimum, Plotting.Qmaximum.
    destruct (Qlt_bool_cases v lo) as [[-> H1] | [-> H1]];
      [destruct (Qlt_bool_cases hi lo) as [[-> H2] | [-> H2]]
      |destruct (Qlt_bool_cases hi v) as [[-> H2] | [-> H2]]];
      repeat split; intros; try reflexivity; try lra. }
  split; [reflexivity|]. split; [|split; [|split]].
  - intros v. eexists. split; [reflexivity|]. apply (Hclip lower upper v Hb).
  - intros c. destruct c as [v|]; simpl; [|reflexivity].
    destruct (Hclip lower upper v Hb) as (Hin & _).
    destruct (Hclip lower upper
                (Plotting.Qminimum (Plotting.Qmaximum v lower) upper) Hb)
      as (_ & Hid & _).
    rewrite (Hid Hin). reflexivity.
  - intros v v' w w' Hv Hw Hw'. simpl in Hw, Hw'.
    inversion Hw; inversion Hw'; subst; clear Hw Hw'.
    unfold Plotting.Qminimum, Plotting.Qmaximum.
    destruct (Qlt_bool_cases v lower) as [[-> H1] | [-> H1]];
      destruct (Qlt_bool_cases v' lower) as [[-> H2] | [-> H2]];
      repeat match goal with
             | |- context [Pandas.Qlt_bool ?a ?b] =>
                 let H := fresh in
                 destruct (Qlt_bool_cases a b) as [[-> H] | [-> H]]
             end; lra.
  - intros df c Hin. unfold Plotting.tonnage_data in Hin.
    apply in_map_iff in Hin as (r & <- & _).
    destruct (TOTAL_TONS r) as [t|]; simpl; [|exact I].
    apply (Hclip 0 500 t). discriminate.
Qed.

Lemma clip_within_bounds_witness :
  exists w, Plotting.clip 0 500 (Some 1200) = Some w /\ w = 500.
Proof.
  destruct (proj1 (proj2 (clip_within_bounds 0 500 ltac:(discriminate))) 1200)
    as (w & Hw & _ & _ & _ & Hhi).
  exists w. split; [exact Hw|]. apply Hhi. reflexivity.
Defined.

Lemma bar_labels_inside (row : list Q) :
  (forall x, In x row -> 0 <= x) ->
  forall cumulative_sum pos v,
    In (pos, v) (Plotting.bar_labels cumulative_sum row) ->
    5 <= v /\ cumulative_sum + v / 2 <= pos
    /\ pos + v / 2 <= cumulative_sum + Pandas.Qsum row.
Proof.
  induction row as [|x row IH]; intros Hpos c0 pos v Hin; [destruct Hin|].
  assert (Hx : 0 <= x) by (apply Hpos; now left).
  assert (Hrow : forall y, In y row -> 0 <= y) by (intros; apply Hpos; now right).
  assert (Hs : 0 <= Pandas.Qsum row).
  { clear -Hrow. induction row as [|y row IH]; simpl; [lra|].
    assert (0 <= y) by (apply Hrow; now left).
    assert (0 <= Pandas.Qsum row) by (apply IH; intros; apply Hrow; now right).
    unfold Pandas.Qsum in *. lra. }
  simpl in Hin. apply in_app_or in Hin as [Hin | Hin].
  - destruct (Qle_bool 5 x) eqn:E; [|destruct Hin].
    destruct Hin as [Hin | []]. inversion Hin; subst; clear Hin.
    apply Qle_bool_iff in E.
    cbn [Pandas.Qsum fold_right]. fold (Pandas.Qsum row).
    assert (Hh : v / 2 + v / 2 == v) by field.
    repeat split; lra.
  - destruct (IH Hrow _ _ _ Hin) as (H5 & Hlo & Hhi).
    cbn [Pandas.Qsum fold_right]. fold (Pandas.Qsum row).
    assert (0 <= v / 2).
    { apply Qle_shift_div_l; [reflexivity | lra]. }
    repeat split; lra.
Qed.

Lemma pct_row_nonnegative {K : Type} (eqb : K -> K -> bool)
    (categories : list string) (pairs : list (option K * option string))
    (k : K) (x : Q) :
  (0 < Pandas.row_sum eqb categories pairs k)%nat ->
  In x (Pandas.pct_row eqb categories pairs k) -> 0 <= x.
Proof.
  intros Hpos Hin. unfold Pandas.pct_row in Hin.
  apply in_map_iff in Hin as (c & <- & _).
  apply Qmult_le_0_compat; [|discriminate].
  apply Qle_shift_div_l.
  - replace 0 with (inject_Z 0) by reflexivity. rewrite <- Zlt_Qlt. lia.
  - rewrite Qmult_0_l. replace 0 with (inject_Z 0) by reflexivity.
    rewrite <- Zle_Qle. lia.
Qed.

(** X15. The percentage texts on a stacked bar: a text is written only
    for a segment of at least 5, at the middle of its segment, so it lies
    between the segment's lower and upper edge; on a bar of the year or
    city table, whose segments add up to 100, every text lies between 2.5
    and 97.5, inside the plotted range. *)
Theorem bar_labels_inside_segments :
  (forall (row : list Q) (cumulative_sum pos v : Q),
      (forall x, In x row -> 0 <= x) ->
      In (pos, v) (Plotting.bar_labels cumulative_sum row) ->
      5 <= v /\ cumulative_sum + v / 2 <= pos
      /\ pos + v / 2 <= cumulative_sum + Pandas.Qsum row) /\
  (forall (df : DataFrame) (year : Z) (row : list Q) (pos v : Q),
      Visualize.year_cat_pct df year = Some row ->
      In (pos, v) (Plotting.bar_labels 0 row) ->
      5 # 2 <= pos <= 195 # 2) /\
  (forall (top_cities : list string) (df : DataFrame) (city : string)
          (row : list Q) (pos v : Q),
      Visualize.city_categories_pct top_cities df city = Some row ->
      In (pos, v) (Plotting.bar_labels 0 row) ->
      5 # 2 <= pos <= 195 # 2).
Proof.
  assert (Hbar : forall row pos v,
             (forall x, In x row -> 0 <= x) -> Pandas.Qsum row == 100 ->
             In (pos, v) (Plotting.bar_labels 0 row) ->
             5 # 2 <= pos <= 195 # 2).
  { intros row pos v Hpos Hsum Hin.
    destruct (bar_labels_inside row Hpos _ _ _ Hin) as (H5 & Hlo & Hhi).
    rewrite Hsum in Hhi.
    assert (Hh : v / 2 + v / 2 == v) by field.
    split; lra. }
  split; [|split].
  - intros row c0 pos v Hpos Hin. exact (bar_labels_inside row Hpos _ _ _ Hin).
  - intros df year row pos v Hrow Hin. unfold Visualize.year_cat_pct in Hrow.
    destruct (_ && (0 <? _))%nat eqn:E; [|discriminate].
    inversion Hrow; subst row; clear Hrow.
    apply andb_true_iff in E as [_ E]. apply Nat.ltb_lt in E.
    refine (Hbar _ pos v _ _ Hin); [|now apply pct_row_sum].
    intros x. now apply pct_row_nonnegative.
  - intros top df city row pos v Hrow Hin.
    unfold Visualize.city_categories_pct in Hrow.
    destruct (0 <? _)%nat eqn:E; [|discriminate].
    inversion Hrow; subst row; clear Hrow. apply Nat.ltb_lt in E.
    refine (Hbar _ pos v _ _ Hin); [|now apply pct_row_sum].
    intros x. now apply pct_row_nonnegative.
Qed.

Lemma bar_labels_inside_segments_witness :
  Forall (fun label => 5 <= snd label /\ 0 + snd label / 2 <= fst label)
         (Plotting.bar_labels 0 [60; 3; 37]).
Proof.
  apply Forall_forall. intros [pos v] Hin. simpl fst. simpl snd.
  destruct (proj1 bar_labels_inside_segments [60; 3; 37] 0 pos v) as (H5 & Hlo & _).
  - intros x [<- | [<- | [<- | []]]]; discriminate.
  - exact Hin.
  - split; assumption.
Defined.

End Tonnage.

(** ** Which groups share a file *)

Lemma string_length_append (a b : string) :
  String.length (a ++ b) = String.length a + String.length b.
Proof.
  induction a as [|c a IH]; simpl; [reflexivity | now rewrite IH].
Qed.

Lemma append_cancel_r (a b t : string) :
  (a ++ t)%string = (b ++ t)%string -> a = b.
Proof.
  revert b. induction a as [|c a IH]; intros [|c' b] H; simpl in H.
  - reflexivity.
  - apply (f_equal String.length) in H. simpl in H.
    rewrite string_length_append in H. lia.
  - apply (f_equal String.length) in H. simpl in H.
    rewrite string_length_append in H. lia.
  - injection H as Hc H. subst c'. f_equal. exact (IH b H).
Qed.

(** Two plot files of one directory are the same file only if they are
    of the same kind and their groups have the same stem. *)
Lemma plot_file_inj (d k1 k2 g1 g2 : string) :
  In k1 ["score_distribution"; "tonnage_vs_incendiary";
         "scores_by_target_type"; "category_pie"; "component_radar"]%string ->
  In k2 ["score_distribution"; "tonnage_vs_incendiary";
         "scores_by_target_type"; "category_pie"; "component_radar"]%string ->
  Visualize.plot_file d k1 g1 = Visualize.plot_file d k2 g2 ->
  k1 = k2 /\ Visualize.file_stem g1 = Visualize.file_stem g2.
Proof.
  intros H1 H2 H. unfold Visualize.plot_file in H.
  do 2 apply append_cancel_l in H.
  simpl in H1, H2.
  repeat match goal with
         | Hk : _ \/ _ |- _ => destruct Hk as [<- | Hk]
         | Hk : False |- _ => destruct Hk
         end;
    first [ simpl in H; discriminate H
          | do 2 apply append_cancel_l in H; apply append_cancel_r in H;
            split; [reflexivity | exact H] ].
Qed.

Ltac other_kind :=
  let H := fresh in
  intros H; simpl in H;
  repeat (destruct H as [H | H];
          [apply plot_file_inj in H as [H _];
           [discriminate H | simpl; tauto | simpl; tauto]|]);
  destruct H.

(** X16. One call never saves two plots under one name.  Two groups of a
    directory share no file when their stems (the group name with spaces
    turned into underscores, in lower case) differ, and a group with the
    same stem saves under exactly the same names, so that it overwrites
    the other group's plots. *)
Theorem generate_plots_file_collisions (data1 data2 : DataFrame)
    (g1 g2 d : string) :
  NoDup (Visualize.generate_plots data1 g1 d) /\
  (Visualize.file_stem g1 <> Visualize.file_stem g2 ->
   forall f, In f (Visualize.generate_plots data1 g1 d) ->
             ~ In f (Visualize.generate_plots data2 g2 d)) /\
  (Visualize.file_stem g1 = Visualize.file_stem g2 ->
   Visualize.generate_plots data1 g1 d = Visualize.generate_plots data1 g2 d).
Proof.
  split; [|split].
  - unfold Visualize.generate_plots, Visualize.score_distribution_file,
      Visualize.tonnage_vs_incendiary_file, Visualize.scores_by_target_type_file,
      Visualize.category_pie_file, Visualize.component_radar_file.
    destruct (20 <? _), (5 <=? _); simpl;
      repeat (constructor; [other_kind|]); constructor.
  - intros Hs f H1 H2.
    apply generate_plots_files in H1 as (k1 & Hk1 & ->).
    apply generate_plots_files in H2 as (k2 & Hk2 & E).
    apply Hs. exact (proj2 (plot_file_inj d k1 k2 g1 g2 Hk1 Hk2 E)).
  - intros Hs.
    unfold Visualize.generate_plots, Visualize.score_distribution_file,
      Visualize.tonnage_vs_incendiary_file, Visualize.scores_by_target_type_file,
      Visualize.category_pie_file, Visualize.component_radar_file,
      Visualize.plot_file.
    now rewrite Hs.
Qed.

Lemma generate_plots_file_collisions_witness :
  Visualize.generate_plots empty_frame "Category Oil Refinery" "plots"
  = Visualize.generate_plots empty_frame "Category OIL_REFINERY" "plots" /\
  ~ In "plots/score_distribution_city_kiel.png"%string
       (Visualize.generate_plots empty_frame "City BERLIN" "plots").
Proof.
  split.
  - apply (proj2 (proj2 (generate_plots_file_collisions empty_frame empty_frame
                           "Category Oil Refinery" "Category OIL_REFINERY"
                           "plots"))).
    reflexivity.
  - apply (proj1 (proj2 (generate_plots_file_collisions empty_frame empty_frame
                           "City KIEL" "City BERLIN" "plots"))).
    + discriminate.
    + now left.
Defined.

(** ** The category loop, seen from the dashboard *)

Lemma In_unique (x : string) (l : list string) :
  In x (Plotting.unique l) <-> In x l.
Proof.
  induction l as [|y l IH]; simpl; [tauto|].
  rewrite filter_In, IH. split.
  - intros [H | [H _]]; auto.
  - intros [H | H]; [now left|].
    destruct (String.eqb_spec y x) as [E | E]; [now left | right].
    split; [exact H | reflexivity].
Qed.

Lemma NoDup_unique (l : list string) : NoDup (Plotting.unique l).
Proof.
  induction l as [|y l IH]; simpl; constructor.
  - rewrite filter_In. intros [_ H]. now rewrite String.eqb_refl in H.
  - now apply NoDup_filter.
Qed.

Lemma In_dropna {A : Type} (v : A) (col : list (option A)) :
  In v (Pandas.dropna col) <-> In (Some v) col.
Proof.
  induction col as [|c col IH]; simpl; [tauto|].
  destruct c as [w|]; simpl; rewrite IH; split.
  - intros [-> | H]; auto.
  - intros [[= ->] | H]; auto.
  - auto.
  - intros [H | H]; [discriminate | exact H].
Qed.

Lemma generate_plots_run_done (data : DataFrame) (g d : string) :
  snd (Visualize.generate_plots_run data g d) = None ->
  fst (Visualize.generate_plots_run data g d)
  = Visualize.generate_plots data g d.
Proof.
  unfold Visualize.generate_plots_run, Visualize.pie_step,
    Visualize.radar_step, Visualize.generate_plots.
  repeat match goal with
         | [ |- context [if ?b then _ else _] ] => destruct b
         end; cbn [fst snd app]; intros H; try discriminate H; reflexivity.
Qed.

Lemma generate_plots_run_files (data : DataFrame) (g d f : string) :
  In f (fst (Visualize.generate_plots_run data g d)) ->
  exists kind,
    In kind ["score_distribution"; "tonnage_vs_incendiary";
             "scores_by_target_type"; "category_pie";
             "component_radar"]%string /\
    f = Visualize.plot_file d kind g.
Proof.
  unfold Visualize.generate_plots_run, Visualize.pie_step,
    Visualize.radar_step.
  repeat match goal with
         | [ |- context [if ?b then _ else _] ] => destruct b
         end; cbn [fst snd app In]; intros H;
    repeat (destruct H as [<- | H];
            [eexists; (split; [|reflexivity]); simpl; tauto|]);
    destruct H.
Qed.

Lemma run_calls_files (calls : list (DataFrame * string)) (dir f : string) :
  In f (fst (Plotting.run_calls calls dir)) ->
  exists data g,
    In (data, g) calls /\
    In f (fst (Visualize.generate_plots_run data g dir)).
Proof.
  induction calls as [|[data g] rest IH]; simpl; [intros []|].
  destruct (Visualize.generate_plots_run data g dir) as [saved [e|]] eqn:E.
  - simpl. intros H. exists data, g. split; [now left | now rewrite E].
  - destruct (Plotting.run_calls rest dir) as [more err]. simpl in *.
    intros H. apply in_app_or in H as [H | H].
    + exists data, g. split; [now left | now rewrite E].
    + destruct (IH H) as (data' & g' & Hin & Hf).
      exists data', g'. split; [now right | exact Hf].
Qed.

Lemma run_calls_done (calls : list (DataFrame * string)) (dir : string) :
  snd (Plotting.run_calls calls dir) = None ->
  forall data g,
    In (data, g) calls ->
    snd (Visualize.generate_plots_run data g dir) = None /\
    incl (fst (Visualize.generate_plots_run data g dir))
         (fst (Plotting.run_calls calls dir)).
Proof.
  induction calls as [|[data g] rest IH]; simpl; [intros _ ? ? []|].
  destruct (Visualize.generate_plots_run data g dir) as [saved [e|]] eqn:E;
    [discriminate|].
  destruct (Plotting.run_calls rest dir) as [more err]. simpl in *.
  intros Herr data' g' [[= <- <-] | Hin].
  - rewrite E. split; [reflexivity|]. simpl. now apply incl_appl, incl_refl.
  - destruct (IH Herr data' g' Hin) as [H1 H2].
    split; [exact H1|]. now apply incl_appr.
Qed.

(** X17. The Category page finds what the category loop saved, when the
    loop runs to its end: for every category of the table whose name is
    ASCII and has no space, the score distribution, scatter and box plot
    the page looks up are among the saved files, the radar chart too when
    the category has at least 5 raids and the pie chart when it has more
    than 20. *)
Theorem category_page_finds_saved_plots (df : DataFrame) (category : string) :
  In (Some category) (map CATEGORY (rows df)) ->
  PyStr.is_ascii category = true ->
  PyStrExtra.has_space category = false ->
  snd (Plotting.plots_by_category_run df) = None ->
  let n := List.length (rows (Plotting.category_data df category)) in
  let saved := fst (Plotting.plots_by_category_run df) in
  0 < n /\
  In (Dashboard.category_plot_path "score_distribution" category) saved /\
  In (Dashboard.category_plot_path "tonnage_vs_incendiary" category) saved /\
  In (Dashboard.category_plot_path "scores_by_target_type" category) saved /\
  (20 < n -> In (Dashboard.category_plot_path "category_pie" category) saved) /\
  (5 <= n -> In (Dashboard.category_plot_path "component_radar" category) saved).
Proof.
  intros Hin _ Hsp Hdone n saved.
  assert (Hn : 0 < n).
  { subst n. apply in_map_iff in Hin as (r & Hr & Hin).
    assert (Hf : In r (rows (Plotting.category_data df category))).
    { unfold Plotting.category_data, select. simpl. apply filter_In.
      split; [exact Hin|]. rewrite Hr. apply String.eqb_refl. }
    destruct (rows (Plotting.category_data df category));
      [destruct Hf | simpl; lia]. }
  assert (Hcall : In (Plotting.category_data df category,
                      ("Category " ++ category)%string)
                     (Plotting.category_calls df)).
  { unfold Plotting.category_calls. apply in_map_iff. exists category.
    split; [reflexivity|]. apply In_unique, In_dropna. exact Hin. }
  destruct (run_calls_done _ _ Hdone _ _ Hcall) as [Hnone Hincl].
  rewrite (generate_plots_run_done _ _ _ Hnone) in Hincl.
  destruct (generate_plots_contains (Plotting.category_data df category)
              ("Category " ++ category) "plots/usaaf/categories")
    as (H1 & H2 & H3 & H4 & H5).
  rewrite !(category_path_matches _ category Hsp).
  split; [exact Hn|].
  repeat split; intros; apply Hincl; auto.
Qed.

Lemma category_page_finds_saved_plots_witness :
  let r := mkRaid None (Some "OIL"%string) None None (Some 3%Q) None None
             None None None None None in
  let df :=
    Visualize.add_score_category
      (mkDataFrame
         ["CATEGORY"; "AREA_BOMBING_SCORE_NORMALIZED"; "TOTAL_TONS";
          "INCENDIARY_PERCENT"; "TARGET_SCORE"; "TONNAGE_SCORE";
          "INCENDIARY_SCORE"]%string
         [r; r; r; r; r]) in
  snd (Plotting.plots_by_category_run df) = None /\
  In "plots/usaaf/categories/component_radar_category_oil.png"%string
     (fst (Plotting.plots_by_category_run df)).
Proof.
  intros r df.
  assert (Hdone : snd (Plotting.plots_by_category_run df) = None)
    by reflexivity.
  split; [exact Hdone|].
  apply (proj2 (proj2 (proj2 (proj2 (proj2
           (category_page_finds_saved_plots df "OIL" (or_introl eq_refl)
              eq_refl eq_refl Hdone)))))).
  simpl. lia.
Defined.

(** ** The year loop, seen from the dashboard *)

Lemma In_insert_sorted (x y : Z) (l : list Z) :
  In y (Plotting.insert_sorted x l) <-> y = x \/ In y l.
Proof.
  induction l as [|z l IH]; simpl; [intuition|].
  destruct (x <=? z)%Z; simpl; [intuition|]. rewrite IH. intuition.
Qed.

Lemma In_sorted (y : Z) (l : list Z) : In y (Plotting.sorted l) <-> In y l.
Proof.
  unfold Plotting.sorted. induction l as [|x l IH]; simpl; [tauto|].
  rewrite In_insert_sorted, IH. intuition.
Qed.

Lemma In_unique_years (x : Z) (l : list Z) :
  In x (Plotting.unique_years l) <-> In x l.
Proof.
  induction l as [|y l IH]; simpl; [tauto|].
  rewrite filter_In, IH. split.
  - intros [H | [H _]]; auto.
  - intros [H | H]; [now left|].
    destruct (Z.eqb_spec y x) as [E | E]; [now left | right].
    split; [exact H | reflexivity].
Qed.

Lemma year_path_matches (kind : string) (year : Z) :
  (1940 <= year <= 1945)%Z ->
  Dashboard.year_plot_path kind year
  = Visualize.plot_file "plots/usaaf/years" kind
      ("Year " ++ PyStrExtra.str_int year).
Proof.
  intros H.
  assert (E : (year = 1940 \/ year = 1941 \/ year = 1942 \/ year = 1943
               \/ year = 1944 \/ year = 1945)%Z) by lia.
  unfold Dashboard.year_plot_path, Visualize.plot_file, Dashboard.PLOT_PATH.
  repeat (destruct E as [-> | E]); subst; simpl; do 18 f_equal;
    (induction kind as [|c kind IH]; simpl; [reflexivity | now rewrite IH]).
Qed.

Lemma prepare_Year_column (df d : DataFrame) :
  Plotting.prepare df = Ok d ->
  map Year (rows d) = map Year (rows (Visualize.clean_year df)).
Proof.
  unfold Plotting.prepare, Visualize.add_Location.
  destruct (has_column _ "target_location"); [|discriminate].
  destruct (str_accessor _); [|discriminate].
  intros [= <-]. unfold Visualize.add_score_category.
  rewrite !rows_assign_column, !map_map. apply map_ext.
  intros r. now destruct r.
Qed.

(** X18. The year loop, on the table the script prepares from a file
    with a [YEAR] column of floats and no [Year] column: every row has a
    year in 1941..1946; the loop saves plots only for the years 1941 to
    1945 that have a raid, under the names the Year page looks up; for
    1940, which the page also offers, no plot of any kind is ever saved;
    and when the loop runs to its end the page finds the score
    distribution, the scatter and the box plot of each of those years. *)
Theorem year_page_finds_saved_plots (df d : DataFrame) :
  has_column df "Year" = false -> has_column df "YEAR" = true ->
  forallb (fun r => Pandas.float_cell (YEAR r)) (rows df) = true ->
  Plotting.prepare df = Ok d ->
  let run := Plotting.plots_by_year_run d in
  Forall (fun r => exists y, Year r = Some y /\ (1941 <= y <= 1946)%Z)
         (rows d) /\
  (forall f, In f (fst run) ->
     exists (year : Z) (kind : string),
       (1941 <= year <= 1945)%Z /\ In (Some year) (map Year (rows d)) /\
       In kind ["score_distribution"; "tonnage_vs_incendiary";
                "scores_by_target_type"; "category_pie";
                "component_radar"]%string /\
       f = Dashboard.year_plot_path kind year) /\
  (forall kind,
     In kind ["score_distribution"; "tonnage_vs_incendiary";
              "scores_by_target_type"; "category_pie";
              "component_radar"]%string ->
     ~ In (Dashboard.year_plot_path kind 1940) (fst run)) /\
  (snd run = None ->
   forall year,
     (1941 <= year <= 1945)%Z -> In (Some year) (map Year (rows d)) ->
     In (Dashboard.year_plot_path "score_distribution" year) (fst run) /\
     In (Dashboard.year_plot_path "tonnage_vs_incendiary" year) (fst run) /\
     In (Dashboard.year_plot_path "scores_by_target_type" year) (fst run)).
Proof.
  intros HY Hoff _ Hprep run. subst run.
  assert (Hsaved : forall f, In f (fst (Plotting.plots_by_year_run d)) ->
             exists (year : Z) (kind : string),
               (1941 <= year <= 1945)%Z /\ In (Some year) (map Year (rows d)) /\
               In kind ["score_distribution"; "tonnage_vs_incendiary";
                        "scores_by_target_type"; "category_pie";
                        "component_radar"]%string /\
               f = Dashboard.year_plot_path kind year).
  { intros f Hf. unfold Plotting.plots_by_year_run in Hf.
    apply run_calls_files in Hf as (data & g & Hcall & Hf).
    unfold Plotting.year_calls in Hcall.
    apply in_flat_map in Hcall as (year & Hy & Hcall).
    apply In_sorted, In_unique_years, In_dropna in Hy.
    destruct ((1941 <=? year)%Z && (year <=? 1945)%Z) eqn:E; [|destruct Hcall].
    apply andb_true_iff in E as [E1 E2].
    apply Z.leb_le in E1, E2.
    destruct (0 <? _); [|destruct Hcall].
    destruct Hcall as [[= <- <-] | []].
    apply generate_plots_run_files in Hf as (kind & Hk & ->).
    exists year, kind. repeat split; try assumption.
    symmetry. apply year_path_matches. lia. }
  split.
  { apply Forall_forall. intros r Hr.
    apply (in_map Year) in Hr.
    rewrite (prepare_Year_column df d Hprep),
      (clean_year_Year_column df HY Hoff) in Hr.
    apply in_map_iff in Hr as (r0 & Hy & _).
    exists (Visualize.derive_Year (YEAR r0)). split; [now symmetry|].
    apply Visualize_derive_Year_range. }
  split; [exact Hsaved|]. split.
  - intros kind Hk Hin.
    destruct (Hsaved _ Hin) as (year & kind' & Hy & _ & Hk' & E).
    rewrite (year_path_matches kind 1940) in E by lia.
    rewrite (year_path_matches kind' year) in E by lia.
    apply plot_file_inj in E as [_ E]; [|exact Hk | exact Hk'].
    assert (C : (year = 1941 \/ year = 1942 \/ year = 1943 \/ year = 1944
                 \/ year = 1945)%Z) by lia.
    repeat (destruct C as [-> | C]); subst; discriminate E.
  - intros Hdone year Hy Hin.
    assert (Hcall : In (Visualize.year_data d year,
                        ("Year " ++ PyStrExtra.str_int year)%string)
                       (Plotting.year_calls d)).
    { unfold Plotting.year_calls. apply in_flat_map.
      exists year. split; [now apply In_sorted, In_unique_years, In_dropna|].
      assert (E1 : (1941 <=? year)%Z = true) by (apply Z.leb_le; lia).
      assert (E2 : (year <=? 1945)%Z = true) by (apply Z.leb_le; lia).
      rewrite E1, E2. simpl andb. cbv iota zeta.
      assert (Hn : (0 <? List.length (rows (Visualize.year_data d year))) = true).
      { apply Nat.ltb_lt. apply in_map_iff in Hin as (r & Hr & Hin).
        assert (Hd : In r (rows (Visualize.year_data d year))).
        { unfold Visualize.year_data, select. simpl. apply filter_In.
          split; [exact Hin|]. rewrite Hr. apply Z.eqb_refl. }
        destruct (rows (Visualize.year_data d year));
          [destruct Hd | simpl; lia]. }
      rewrite Hn. now left. }
    destruct (run_calls_done _ _ Hdone _ _ Hcall) as [Hnone Hincl].
    rewrite (generate_plots_run_done _ _ _ Hnone) in Hincl.
    destruct (generate_plots_contains (Visualize.year_data d year)
                ("Year " ++ PyStrExtra.str_int year) "plots/usaaf/years")
      as (H1 & H2 & H3 & _).
    rewrite !(year_path_matches _ year) by lia.
    repeat split; apply Hincl; assumption.
Qed.

Lemma year_page_finds_saved_plots_witness :
  let r := fun offset =>
             mkRaid (Some "KIEL"%string) None (Some offset) None (Some 3%Q)
               None None None None None None None in
  let df :=
    mkDataFrame
      ["target_location"; "YEAR"; "AREA_BOMBING_SCORE_NORMALIZED";
       "TOTAL_TONS"; "INCENDIARY_PERCENT"; "TARGET_SCORE"; "TONNAGE_SCORE";
       "INCENDIARY_SCORE"]%string
      [r 4%Q; r 0%Q; r 4%Q] in
  exists d,
    Plotting.prepare df = Ok d /\
    snd (Plotting.plots_by_year_run d) = None /\
    In "plots/usaaf/years/score_distribution_year_1944.png"%string
       (fst (Plotting.plots_by_year_run d)) /\
    ~ In "plots/usaaf/years/score_distribution_year_1940.png"%string
         (fst (Plotting.plots_by_year_run d)).
Proof.
  intros r df.
  destruct (Plotting.prepare df) as [d|e] eqn:Hprep; [|discriminate Hprep].
  exists d.
  assert (Hdone : snd (Plotting.plots_by_year_run d) = None).
  { vm_compute in Hprep. injection Hprep as <-. reflexivity. }
  pose proof (year_page_finds_saved_plots df d eq_refl eq_refl eq_refl Hprep)
    as (_ & _ & H1940 & Hbase).
  assert (H1944 : In (Some 1944%Z) (map Year (rows d))).
  { vm_compute in Hprep. injection Hprep as <-. now left. }
  split; [reflexivity|]. split; [exact Hdone|]. split.
  - exact (proj1 (Hbase Hdone 1944%Z ltac:(lia) H1944)).
  - apply (H1940 "score_distribution"%string). now left.
Defined.

(** ** Normalized locations *)

Lemma islower_upper_char (c : ascii) :
  PyStr.islower (PyStr.upper_char c) = false.
Proof.
  destruct c as [[] [] [] [] [] [] [] []]; reflexivity.
Qed.

Lemma is_uppercased_upper (s : string) :
  PyStr.is_uppercased (PyStr.upper s) = true.
Proof.
  unfold PyStr.upper.
  induction s as [|c s IH]; simpl; [reflexivity|].
  now rewrite islower_upper_char, IH.
Qed.

Lemma first_char_upper (s : string) :
  PyStr.first_char (PyStr.upper s)
  = option_map PyStr.upper_char (PyStr.first_char s).
Proof. destruct s; reflexivity. Qed.

Lemma last_char_upper (s : string) :
  PyStr.last_char (PyStr.upper s)
  = option_map PyStr.upper_char (PyStr.last_char s).
Proof.
  unfold PyStr.upper.
  induction s as [|c s IH]; [reflexivity|].
  destruct s as [|d s]; [reflexivity|].
  change (PyStr.last_char (PyStr.map_chars PyStr.upper_char (String c (String d s))))
    with (PyStr.last_char (PyStr.map_chars PyStr.upper_char (String d s))).
  exact IH.
Qed.

Lemma not_space_upper_char (o : option ascii) :
  PyStr.not_space (option_map PyStr.upper_char o) = PyStr.not_space o.
Proof.
  destruct o as [c|]; simpl; [|reflexivity]. now rewrite isspace_upper_char.
Qed.

Lemma last_char_rstrip (s : string) :
  PyStr.not_space (PyStr.last_char (PyStr.rstrip s)) = true.
Proof.
  induction s as [|c s IH]; [reflexivity|].
  simpl PyStr.rstrip. destruct (PyStr.rstrip s) as [|d r].
  - destruct (PyStr.isspace c) eqn:E; simpl; [reflexivity | now rewrite E].
  - exact IH.
Qed.

Lemma is_trimmed_strip (s : string) : PyStr.is_trimmed (PyStr.strip s) = true.
Proof.
  unfold PyStr.is_trimmed. apply andb_true_iff. split.
  - unfold PyStr.strip.
    destruct (lstrip_head s) as [-> | (c & r & -> & Hc)]; [reflexivity|].
    destruct (rstrip_head c r Hc) as [r' ->]. simpl. now rewrite Hc.
  - apply last_char_rstrip.
Qed.

(** X19. A normalized location is canonical: for an ASCII string, the
    normalized string has no leading or trailing whitespace and no
    lowercase letter, so normalizing leaves it unchanged. *)
Theorem normalized_location_is_canonical (s : string) :
  PyStr.is_ascii s = true ->
  PyStr.is_ascii (normalize_location s) = true /\
  PyStr.is_trimmed (normalize_location s) = true /\
  PyStr.is_uppercased (normalize_location s) = true /\
  PyStr.strip (normalize_location s) = normalize_location s /\
  PyStr.upper (normalize_location s) = normalize_location s.
Proof.
  intros Ha.
  assert (Ht : PyStr.is_trimmed (normalize_location s) = true).
  { unfold normalize_location, PyStr.is_trimmed.
    rewrite first_char_upper, last_char_upper, !not_space_upper_char.
    exact (is_trimmed_strip s). }
  assert (Hu : PyStr.is_uppercased (normalize_location s) = true)
    by apply is_uppercased_upper.
  split; [now apply is_ascii_normalize_location|].
  split; [exact Ht|]. split; [exact Hu|].
  split; [now apply strip_fixed | now apply upper_fixed].
Qed.

Lemma normalized_location_is_canonical_witness :
  PyStr.is_ascii "  bad Kreuznach " = true /\
  normalize_location "  bad Kreuznach " = "BAD KREUZNACH"%string /\
  PyStr.strip (normalize_location "  bad Kreuznach ")
  = normalize_location "  bad Kreuznach ".
Proof.
  split; [reflexivity|]. split; [reflexivity|].
  exact (proj1 (proj2 (proj2 (proj2
           (normalized_location_is_canonical "  bad Kreuznach " eq_refl))))).
Defined.

Lemma has_space_upper_char (c : ascii) :
  Ascii.eqb (PyStr.upper_char c) " " = Ascii.eqb c " ".
Proof.
  destruct c as [[] [] [] [] [] [] [] []]; reflexivity.
Qed.

Lemma has_space_upper (s : string) :
  PyStrExtra.has_space (PyStr.upper s) = PyStrExtra.has_space s.
Proof.
  unfold PyStr.upper.
  induction s as [|c s IH]; simpl; [reflexivity|].
  now rewrite has_space_upper_char, IH.
Qed.

Lemma selected_city_read_back (city : string) (has_viz : bool) :
  (PyStrExtra.has_space city = false ->
   Dashboard.selected_city (Dashboard.city_option (city, has_viz)) = city) /\
  (PyStrExtra.has_space city = true ->
   PyStrExtra.has_space
     (Dashboard.selected_city (Dashboard.city_option (city, has_viz))) = false
   /\ Dashboard.selected_city (Dashboard.city_option (city, has_viz))
      = PyStrExtra.split_space_first city).
Proof.
  unfold Dashboard.selected_city, Dashboard.city_option. simpl fst. simpl snd.
  split; intros H.
  - change (" " ++ (if has_viz then Dashboard.check_mark else Dashboard.circle_mark))%string
      with (String " " (if has_viz then Dashboard.check_mark else Dashboard.circle_mark)).
    now apply split_space_first_append.
  - rewrite (split_space_first_append_spaced _ _ H).
    split; [apply (split_space_first_prefix city H) | reflexivity].
Qed.

(** X20. The raid table of the City page is filtered by the city read
    back from the selector: for an uppercase city without a space it
    lists exactly the raids of that location, and for a city with a space
    it lists none of the raids of that location. *)
Theorem city_page_table (h : App.Heap) (df : nat) (city : string)
    (has_viz : bool) :
  let d := App.deref h df in
  let selected :=
    Dashboard.selected_city (Dashboard.city_option (city, has_viz)) in
  has_column d "target_location" = true ->
  exists h',
    App.get_filtered_df h df "city" (App.VStr selected)
    = Ok (List.length h, h') /\
    (PyStrExtra.has_space city = true ->
     forall r, target_location r = Some city ->
               ~ In r (rows (App.deref h' (List.length h)))) /\
    (PyStrExtra.has_space city = false -> PyStr.is_uppercased city = true ->
     forall r, In r (rows (App.deref h' (List.length h)))
               <-> In r (rows d) /\ target_location r = Some city).
Proof.
  intros d selected Hc.
  unfold App.get_filtered_df. fold d. rewrite Hc. simpl.
  eexists. split; [reflexivity|].
  rewrite deref_alloc_new. unfold select. simpl.
  split.
  - intros Hsp r Hr Hin. apply filter_In in Hin as [_ Hm].
    rewrite Hr in Hm. simpl in Hm. apply String.eqb_eq in Hm.
    destruct (proj2 (selected_city_read_back city has_viz) Hsp) as [Hs _].
    fold selected in Hs.
    assert (E : PyStrExtra.has_space city
                = PyStrExtra.has_space (PyStr.upper selected)) by now rewrite Hm.
    rewrite has_space_upper, Hs, Hsp in E. discriminate E.
  - intros Hsp Hu r.
    assert (Hsel : selected = city)
      by exact (proj1 (selected_city_read_back city has_viz) Hsp).
    rewrite Hsel, (upper_fixed _ Hu), filter_In.
    destruct (target_location r) as [t|]; simpl.
    + rewrite String.eqb_eq. intuition congruence.
    + intuition discriminate.
Qed.

Lemma city_page_table_witness :
  let kiel := mkRaid (Some "KIEL"%string) None None None None None None None
                None None None None in
  let bad := mkRaid (Some "BAD KREUZNACH"%string) None None None None None
               None None None None None None in
  let d := mkDataFrame ["target_location"%string] [kiel; bad] in
  exists h',
    App.get_filtered_df [d] 0 "city"
      (App.VStr (Dashboard.selected_city
                   (Dashboard.city_option ("BAD KREUZNACH"%string, false))))
    = Ok (1, h') /\
    ~ In bad (rows (App.deref h' 1)).
Proof.
  intros kiel bad d.
  destruct (city_page_table [d] 0 "BAD KREUZNACH" false eq_refl)
    as (h' & Hg & Hnone & _).
  exists h'. split; [exact Hg|].
  exact (Hnone eq_refl bad eq_refl).
Defined.

(** X21. Loading and filtering compose: for a file whose
    [target_location] column holds a string, with ASCII locations and an
    ASCII city name, the City page of a city lists as many raids as the
    file has rows whose location, once stripped and uppercased, is the
    uppercased city name, whatever the spelling of the location in the
    file. *)
Theorem city_filter_after_load (csv : DataFrame) (city : string)
    (h : App.Heap) (df : nat) :
  has_column csv "target_location" = true ->
  str_accessor (map target_location (rows csv)) = true ->
  forallb (fun r => ascii_cell (target_location r)) (rows csv) = true ->
  PyStr.is_ascii city = true ->
  (has_column csv "Year" = false -> has_column csv "YEAR" = true ->
   Forall (fun r => YEAR r <> None) (rows csv)) ->
  App.deref h df = App.load_data csv ->
  exists h',
    App.get_filtered_df h df "city" (App.VStr city)
    = Ok (List.length h, h') /\
    List.length (rows (App.deref h' (List.length h)))
    = List.length
        (filter (fun r =>
                   App.str_cell_eq
                     (normalize_location_cell (target_location r))
                     (App.VStr (PyStr.upper city)))
                (rows csv)).
Proof.
  intros Hloc Hstr _ _ Hdef Hd.
  destruct (load_data_rows csv Hloc Hstr) as (g & Hg & Hf).
  { intros Hc. apply andb_true_iff in Hc as [HY Hoff].
    apply negb_true_iff in HY. now apply Hdef. }
  assert (Hcol : has_column (App.deref h df) "target_location" = true).
  { rewrite Hd, Hg.
    destruct (negb (has_column csv "Year") && has_column csv "YEAR").
    - rewrite has_column_new_frame. fold (has_column csv "target_location").
      now rewrite Hloc.
    - exact Hloc. }
  unfold App.get_filtered_df. rewrite Hcol. simpl.
  eexists. split; [reflexivity|].
  rewrite deref_alloc_new, Hd, Hg. unfold select. simpl.
  rewrite filter_map_swap, length_map. f_equal.
  apply filter_ext. intros r. now rewrite (proj1 (Hf r)).
Qed.

Lemma city_filter_after_load_witness :
  let a := mkRaid (Some " kiel"%string) None None None None None None None
             None None None None in
  let b := mkRaid (Some "Kiel "%string) None None None None None None None
             None None None None in
  let csv := mkDataFrame ["target_location"%string] [a; b] in
  exists h',
    App.get_filtered_df [App.load_data csv] 0 "city" (App.VStr "KIEL")
    = Ok (1, h') /\
    List.length (rows (App.deref h' 1)) = 2.
Proof.
  intros a b csv.
  destruct (city_filter_after_load csv "KIEL" [App.load_data csv] 0
              eq_refl eq_refl eq_refl eq_refl)
    as (h' & Hg & Hn).
  - discriminate.
  - reflexivity.
  - exists h'. split; [exact Hg | exact Hn].
Defined.
